(** * allora_offchain_node_py: the wallet's transaction pipeline and the
      per-topic worker loop, embedded from the Python sources.

    Source files embedded here:
    - [transactions/tx.py]   class [Transaction]
    - [api_node/api_node.py] class [APINode]
    - [wallet/wallet.py]     class [Wallet]
    - [worker/worker.py]     class [Worker]
    - [params/*.py]          [WorkerParams], [APINodeParams]
    - [main.py]              the start-up checks of [main]

    Conventions of the embedding.
    - Python [int] is [Z].  A Python [float] that is only read, stored,
      compared or printed (the gas price, the gas adjustment, an inference
      value) is kept as the number it stands for, a rational [Q].  The one
      place that computes with floats, [Transaction.set_fee], is embedded in
      binary64: products are rounded to nearest, ties to even ([SpecFloat]
      with precision 53 and maximal exponent 1024), and [int(x)] truncates
      toward zero.
    - A method that mutates [self] is a computation in the monad [M]: explicit
      state passing over [State], with exceptions ([Raise]) and a fuel budget
      for [while] loops ([OutOfFuel] when the budget is used up).
    - The chain node and the inference endpoint are outside the program:
      their replies are read from a [World], the k-th call of a kind getting
      the k-th reply of that kind.  Every external call and every
      [time.sleep] is recorded in the state's [trace], newest first.
    - Fields that are unsigned 64-bit integers on the chain (gas used,
      account number, sequence, balance) arrive as [N].
    - Python looks a method up when the call is made.  The methods of
      wallet.py are embedded over what the [Transaction] object answers to
      the two calls they make, [set_fee] with a [gas_adjustment] keyword
      and [get_fee] ([TransactionClass]); the class of tx.py is
      [Transaction_src], and what is stated of the program as committed is
      stated with it.
    - One worker thread is followed; the wallet's lock is not modelled.
    - Logging is not modelled, except that a method call made inside a log
      f-string is kept (it is evaluated like any other call). *)

From Stdlib Require Import ZArith QArith List String Bool Lia.
From Stdlib Require Import Strings.Byte DecimalString Sorting.Sorted.
From Stdlib Require Floats.SpecFloat.
Import ListNotations.

#[local] Open Scope string_scope.
#[local] Open Scope Z_scope.

(** ** Python values, exceptions and outcomes *)

Definition bytes := list byte.

(** The few Python values whose dynamic type matters in the sources. *)
Inductive pyval :=
| PyStr (s : string)
| PyInt (z : Z)
| PyFloat (q : Q).

(** Python's [==] between the values above: a [str] never equals an [int]. *)
Definition py_eqb (a b : pyval) : bool :=
  match a, b with
  | PyStr s, PyStr t => String.eqb s t
  | PyInt x, PyInt y => Z.eqb x y
  | PyFloat x, PyFloat y => Qeq_bool x y
  | PyInt x, PyFloat y => Qeq_bool (inject_Z x) y
  | PyFloat x, PyInt y => Qeq_bool x (inject_Z y)
  | _, _ => false
  end.

Inductive exn :=
| TypeError (msg : string)
| AttributeError (msg : string)
| KeyError (key : string)
| ValueError (msg : string)
| OverflowError (msg : string)
| SystemExit (code : Z).

Inductive outcome (A : Type) :=
| Ret (a : A)
| Raise (e : exn)
| OutOfFuel.
Arguments Ret {A} a.
Arguments Raise {A} e.
Arguments OutOfFuel {A}.

Definition obind {A B} (o : outcome A) (k : A -> outcome B) : outcome B :=
  match o with
  | Ret a => k a
  | Raise e => Raise e
  | OutOfFuel => OutOfFuel
  end.

(** *** Python floats in arithmetic: binary64

    A float is a [spec_float]; every operation rounds to nearest, ties to
    even, as CPython's do on IEEE 754 hardware. *)
Definition float64 : Type := SpecFloat.spec_float.

Definition f64_mul (x y : float64) : float64 := SpecFloat.SFmul 53 1024 x y.

(** The float nearest to the integer [z]: what [int * float] makes of its
    left operand.  CPython raises [OverflowError] for an int beyond the
    range of the floats. *)
Definition py_float_of_int (z : Z) : outcome float64 :=
  match SpecFloat.binary_normalize 53 1024 z 0 false with
  | SpecFloat.S754_infinity _ =>
      Raise (OverflowError "int too large to convert to float")
  | x => Ret x
  end.

(** The float nearest to the rational [q]: the float that stands for a
    number kept as [Q] (for a decimal literal, what [float("...")] reads).
    The quotient of the two integers is rounded once. *)
Definition f64_of_Q (q : Q) : float64 :=
  match Qnum q with
  | Z0 => SpecFloat.S754_zero false
  | Zpos n =>
      SpecFloat.SFdiv 53 1024 (SpecFloat.S754_finite false n 0)
        (SpecFloat.S754_finite false (Qden q) 0)
  | Zneg n =>
      SpecFloat.SFdiv 53 1024 (SpecFloat.S754_finite true n 0)
        (SpecFloat.S754_finite false (Qden q) 0)
  end.

(** The float literal [1.5], which is exact: 3 * 2^-1. *)
Definition f64_1_5 : float64 := SpecFloat.binary_normalize 53 1024 3 (-1) false.

(** [int(x)] on a float: truncation toward zero; infinities and NaN have
    no integer. *)
Definition py_int (x : float64) : outcome Z :=
  match x with
  | SpecFloat.S754_zero _ => Ret 0
  | SpecFloat.S754_finite sign m e =>
      let magnitude :=
        match e with
        | Zneg k => Z.shiftr (Zpos m) (Zpos k)
        | _ => Z.shiftl (Zpos m) e
        end in
      Ret (if sign then - magnitude else magnitude)
  | SpecFloat.S754_infinity _ =>
      Raise (OverflowError "cannot convert float infinity to integer")
  | SpecFloat.S754_nan =>
      Raise (ValueError "cannot convert float NaN to integer")
  end.

(** Binding of keyword arguments at a call [f(k1=v1, ...)] of a function
    whose parameters (after [self]) are [params], none with a default:
    an unknown keyword, or a parameter left without a value, is a
    [TypeError]. *)
Definition has_key (k : string) (kwargs : list (string * pyval)) : bool :=
  existsb (fun kv => String.eqb (fst kv) k) kwargs.

Definition bind_kwargs (fname : string) (params : list string)
    (kwargs : list (string * pyval)) : outcome unit :=
  match find (fun kv => negb (existsb (String.eqb (fst kv)) params)) kwargs with
  | Some kv =>
      Raise (TypeError (fname ++ "() got an unexpected keyword argument '"
                          ++ fst kv ++ "'"))
  | None =>
      match find (fun p => negb (has_key p kwargs)) params with
      | Some p =>
          Raise (TypeError (fname ++ "() missing 1 required positional argument: '"
                              ++ p ++ "'"))
      | None => Ret tt
      end
  end.

(** [str(n)] for an int. *)
Definition str_int (z : Z) : string := NilZero.string_of_int (Z.to_int z).

(** ** Protobuf messages built by the program *)

Record Coin := { denom : string; amount : Z (* the decimal string [str(n)] *) }.

Record Fee := { gas_limit : Z; fee_amount : list Coin }.

Record SignerInfo := {
  public_key : bytes;          (* Any-packed secp256k1 PubKey *)
  sign_mode_direct : bool;     (* ModeInfo.Single(SIGN_MODE_DIRECT) *)
  signer_sequence : Z
}.

Record InputInference := {
  ii_topic_id : Z;
  ii_block_height : Z;
  ii_inferer : string;
  ii_value : string;
  ii_extra_data : bytes;
  ii_proof : string
}.

Record InputWorkerDataBundle := {
  wb_worker : string;
  wb_nonce : Z;
  wb_topic_id : Z;
  wb_inference : InputInference;    (* the bundle's forecast is [None] *)
  wb_signature : bytes;
  wb_pubkey : string
}.

Inductive request :=
| RegisterRequest (sender : string) (topic_id : Z) (owner : string)
    (is_reputer : bool)
| InsertWorkerPayloadRequest (sender : string)
    (worker_data_bundle : InputWorkerDataBundle).

Record AnyMsg := { type_url : string; packed : request }.

Record TxBody := { messages : list AnyMsg; memo : string; timeout_height : Z }.

Record AuthInfo := { signer_infos : list SignerInfo; auth_fee : Fee }.

Record SignDoc := {
  sd_body_bytes : bytes;
  sd_auth_info_bytes : bytes;
  sd_chain_id : string;
  sd_account_number : Z
}.

Record TxRaw := {
  raw_body_bytes : bytes;
  raw_auth_info_bytes : bytes;
  signatures : list bytes
}.

(** The third-party functions the program calls on these messages.  They
    are functions of their arguments: [SerializeToString] of protobuf,
    [ecdsa.SigningKey.sign_deterministic] (RFC 6979, with sha256 and the
    canonical encoding), [base64.b64encode], [str] on a float and
    [bytes.hex]. *)
Record Lib := {
  serialize_inference : InputInference -> bytes;
  serialize_body : TxBody -> bytes;
  serialize_auth_info : AuthInfo -> bytes;
  serialize_sign_doc : SignDoc -> bytes;
  serialize_tx_raw : TxRaw -> bytes;
  sign_deterministic : bytes -> bytes -> bytes;   (* private key, message *)
  b64encode : bytes -> string;
  str_float : Q -> string;
  hex : bytes -> string
}.

(** ** The objects of the program *)

(** [Wallet]: the class attributes give the defaults before the start-up
    fetch. *)
Record Wallet := {
  initialized : bool;
  priv_key_bytes : bytes;
  pub_key_bytes : bytes;
  pub_key_obj : bytes;
  address : string;
  account_number : Z;
  sequence : Z;
  balance : Z;
  gas_adjustment : Q
}.

(** [APINode]: what the wallet's node caches at construction. *)
Record APINode := { chain_id : string; gas_price : Q; connected : bool }.

(** [Transaction]: [tx_body] is unset until [set_tx_body] is called. *)
Record Transaction := {
  fee : Fee;
  signer_info : SignerInfo;
  tx_body : option TxBody
}.

Record APINodeParams := { tx_check_retries : Z; tx_check_freq : Z }.

Record WorkerParams := {
  topic_id : Z;
  inference_url : string;
  nonce_fetch_freq : Z;
  inference_fetch_retries : Z;
  inference_fetch_retry_freq : Z
}.

(** ** transactions/tx.py *)

(** [Transaction.__init__]: a zero fee in [uallo] and the signer metadata,
    with a copy of the wallet's current sequence. *)
Definition Transaction_init (w : Wallet) : Transaction :=
  {| fee := {| gas_limit := 0;
               fee_amount := [ {| denom := "uallo"; amount := 0 |} ] |};
     signer_info := {| public_key := pub_key_obj w;
                       sign_mode_direct := true;
                       signer_sequence := sequence w |};
     tx_body := None |}.

Definition set_tx_body (tx : Transaction) (request_type : string)
    (req : request) (timeout : Z) : Transaction :=
  let msg_any := {| type_url := request_type; packed := req |} in
  {| fee := fee tx;
     signer_info := signer_info tx;
     tx_body := Some {| messages := [msg_any]; memo := "";
                        timeout_height := timeout |} |}.

(** [Transaction.set_fee(self, gas_limit, gas_price)], as tx.py defines it:
    [gas_limit=int(gas_limit * 1.5)] and
    [amount=str(int(gas_limit * 1.5 * gas_price))], the factor 1.5 written
    in the method, both products taken in binary64 from left to right.
    [price] is the number the float [gas_price] stands for.  The range
    check protobuf makes on the uint64 field [gas_limit] is the library's
    and is not embedded. *)
Definition set_fee (tx : Transaction) (gas : Z) (price : Q)
    : outcome Transaction :=
  obind (py_float_of_int gas) (fun g =>
  let adjusted := f64_mul g f64_1_5 in
  obind (py_int adjusted) (fun limit =>
  obind (py_int (f64_mul adjusted (f64_of_Q price))) (fun amount_ =>
  Ret {| fee := {| gas_limit := limit;
                   fee_amount := [ {| denom := "uallo"; amount := amount_ |} ] |};
         signer_info := signer_info tx;
         tx_body := tx_body tx |}))).

Section Signing.
Context (L : Lib).

(** The signature computed inside [get_tx_bytes] ([final_sig]). *)
Definition final_sig (tx : Transaction) (body : TxBody) (w : Wallet)
    (n : APINode) : bytes :=
  let auth_info := {| signer_infos := [signer_info tx]; auth_fee := fee tx |} in
  let sign_doc := {| sd_body_bytes := serialize_body L body;
                     sd_auth_info_bytes := serialize_auth_info L auth_info;
                     sd_chain_id := chain_id n;
                     sd_account_number := account_number w |} in
  let sign_bytes := serialize_sign_doc L sign_doc in
  sign_deterministic L (priv_key_bytes w) sign_bytes.

(** [Transaction.get_tx_bytes]: reads the transaction, the wallet's key and
    account number and the node's chain id; nothing else. *)
Definition get_tx_bytes (tx : Transaction) (w : Wallet) (n : APINode)
    : outcome string :=
  match tx_body tx with
  | None =>
      Raise (AttributeError "'Transaction' object has no attribute 'tx_body'")
  | Some body =>
      let auth_info :=
        {| signer_infos := [signer_info tx]; auth_fee := fee tx |} in
      let tx_raw := {| raw_body_bytes := serialize_body L body;
                       raw_auth_info_bytes := serialize_auth_info L auth_info;
                       signatures := [final_sig tx body w n] |} in
      let tx_bytes := serialize_tx_raw L tx_raw in
      Ret (b64encode L tx_bytes)
  end.

End Signing.

(** *** The [Transaction] methods as wallet.py calls them

    wallet.py calls [tx.set_fee(gas_limit=.., gas_price=.., gas_adjustment=..)]
    and [tx.get_fee()].  The pipeline below is written against this
    interface; [Transaction_src] is what tx.py provides for it. *)
Record TransactionClass := {
  call_set_fee : Transaction -> Z -> Q -> Q -> outcome Transaction;
  call_get_fee : Transaction -> outcome Z
}.

Definition set_fee_params : list string := ["gas_limit"; "gas_price"].

(** tx.py: [set_fee] has the parameters [gas_limit] and [gas_price] only,
    and the class defines no [get_fee]. *)
Definition Transaction_src : TransactionClass :=
  {| call_set_fee tx gas price adjustment :=
       obind (bind_kwargs "Transaction.set_fee" set_fee_params
                [("gas_limit", PyInt gas); ("gas_price", PyFloat price);
                 ("gas_adjustment", PyFloat adjustment)])
             (fun _ => set_fee tx gas price);
     call_get_fee tx :=
       Raise (AttributeError
                "'Transaction' object has no attribute 'get_fee'") |}.

(** The exception of that call: the [TypeError] Python raises for the
    keyword [gas_adjustment]. *)
Definition unexpected_gas_adjustment : exn :=
  TypeError
    "Transaction.set_fee() got an unexpected keyword argument 'gas_adjustment'".

(** ** The world outside the program *)

(** A JSON object of the node's REST API, as far as the program looks at
    it: the keys ["code"] and ["message"] of an error object, and the one
    key each caller expects (["gas_info"], ["tx_response"], ["block"], ...),
    here [payload]. *)
Record json (A : Type) := {
  j_code : option Z;
  j_message : string;
  payload : option A
}.
Arguments j_code {A} _.
Arguments j_message {A} _.
Arguments payload {A} _.

(** The result of one [httpx] request: [RequestError] is the exception
    [httpx.RequestError]; a response has a status code and a body, [None]
    when [req.json()] raises [JSONDecodeError]. *)
Inductive reply (A : Type) :=
| RequestError
| Response (status_code : Z) (body : option (json A)).
Arguments RequestError {A}.
Arguments Response {A} status_code body.

(** The ["tx_response"] object of the broadcast and of the tx query. *)
Record TxResponse := {
  txr_height : Z;
  txr_code : Z;
  txr_raw_log : string;
  txr_txhash : string
}.

(** The ["info"] object of the account query: both fields are uint64 on
    the chain. *)
Record AccountInfo := { info_account_number : N; info_sequence : N }.

(** The body of the inference endpoint: a text that [float()] reads as the
    number [v], or a text on which [float()] raises [ValueError]. *)
Inductive inference_text :=
| Numeric (v : Q)
| NotNumeric (text : string).

Inductive inference_reply :=
| InferenceRequestError
| InferenceResponse (status_code : Z) (text : inference_text).

Inductive endpoint :=
| EpLatestHeight | EpSimulate | EpBroadcast | EpTx
| EpAccountInfo | EpBalance
| EpRegistered | EpTopicActive | EpWhitelisted | EpWhitelistEnabled
| EpNonce | EpInference.

Definition endpoint_eqb (a b : endpoint) : bool :=
  match a, b with
  | EpLatestHeight, EpLatestHeight | EpSimulate, EpSimulate
  | EpBroadcast, EpBroadcast | EpTx, EpTx | EpAccountInfo, EpAccountInfo
  | EpBalance, EpBalance | EpRegistered, EpRegistered
  | EpTopicActive, EpTopicActive | EpWhitelisted, EpWhitelisted
  | EpWhitelistEnabled, EpWhitelistEnabled | EpNonce, EpNonce
  | EpInference, EpInference => true
  | _, _ => false
  end.

(** What the program does to the outside, in order. *)
Inductive event :=
| Request (ep : endpoint) (arg : string)   (* one HTTP request *)
| Sleep (seconds : Z)                      (* time.sleep *)
| IsSet (flag : bool)                      (* stop_event.is_set() *)
| CallRegister (topic : Z)                 (* entry of register_for_topic *)
| CallSubmit (value : Q) (topic nonce : Z) (* entry of submit_inference *)
| ThreadStart (topic : Z)                  (* Worker.start *)
| ClientClose.                             (* inference_client.close() *)

Definition is_request (ep : endpoint) (e : event) : bool :=
  match e with
  | Request ep' _ => endpoint_eqb ep ep'
  | _ => false
  end.

Definition is_sleep (e : event) : bool :=
  match e with Sleep _ => true | _ => false end.

Definition is_submit (e : event) : bool :=
  match e with CallSubmit _ _ _ => true | _ => false end.

Definition is_network (e : event) : bool :=
  match e with Request _ _ => true | _ => false end.

Definition count (p : event -> bool) (tr : list event) : nat :=
  List.length (filter p tr).

(** The replies of the node and of the inference endpoint, by endpoint and
    by the number of earlier requests to that endpoint; and the moment the
    orchestrator calls [Worker.stop] from the main thread: [interrupt k]
    holds when that happens while the worker's k-th event is under way. *)
Record World := {
  latest_height_reply : nat -> reply Z;
  simulate_reply : nat -> reply N;                 (* gas_info.gas_used *)
  broadcast_reply : nat -> reply TxResponse;
  tx_reply : nat -> reply TxResponse;
  account_info_reply : nat -> reply AccountInfo;
  balance_reply : nat -> reply N;                  (* balance.amount *)
  registered_reply : nat -> reply bool;
  topic_active_reply : nat -> reply bool;
  whitelisted_reply : nat -> reply bool;
  whitelist_enabled_reply : nat -> reply bool;
  nonce_reply : nat -> reply (list Z);             (* nonces.nonces[*].block_height *)
  inference_replies : nat -> inference_reply;
  interrupt : nat -> bool
}.

(** ** Program state and the monad of methods *)

Record State := {
  wallet : Wallet;              (* the one Wallet object *)
  node : APINode;               (* the wallet's APINode *)
  latest_used_nonce : Z;        (* Worker.latest_used_nonce *)
  stop_event : bool;            (* Worker.stop_event *)
  trace : list event            (* newest first *)
}.

Definition M (A : Type) : Type := State -> outcome A * State.

Definition ret {A} (a : A) : M A := fun s => (Ret a, s).

Definition bind {A B} (m : M A) (k : A -> M B) : M B := fun s =>
  match m s with
  | (Ret a, s') => k a s'
  | (Raise e, s') => (Raise e, s')
  | (OutOfFuel, s') => (OutOfFuel, s')
  end.

Definition raise {A} (e : exn) : M A := fun s => (Raise e, s).
Definition out_of_fuel {A} : M A := fun s => (OutOfFuel, s).
Definition lift {A} (o : outcome A) : M A := fun s => (o, s).
Definition gets {A} (f : State -> A) : M A := fun s => (Ret (f s), s).
Definition modify (f : State -> State) : M unit := fun s => (Ret tt, f s).

Declare Scope monad_scope.
Delimit Scope monad_scope with monad.
Notation "x <- m ;; k" := (bind m (fun x => k))
  (at level 61, m at next level, right associativity) : monad_scope.
Notation "m ;; k" := (bind m (fun _ => k))
  (at level 61, right associativity) : monad_scope.
#[local] Open Scope monad_scope.

(** [try: body except Exception: pass finally: fin]: an exception of the
    body is swallowed (it is only logged), and [fin] runs in every case. *)
Definition try_except_finally (body fin : M unit) : M unit := fun s =>
  match body s with
  | (Ret tt, s') => fin s'
  | (Raise (SystemExit c), s') =>
      match fin s' with
      | (Ret tt, s'') => (Raise (SystemExit c), s'')
      | r => r
      end
  | (Raise _, s') => fin s'
  | (OutOfFuel, s') => (OutOfFuel, s')
  end.

Definition set_wallet (w : Wallet) (s : State) : State :=
  {| wallet := w; node := node s; latest_used_nonce := latest_used_nonce s;
     stop_event := stop_event s; trace := trace s |}.

Definition set_latest_used_nonce (n : Z) (s : State) : State :=
  {| wallet := wallet s; node := node s; latest_used_nonce := n;
     stop_event := stop_event s; trace := trace s |}.

Definition set_stop_event (s : State) : State :=
  {| wallet := wallet s; node := node s;
     latest_used_nonce := latest_used_nonce s;
     stop_event := true; trace := trace s |}.

Definition with_account (acc seq : Z) (w : Wallet) : Wallet :=
  {| initialized := initialized w; priv_key_bytes := priv_key_bytes w;
     pub_key_bytes := pub_key_bytes w; pub_key_obj := pub_key_obj w;
     address := address w; account_number := acc; sequence := seq;
     balance := balance w; gas_adjustment := gas_adjustment w |}.

Definition with_sequence (seq : Z) (w : Wallet) : Wallet :=
  with_account (account_number w) seq w.

Definition with_balance (b : Z) (w : Wallet) : Wallet :=
  {| initialized := initialized w; priv_key_bytes := priv_key_bytes w;
     pub_key_bytes := pub_key_bytes w; pub_key_obj := pub_key_obj w;
     address := address w; account_number := account_number w;
     sequence := sequence w; balance := b;
     gas_adjustment := gas_adjustment w |}.

Definition with_initialized (w : Wallet) : Wallet :=
  {| initialized := true; priv_key_bytes := priv_key_bytes w;
     pub_key_bytes := pub_key_bytes w; pub_key_obj := pub_key_obj w;
     address := address w; account_number := account_number w;
     sequence := sequence w; balance := balance w;
     gas_adjustment := gas_adjustment w |}.

(** ** Configuration, as [main] reads it *)

(** The dict read from config.json, at the keys that [main] and the params
    classes look up; [None] is an absent key.  A value that is present has
    the type the class annotates for its attribute ([int] for the retry
    counts and the frequencies, [str] for the URLs): a config.json that puts
    a value of another type there, on which the comparison [<= 0] of the
    params classes raises [TypeError], is outside these records.

    One entry of [CONFIG["topics"]]: *)
Record TopicConfig := {
  cfg_topic_id : option Z;
  cfg_inference_url : option string;
  cfg_nonce_fetch_freq : option Z;
  cfg_inference_fetch_retries : option Z;
  cfg_inference_fetch_retry_freq : option Z
}.

Record Config := {
  cfg_seed_phrase : option string;
  cfg_api_url : option string;        (* CONFIG["api_params"]["api_url"] *)
  cfg_tx_check_retries : option Z;
  cfg_tx_check_freq : option Z;
  cfg_gas_adjustment : option Q;      (* CONFIG["gas_adjustment"] *)
  cfg_topics : option (list TopicConfig)
}.

(** ** Sample data for the worked examples *)

(** A stand-in for the third-party functions, readable in the traces: the
    serializers print the numbers that matter, the "signature" of a message
    is the message in brackets, and the "base64" of bytes is their text. *)
Definition text (s : string) : bytes := list_byte_of_string s.

Definition sample_lib : Lib :=
  {| serialize_inference :=
       fun i => text ("inference " ++ ii_value i ++ " for nonce "
                      ++ str_int (ii_block_height i));
     serialize_body :=
       fun b => text ("timeout " ++ str_int (timeout_height b) ++ "; ");
     serialize_auth_info :=
       fun a => text ("sequence "
                      ++ concat "," (map (fun i => str_int (signer_sequence i))
                                         (signer_infos a))
                      ++ ", gas " ++ str_int (gas_limit (auth_fee a))
                      ++ ", fee "
                      ++ concat "," (map (fun c => str_int (amount c))
                                         (fee_amount (auth_fee a)))
                      ++ "; ");
     serialize_sign_doc :=
       fun d => (sd_body_bytes d ++ sd_auth_info_bytes d
                 ++ text (sd_chain_id d ++ " account "
                          ++ str_int (sd_account_number d)))%list;
     serialize_tx_raw :=
       fun r => (raw_body_bytes r ++ raw_auth_info_bytes r
                 ++ List.concat (signatures r))%list;
     sign_deterministic :=
       fun _ message => (text "[" ++ message ++ text "]")%list;
     b64encode := string_of_list_byte;
     str_float := fun _ => "1.5";
     hex := fun _ => "02ab" |}.

(** A reply with status 200 and a JSON object that carries the expected
    key. *)
Definition ok {A} (a : A) : reply A :=
  Response 200 (Some {| j_code := None; j_message := ""; payload := Some a |}).

(** The reply of the node for a transaction it does not know yet. *)
Definition not_found {A} : reply A :=
  Response 404
    (Some {| j_code := Some 5; j_message := "tx not found"; payload := None |}).

Definition sample_receipt : TxResponse :=
  {| txr_height := 1001; txr_code := 0; txr_raw_log := "";
     txr_txhash := "9F2C" |}.

(** A node and an endpoint that answer every request well: gas estimate
    100000, broadcast accepted, transaction found with code 0, an account
    with number 7 and sequence 3, an active topic the wallet is registered
    for, the unfulfilled nonce 101, the inference value 1.5. *)
Definition world_with (simulate : nat -> reply N)
    (broadcast : nat -> reply TxResponse) (balance_ : reply N)
    (nonces : list Z) (inference : nat -> inference_reply)
    (stop_at : nat -> bool) : World :=
  {| latest_height_reply := fun _ => ok 1000;
     simulate_reply := simulate;
     broadcast_reply := broadcast;
     tx_reply := fun _ => ok sample_receipt;
     account_info_reply :=
       fun _ => ok {| info_account_number := 7; info_sequence := 3 |};
     balance_reply := fun _ => balance_;
     registered_reply := fun _ => ok true;
     topic_active_reply := fun _ => ok true;
     whitelisted_reply := fun _ => ok true;
     whitelist_enabled_reply := fun _ => ok false;
     nonce_reply := fun _ => ok nonces;
     inference_replies := inference;
     interrupt := stop_at |}.

Definition good_simulate : nat -> reply N := fun _ => ok 100000%N.
Definition good_broadcast : nat -> reply TxResponse :=
  fun _ => ok sample_receipt.
Definition good_inference : nat -> inference_reply :=
  fun _ => InferenceResponse 200 (Numeric (3 # 2)).
Definition never : nat -> bool := fun _ => false.

Definition world_ok : World :=
  world_with good_simulate good_broadcast (ok 5000000%N) [101]
    good_inference never.

(** The simulate endpoint is down. *)
Definition world_no_simulate : World :=
  world_with (fun _ => RequestError) good_broadcast (ok 5000000%N) [101]
    good_inference never.


(** The account holds nothing. *)
Definition world_zero_balance : World :=
  world_with good_simulate good_broadcast (ok 0%N) [101] good_inference never.

(** The inference endpoint answers 503 every time. *)
Definition world_no_inference : World :=
  world_with good_simulate good_broadcast (ok 5000000%N) [101]
    (fun _ => InferenceResponse 503 (NotNumeric "Service Unavailable")) never.

(** The inference endpoint answers 200 with a body that is not a number. *)
Definition world_bad_body : World :=
  world_with good_simulate good_broadcast (ok 5000000%N) [101]
    (fun _ => InferenceResponse 200 (NotNumeric "<html>")) never.

(** No new nonce; the orchestrator's [stop] lands during the worker's
    third event (the nonce request of the first pass), respectively during
    its fourth (the sleep of the first pass). *)
Definition world_stop_in_work : World :=
  world_with good_simulate good_broadcast (ok 5000000%N) []
    good_inference (Nat.eqb 2).

Definition world_stop_in_sleep : World :=
  world_with good_simulate good_broadcast (ok 5000000%N) []
    good_inference (Nat.eqb 3).

(** A variant of a world in the replies to the transaction query. *)
Definition with_tx_replies (W : World) (replies : nat -> reply TxResponse)
    : World :=
  {| latest_height_reply := latest_height_reply W;
     simulate_reply := simulate_reply W;
     broadcast_reply := broadcast_reply W;
     tx_reply := replies;
     account_info_reply := account_info_reply W;
     balance_reply := balance_reply W;
     registered_reply := registered_reply W;
     topic_active_reply := topic_active_reply W;
     whitelisted_reply := whitelisted_reply W;
     whitelist_enabled_reply := whitelist_enabled_reply W;
     nonce_reply := nonce_reply W;
     inference_replies := inference_replies W;
     interrupt := interrupt W |}.

(** The transaction is never found. *)
Definition world_timeout : World :=
  with_tx_replies world_ok (fun _ => not_found).

Definition sample_wallet (funds : Z) : Wallet :=
  {| initialized := true; priv_key_bytes := []; pub_key_bytes := [];
     pub_key_obj := []; address := "allo1q"; account_number := 7;
     sequence := 3; balance := funds; gas_adjustment := 3 # 2 |}.

Definition sample_node : APINode :=
  {| chain_id := "allora-testnet-1"; gas_price := 10 # 1; connected := true |}.

(** A wallet with [funds] uallo, last-used nonce 100, nothing done yet. *)
Definition sample_state (funds : Z) : State :=
  {| wallet := sample_wallet funds; node := sample_node;
     latest_used_nonce := 100; stop_event := false; trace := [] |}.

Definition rich : State := sample_state 5000000.
Definition poor : State := sample_state 10.

Definition np : APINodeParams :=
  {| tx_check_retries := 10; tx_check_freq := 3 |}.

Definition sample_params : WorkerParams :=
  {| topic_id := 1; inference_url := "http://localhost:8000/inference";
     nonce_fetch_freq := 5; inference_fetch_retries := 2;
     inference_fetch_retry_freq := 3 |}.

Definition sample_config : Config :=
  {| cfg_seed_phrase := Some "abandon ability able";
     cfg_api_url := Some "https://node.example";
     cfg_tx_check_retries := None; cfg_tx_check_freq := None;
     cfg_gas_adjustment := Some (3 # 2);
     cfg_topics :=
       Some [ {| cfg_topic_id := Some 1;
                 cfg_inference_url := Some "http://localhost:8000/inference";
                 cfg_nonce_fetch_freq := None;
                 cfg_inference_fetch_retries := None;
                 cfg_inference_fetch_retry_freq := None |} ] |}.

(** Variants of a world in one endpoint. *)
Definition with_topic_active (W : World) (replies : nat -> reply bool)
    : World :=
  {| latest_height_reply := latest_height_reply W;
     simulate_reply := simulate_reply W;
     broadcast_reply := broadcast_reply W;
     tx_reply := tx_reply W;
     account_info_reply := account_info_reply W;
     balance_reply := balance_reply W;
     registered_reply := registered_reply W;
     topic_active_reply := replies;
     whitelisted_reply := whitelisted_reply W;
     whitelist_enabled_reply := whitelist_enabled_reply W;
     nonce_reply := nonce_reply W;
     inference_replies := inference_replies W;
     interrupt := interrupt W |}.

Definition with_nonce_replies (W : World) (replies : nat -> reply (list Z))
    : World :=
  {| latest_height_reply := latest_height_reply W;
     simulate_reply := simulate_reply W;
     broadcast_reply := broadcast_reply W;
     tx_reply := tx_reply W;
     account_info_reply := account_info_reply W;
     balance_reply := balance_reply W;
     registered_reply := registered_reply W;
     topic_active_reply := topic_active_reply W;
     whitelisted_reply := whitelisted_reply W;
     whitelist_enabled_reply := whitelist_enabled_reply W;
     nonce_reply := replies;
     inference_replies := inference_replies W;
     interrupt := interrupt W |}.

Definition with_latest_height (W : World) (replies : nat -> reply Z)
    : World :=
  {| latest_height_reply := replies;
     simulate_reply := simulate_reply W;
     broadcast_reply := broadcast_reply W;
     tx_reply := tx_reply W;
     account_info_reply := account_info_reply W;
     balance_reply := balance_reply W;
     registered_reply := registered_reply W;
     topic_active_reply := topic_active_reply W;
     whitelisted_reply := whitelisted_reply W;
     whitelist_enabled_reply := whitelist_enabled_reply W;
     nonce_reply := nonce_reply W;
     inference_replies := inference_replies W;
     interrupt := interrupt W |}.

Definition with_account_info (W : World)
    (replies : nat -> reply AccountInfo) : World :=
  {| latest_height_reply := latest_height_reply W;
     simulate_reply := simulate_reply W;
     broadcast_reply := broadcast_reply W;
     tx_reply := tx_reply W;
     account_info_reply := replies;
     balance_reply := balance_reply W;
     registered_reply := registered_reply W;
     topic_active_reply := topic_active_reply W;
     whitelisted_reply := whitelisted_reply W;
     whitelist_enabled_reply := whitelist_enabled_reply W;
     nonce_reply := nonce_reply W;
     inference_replies := inference_replies W;
     interrupt := interrupt W |}.

(** The node answers the transaction query with an error object whose code
    is not 5. *)
Definition world_tx_error : World :=
  with_tx_replies world_ok
    (fun _ => Response 500
                (Some {| j_code := Some 2; j_message := "tx parse error";
                         payload := None |})).

(** The transaction is found at the third query. *)
Definition world_tx_late : World :=
  with_tx_replies world_ok
    (fun k => if (k <? 2)%nat then not_found else ok sample_receipt).

(** The topic is not active; respectively it is active while the worker
    runs its checks and not active from its first pass on. *)
Definition world_inactive : World :=
  with_topic_active world_ok (fun _ => ok false).

Definition world_deactivated : World :=
  with_topic_active world_ok (fun k => ok (k <? 2)%nat).

(** A new nonce at every query, 101, 102, ...; the simulate endpoint is
    down, so that each submission ends at the gas loop; the topic is
    switched off after two passes of the worker. *)
Definition world_rising : World :=
  with_topic_active
    (with_nonce_replies world_no_simulate (fun k => ok [101 + Z.of_nat k]))
    (fun k => ok (k <? 4)%nat).

(** The chain still reports the nonce 100, which the worker has used. *)
Definition world_old_nonce : World :=
  with_nonce_replies world_ok (fun _ => ok [100]).

(** The wallet is not registered for the topic. *)
Definition world_unregistered : World :=
  {| latest_height_reply := latest_height_reply world_ok;
     simulate_reply := simulate_reply world_ok;
     broadcast_reply := broadcast_reply world_ok;
     tx_reply := tx_reply world_ok;
     account_info_reply := account_info_reply world_ok;
     balance_reply := balance_reply world_ok;
     registered_reply := fun _ => ok false;
     topic_active_reply := topic_active_reply world_ok;
     whitelisted_reply := whitelisted_reply world_ok;
     whitelist_enabled_reply := whitelist_enabled_reply world_ok;
     nonce_reply := nonce_reply world_ok;
     inference_replies := inference_replies world_ok;
     interrupt := interrupt world_ok |}.

(** A configuration without the key [gas_adjustment]. *)
Definition sample_config_no_adjustment : Config :=
  {| cfg_seed_phrase := Some "abandon ability able";
     cfg_api_url := Some "https://node.example";
     cfg_tx_check_retries := None; cfg_tx_check_freq := None;
     cfg_gas_adjustment := None;
     cfg_topics :=
       Some [ {| cfg_topic_id := Some 1;
                 cfg_inference_url := Some "http://localhost:8000/inference";
                 cfg_nonce_fetch_freq := None;
                 cfg_inference_fetch_retries := None;
                 cfg_inference_fetch_retry_freq := None |} ] |}.

(** The height query fails. *)
Definition world_no_height : World :=
  with_latest_height world_ok (fun _ => RequestError).

(** The account query is answered with a JSON object that has neither
    ["code"] nor ["info"]. *)
Definition world_bare_account : World :=
  with_account_info world_ok
    (fun _ => Response 200
                (Some {| j_code := None; j_message := ""; payload := None |})).

(** The first two simulations fail, the third gives an estimate; the first
    seven broadcasts fail, the eighth is accepted. *)
Definition world_flaky : World :=
  world_with (fun k => if (k <? 2)%nat then RequestError else ok 100000%N)
    (fun k => if (k <? 7)%nat then RequestError else ok sample_receipt)
    (ok 5000000%N) [101] good_inference never.

(** The endpoint is down once, then answers. *)
Definition world_slow_inference : World :=
  world_with good_simulate good_broadcast (ok 5000000%N) [101]
    (fun k => if (k <? 1)%nat then InferenceRequestError
              else InferenceResponse 200 (Numeric (3 # 2))) never.

(** A configuration with three topic entries, of which the second lacks
    its [inference_url] and the third its [topic_id]. *)
Definition sample_config_three : Config :=
  {| cfg_seed_phrase := Some "abandon ability able";
     cfg_api_url := Some "https://node.example";
     cfg_tx_check_retries := Some 4; cfg_tx_check_freq := Some 0;
     cfg_gas_adjustment := Some (3 # 2);
     cfg_topics :=
       Some [ {| cfg_topic_id := Some 1;
                 cfg_inference_url := Some "http://localhost:8000/inference";
                 cfg_nonce_fetch_freq := Some 7;
                 cfg_inference_fetch_retries := Some (-1);
                 cfg_inference_fetch_retry_freq := None |};
              {| cfg_topic_id := Some 2;
                 cfg_inference_url := None;
                 cfg_nonce_fetch_freq := None;
                 cfg_inference_fetch_retries := None;
                 cfg_inference_fetch_retry_freq := None |};
              {| cfg_topic_id := None;
                 cfg_inference_url := Some "http://localhost:8001/inference";
                 cfg_nonce_fetch_freq := None;
                 cfg_inference_fetch_retries := None;
                 cfg_inference_fetch_retry_freq := None |} ] |}.

Section Program.

Context (W : World) (L : Lib) (T : TransactionClass)
        (node_params : APINodeParams).

(** Every event is appended to the trace; the orchestrator's [stop] may
    land while it is under way. *)
Definition record (e : event) (s : State) : State :=
  {| wallet := wallet s; node := node s;
     latest_used_nonce := latest_used_nonce s;
     stop_event := stop_event s || interrupt W (List.length (trace s));
     trace := e :: trace s |}.

Definition emit (e : event) : M unit := fun s => (Ret tt, record e s).

(** One HTTP request to endpoint [ep]; the reply is the next one the world
    has for that endpoint. *)
Definition http {A} (ep : endpoint) (arg : string) (replies : nat -> A)
    : M A :=
  k <- gets (fun s => count (is_request ep) (trace s)) ;;
  emit (Request ep arg) ;;
  ret (replies k).

Definition sleep (seconds : Z) : M unit := emit (Sleep seconds).

(** [req.status_code in (403, 429, 500, 503)] *)
Definition error_status (c : Z) : bool :=
  (c =? 403) || (c =? 429) || (c =? 500) || (c =? 503).

(** ** api_node/api_node.py *)

Definition get_chain_id : M string := gets (fun s => chain_id (node s)).
Definition get_gas_price : M Q := gets (fun s => gas_price (node s)).
Definition is_connected : M bool := gets (fun s => connected (node s)).

(** What [get_latest_height] makes of the node's reply. *)
Definition height_result (r : reply Z) : Z :=
  match r with
  | RequestError => -1
  | Response status body =>
      if error_status status then -1
      else match body with
           | None => -1
           | Some resp =>
               match payload resp with
               | None => -1
               | Some height => height
               end
           end
  end.

Definition get_latest_height : M Z :=
  r <- http EpLatestHeight "" (latest_height_reply W) ;;
  ret (height_result r).

(** What [simulate_tx] makes of the node's reply: the gas used, or [-1]. *)
Definition simulate_result (r : reply N) : Z :=
  match r with
  | RequestError => -1
  | Response _ None => -1
  | Response _ (Some resp) =>
      match j_code resp with
      | Some _ => -1
      | None =>
          match payload resp with
          | None => -1
          | Some gas_used => Z.of_N gas_used
          end
      end
  end.

Definition simulate_tx (tx_bytes : string) : M Z :=
  r <- http EpSimulate tx_bytes (simulate_reply W) ;;
  ret (simulate_result r).

(** What [broadcast_tx] makes of the node's reply: the transaction hash,
    or the empty string. *)
Definition broadcast_result (r : reply TxResponse) : string :=
  match r with
  | RequestError => ""
  | Response _ None => ""
  | Response _ (Some resp) =>
      match payload resp with
      | None => ""
      | Some resp' =>
          if negb (txr_code resp' =? 0) then ""
          else txr_txhash resp'
      end
  end.

Definition broadcast_tx (tx_bytes : string) : M string :=
  r <- http EpBroadcast tx_bytes (broadcast_reply W) ;;
  ret (broadcast_result r).

(** The [while] loop of [wait_for_tx]: [inl msg] is a [return msg] from
    inside the loop, [inr receipt] the value of [receipt] when the loop is
    left. *)
Fixpoint wait_for_tx_loop (fuel : nat) (retries : Z)
    (receipt : option TxResponse) (tx_hash : string)
    : M (string + option TxResponse) :=
  if (retries >? 0) && (match receipt with None => true | _ => false end)
  then
    match fuel with
    | O => out_of_fuel
    | S fuel' =>
        r <- http EpTx tx_hash (tx_reply W) ;;
        match r with
        | RequestError => ret (inl "httpx.RequestError")
        | Response _ None => ret (inr receipt)
        | Response _ (Some resp) =>
            match payload resp with
            | Some resp' =>
                wait_for_tx_loop fuel' retries (Some resp') tx_hash
            | None =>
                match j_code resp with
                | Some 5 =>
                    sleep (tx_check_freq node_params) ;;
                    wait_for_tx_loop fuel' (retries - 1) receipt tx_hash
                | _ => wait_for_tx_loop fuel' retries receipt tx_hash
                end
            end
        end
    end
  else ret (inr receipt).

Definition wait_for_tx (fuel : nat) (tx_hash : string) : M string :=
  r <- wait_for_tx_loop fuel (tx_check_retries node_params) None tx_hash ;;
  match r with
  | inl msg => ret msg
  | inr None => ret "transaction not included in a block"
  | inr (Some receipt) =>
      ret (if txr_code receipt =? 0 then "" else txr_raw_log receipt)
  end.

(** The four yes/no queries share one shape: any failure is [False]. *)
Definition bool_result (r : reply bool) : bool :=
  match r with
  | RequestError => false
  | Response _ None => false
  | Response _ (Some resp) =>
      match payload resp with
      | None => false
      | Some b => b
      end
  end.

Definition bool_query (ep : endpoint) (arg : string)
    (replies : nat -> reply bool) : M bool :=
  r <- http ep arg replies ;;
  ret (bool_result r).

Definition is_registered_for (topic : Z) : M bool :=
  addr <- gets (fun s => address (wallet s)) ;;
  bool_query EpRegistered (str_int topic ++ "/" ++ addr) (registered_reply W).

Definition is_topic_active (topic : Z) : M bool :=
  bool_query EpTopicActive (str_int topic) (topic_active_reply W).

Definition is_whitelisted_for (topic : Z) : M bool :=
  addr <- gets (fun s => address (wallet s)) ;;
  bool_query EpWhitelisted (str_int topic ++ "/" ++ addr)
    (whitelisted_reply W).

Definition is_topic_whitelisted (topic : Z) : M bool :=
  bool_query EpWhitelistEnabled (str_int topic) (whitelist_enabled_reply W).

Definition nonce_result (r : reply (list Z)) : Z :=
  match r with
  | RequestError => 0
  | Response _ None => 0
  | Response _ (Some resp) =>
      match payload resp with
      | None => 0
      | Some (block_height :: _) => block_height
      | Some [] => 0
      end
  end.

Definition get_topic_nonce (topic : Z) : M Z :=
  r <- http EpNonce (str_int topic) (nonce_reply W) ;;
  ret (nonce_result r).

(** [fetch_wallet_details]: account number and sequence first, then the
    balance; every failure returns early and leaves the later fields as
    they were. *)
Definition fetch_wallet_details : M unit :=
  addr <- gets (fun s => address (wallet s)) ;;
  r <- http EpAccountInfo addr (account_info_reply W) ;;
  match r with
  | RequestError => ret tt
  | Response status body =>
      if error_status status then ret tt
      else match body with
      | None => ret tt
      | Some resp =>
          match j_code resp, payload resp with
          | Some _, _ => ret tt
          | None, None => raise (KeyError "code")
          | None, Some info =>
              modify (fun s =>
                set_wallet (with_account (Z.of_N (info_account_number info))
                                         (Z.of_N (info_sequence info))
                                         (wallet s)) s) ;;
              r2 <- http EpBalance addr (balance_reply W) ;;
              match r2 with
              | RequestError => ret tt
              | Response status2 body2 =>
                  if error_status status2 then ret tt
                  else match body2 with
                  | None => ret tt
                  | Some resp2 =>
                      match j_code resp2, payload resp2 with
                      | Some _, _ => ret tt
                      | None, None => ret tt
                      | None, Some amount =>
                          modify (fun s =>
                            set_wallet (with_balance (Z.of_N amount)
                                                     (wallet s)) s)
                      end
                  end
              end
          end
      end
  end.

(** ** wallet/wallet.py *)

Definition get_account_number : M Z := gets (fun s => account_number (wallet s)).
Definition get_sequence : M Z := gets (fun s => sequence (wallet s)).
Definition get_balance : M Z := gets (fun s => balance (wallet s)).
Definition is_initialized : M bool := gets (fun s => initialized (wallet s)).

Definition increment_sequence : M unit :=
  modify (fun s => set_wallet (with_sequence (sequence (wallet s) + 1)
                                             (wallet s)) s).

(** [self.balance -= amount] *)
Definition debit_balance (amount : Z) : M unit :=
  modify (fun s => set_wallet (with_balance (balance (wallet s) - amount)
                                            (wallet s)) s).

(** [Wallet.__init__], after the key derivation (the keys and the address
    are those of the state's wallet): class defaults, then the start-up
    fetch, then the check that decides [initialized]. *)
Definition Wallet_init (adjustment : Q) : M unit :=
  modify (fun s =>
    set_wallet {| initialized := false;
                  priv_key_bytes := priv_key_bytes (wallet s);
                  pub_key_bytes := pub_key_bytes (wallet s);
                  pub_key_obj := pub_key_obj (wallet s);
                  address := address (wallet s);
                  account_number := -1; sequence := -1; balance := 0;
                  gas_adjustment := adjustment |} s) ;;
  fetch_wallet_details ;;
  w <- gets wallet ;;
  if (account_number w =? -1) || (sequence w =? -1) || (balance w =? 0)
  then ret tt
  else modify (fun s => set_wallet (with_initialized (wallet s)) s).

(** [tx.get_tx_bytes()] on the current wallet and node. *)
Definition tx_bytes (tx : Transaction) : M string := fun s =>
  (get_tx_bytes L tx (wallet s) (node s), s).

(** The gas-estimation loop (wallet.py 179-194 and 317-332, the same text):
    [retries] and [gas] are the loop's variables [retries] and
    [gas_limit]. *)
Fixpoint estimate_gas_loop (fuel : nat) (retries gas : Z) (tx : Transaction)
    : M Z :=
  if (retries >? 0) && (gas =? -1) then
    match fuel with
    | O => out_of_fuel
    | S fuel' =>
        b <- tx_bytes tx ;;
        gas' <- simulate_tx b ;;
        if gas' =? -1 then
          sleep 1 ;;
          estimate_gas_loop fuel' (retries - 1) gas' tx
        else estimate_gas_loop fuel' retries gas' tx
    end
  else ret gas.

(** The broadcast loop (wallet.py 214-229 and 352-367, the same text):
    [tx_hash] starts as the string [""], [broadcast_tx] returns a string,
    and the loop compares it with the int [-1]. *)
Fixpoint broadcast_loop (fuel : nat) (retries : Z) (tx_hash : pyval)
    (tx : Transaction) : M pyval :=
  if (retries >? 0) && py_eqb tx_hash (PyStr "") then
    match fuel with
    | O => out_of_fuel
    | S fuel' =>
        b <- tx_bytes tx ;;
        h <- broadcast_tx b ;;
        let tx_hash' := PyStr h in
        if py_eqb tx_hash' (PyInt (-1)) then
          sleep 3 ;;
          broadcast_loop fuel' (retries - 1) tx_hash' tx
        else broadcast_loop fuel' retries tx_hash' tx
    end
  else ret tx_hash.

(** The f-string form of a value put into a URL. *)
Definition py_str (v : pyval) : string :=
  match v with
  | PyStr s => s
  | PyInt z => str_int z
  | PyFloat q => str_float L q
  end.

Definition get_fee (tx : Transaction) : M Z := lift (call_get_fee T tx).

Definition register_for_topic (fuel : nat) (topic : Z) : M bool :=
  emit (CallRegister topic) ;;
  addr <- gets (fun s => address (wallet s)) ;;
  let req := RegisterRequest addr topic addr false in
  let request_type := "/emissions.v9.RegisterRequest" in
  height <- get_latest_height ;;
  let timeout := height + 50 in
  w <- gets wallet ;;
  let tx := set_tx_body (Transaction_init w) request_type req timeout in
  gas <- estimate_gas_loop fuel 3 (-1) tx ;;
  if gas =? -1 then ret false
  else
    price <- get_gas_price ;;
    adjustment <- gets (fun s => gas_adjustment (wallet s)) ;;
    tx <- lift (call_set_fee T tx gas price adjustment) ;;
    _ <- get_fee tx ;;                        (* debug log *)
    fee_ <- get_fee tx ;;
    bal <- gets (fun s => balance (wallet s)) ;;
    if fee_ >? bal then
      _ <- get_fee tx ;;                      (* warning log *)
      ret false
    else
      tx_hash <- broadcast_loop fuel 5 (PyStr "") tx ;;
      if py_eqb tx_hash (PyInt (-1)) then ret false
      else
        message <- wait_for_tx fuel (py_str tx_hash) ;;
        if negb (String.eqb message "") then
          fee_ <- get_fee tx ;;
          debit_balance fee_ ;;
          increment_sequence ;;
          ret false
        else
          fee_ <- get_fee tx ;;
          debit_balance fee_ ;;
          increment_sequence ;;
          ret true.

Definition submit_inference (fuel : nat) (inference_value : Q)
    (topic inference_nonce : Z) : M bool :=
  emit (CallSubmit inference_value topic inference_nonce) ;;
  w <- gets wallet ;;
  let inference_bundle :=
    {| ii_topic_id := topic; ii_block_height := inference_nonce;
       ii_inferer := address w; ii_value := str_float L inference_value;
       ii_extra_data := []; ii_proof := "" |} in
  let payload_bytes := serialize_inference L inference_bundle in
  let signature := sign_deterministic L (priv_key_bytes w) payload_bytes in
  let worker_data_bundle :=
    {| wb_worker := address w; wb_nonce := inference_nonce;
       wb_topic_id := topic; wb_inference := inference_bundle;
       wb_signature := signature; wb_pubkey := hex L (pub_key_bytes w) |} in
  let req := InsertWorkerPayloadRequest (address w) worker_data_bundle in
  let request_type := "/emissions.v9.InsertWorkerPayloadRequest" in
  height <- get_latest_height ;;
  let timeout := height + 50 in
  w <- gets wallet ;;
  let tx := set_tx_body (Transaction_init w) request_type req timeout in
  gas <- estimate_gas_loop fuel 3 (-1) tx ;;
  if gas =? -1 then ret true
  else
    price <- get_gas_price ;;
    adjustment <- gets (fun s => gas_adjustment (wallet s)) ;;
    tx <- lift (call_set_fee T tx gas price adjustment) ;;
    _ <- get_fee tx ;;                        (* debug log *)
    fee_ <- get_fee tx ;;
    bal <- gets (fun s => balance (wallet s)) ;;
    if fee_ >? bal then
      _ <- get_fee tx ;;                      (* warning log *)
      ret false
    else
      tx_hash <- broadcast_loop fuel 5 (PyStr "") tx ;;
      if py_eqb tx_hash (PyInt (-1)) then ret true
      else
        message <- wait_for_tx fuel (py_str tx_hash) ;;
        fee_ <- get_fee tx ;;
        debit_balance fee_ ;;
        increment_sequence ;;
        ret true.

(** ** worker/worker.py *)

(** What [fetch_inference] makes of the endpoint's reply: [None], the
    value, or the [ValueError] of [float(req.text)]. *)
Definition inference_result (r : inference_reply) : outcome (option Q) :=
  match r with
  | InferenceRequestError => Ret None
  | InferenceResponse status text =>
      if error_status status then Ret None
      else match text with
           | Numeric v => Ret (Some v)
           | NotNumeric t =>
               Raise (ValueError ("could not convert string to float: " ++ t))
           end
  end.

Definition fetch_inference (params : WorkerParams) : M (option Q) :=
  r <- http EpInference (inference_url params) (inference_replies W) ;;
  lift (inference_result r).

Definition stop : M unit := modify set_stop_event.

Definition is_set : M bool :=
  flag <- gets stop_event ;;
  emit (IsSet flag) ;;
  ret flag.

(** The inner [while] of [run] (worker.py 122-135). *)
Fixpoint fetch_loop (fuel : nat) (retries : Z) (inference_value : option Q)
    (params : WorkerParams) : M (option Q) :=
  if (retries >? 0)
     && (match inference_value with None => true | _ => false end)
  then
    match fuel with
    | O => out_of_fuel
    | S fuel' =>
        v <- fetch_inference params ;;
        match v with
        | None =>
            sleep (inference_fetch_retry_freq params) ;;
            fetch_loop fuel' (retries - 1) v params
        | Some _ => fetch_loop fuel' retries v params
        end
    end
  else ret inference_value.

(** One pass through the body of [while not self.stop_event.is_set()]. *)
Definition loop_body (fuel : nat) (params : WorkerParams) : M unit :=
  proceed <- is_topic_active (topic_id params) ;;
  if negb proceed then stop                  (* self.stop(); continue *)
  else
    inference_nonce <- get_topic_nonce (topic_id params) ;;
    latest <- gets latest_used_nonce ;;
    (if (inference_nonce >? 0) && (inference_nonce >? latest) then
       v <- fetch_loop fuel (inference_fetch_retries params) None params ;;
       match v with
       | None => ret tt
       | Some inference_value =>
           _ <- submit_inference fuel inference_value (topic_id params)
                  inference_nonce ;;
           modify (set_latest_used_nonce inference_nonce)
       end
     else ret tt) ;;
    sleep (nonce_fetch_freq params).

(** The [while] loop of [run]: [rounds] bounds the number of passes, [fuel]
    the loops inside one pass. *)
Fixpoint polling_loop (rounds fuel : nat) (params : WorkerParams) : M unit :=
  flag <- is_set ;;
  if flag then ret tt
  else match rounds with
       | O => out_of_fuel
       | S rounds' =>
           loop_body fuel params ;;
           polling_loop rounds' fuel params
       end.

(** [Worker.run]; [worker_connected] is [self.api_node.is_connected()] of
    the worker's own node. *)
Definition run (rounds fuel : nat) (worker_connected : bool)
    (params : WorkerParams) : M unit :=
  if negb worker_connected then ret tt
  else
    active <- is_topic_active (topic_id params) ;;
    if negb active then ret tt
    else
      enabled <- is_topic_whitelisted (topic_id params) ;;
      allowed <- (if enabled then is_whitelisted_for (topic_id params)
                  else ret true) ;;
      if negb allowed then ret tt
      else
        registered <- is_registered_for (topic_id params) ;;
        proceed <- (if negb registered
                    then register_for_topic fuel (topic_id params)
                    else ret true) ;;
        if negb proceed then ret tt
        else
          active' <- is_topic_active (topic_id params) ;;
          if negb active' then ret tt
          else
            try_except_finally (polling_loop rounds fuel params)
                               (emit ClientClose).

(** ** params/*.py and main.py *)

(** An absent or non-positive value is replaced by the class default. *)
Definition or_default (v : option Z) (default : Z) : Z :=
  match v with
  | None => default
  | Some x => if x <=? 0 then default else x
  end.

Definition WorkerParams_init (topic : Z) (url : string) (p : TopicConfig)
    : WorkerParams :=
  {| topic_id := topic;
     inference_url := url;
     nonce_fetch_freq := or_default (cfg_nonce_fetch_freq p) 5;
     inference_fetch_retries := or_default (cfg_inference_fetch_retries p) 5;
     inference_fetch_retry_freq :=
       or_default (cfg_inference_fetch_retry_freq p) 3 |}.

Definition APINodeParams_init (cfg : Config) : APINodeParams :=
  {| tx_check_retries := or_default (cfg_tx_check_retries cfg) 10;
     tx_check_freq := or_default (cfg_tx_check_freq cfg) 3 |}.

Definition exit {A} (code : Z) : M A := raise (SystemExit code).

(** The [for topic_params in CONFIG["topics"]] loop of [main]. *)
Fixpoint start_workers (topics : list TopicConfig) : M unit :=
  match topics with
  | [] => ret tt
  | p :: rest =>
      match cfg_topic_id p, cfg_inference_url p with
      | Some topic, Some _ => emit (ThreadStart topic) ;; start_workers rest
      | _, _ => start_workers rest
      end
  end.

(** [main], from the configuration checks (line 101) to the start of the
    worker threads (line 158).  The construction of the wallet's [APINode]
    is not embedded here: its result is the [node] of the state [main]
    starts in ([APINode_init] below is that constructor).  [main] reads
    [CONFIG["gas_adjustment"]] without a test for the key, while it
    evaluates the arguments of [Wallet(...)]: an absent key is a
    [KeyError] before the wallet exists. *)
Definition main (cfg : Config) : M unit :=
  match cfg_seed_phrase cfg with
  | None | Some "" => exit (-1)
  | Some _ =>
      match cfg_api_url cfg with
      | None | Some "" => exit (-1)
      | Some _ =>
          ok <- is_connected ;;
          if negb ok then exit (-1)
          else
            match cfg_gas_adjustment cfg with
            | None => raise (KeyError "gas_adjustment")
            | Some adjustment =>
                Wallet_init adjustment ;;
                ok <- is_initialized ;;
                if negb ok then exit (-1)
                else
                  match cfg_topics cfg with
                  | None | Some [] => exit (-1)
                  | Some topics => start_workers topics
                  end
            end
      end
  end.

(** ** Auxiliary notions used in the statements *)

(** The value the gas-estimation loop ends with when it may make [n]
    attempts and the next simulate reply is the [k]-th: the first estimate
    that is not [-1], else [-1]. *)
Fixpoint first_gas (n k : nat) : Z :=
  match n with
  | O => -1
  | S n' =>
      let gas := simulate_result (simulate_reply W k) in
      if gas =? -1 then first_gas n' (S k) else gas
  end.

(** The replies that [fetch_inference] answers with [None]. *)
Definition unavailable (r : inference_reply) : bool :=
  match r with
  | InferenceRequestError => true
  | InferenceResponse status _ => error_status status
  end.

Definition is_check (e : option event) : bool :=
  match e with Some (IsSet _) => true | _ => false end.

(** On a trace in the order of time: every [Sleep freq] has a check of the
    stop flag directly before it and directly after it. *)
Fixpoint checks_around_sleeps (freq : Z) (prev : option event)
    (chron : list event) : bool :=
  match chron with
  | [] => true
  | e :: rest =>
      (match e with
       | Sleep d =>
           if d =? freq then is_check prev && is_check (hd_error rest)
           else true
       | _ => true
       end)
      && checks_around_sleeps freq (Some e) rest
  end.

(** The transaction [register_for_topic] has built when it enters the
    gas-estimation loop, in the state [s] the method was called in. *)
Definition register_draft (topic : Z) (s : State) : Transaction :=
  set_tx_body (Transaction_init (wallet s)) "/emissions.v9.RegisterRequest"
    (RegisterRequest (address (wallet s)) topic (address (wallet s)) false)
    (height_result
       (latest_height_reply W (count (is_request EpLatestHeight) (trace s)))
     + 50).

(** The same for [submit_inference]. *)
Definition submit_draft (inference_value : Q) (topic inference_nonce : Z)
    (s : State) : Transaction :=
  let w := wallet s in
  let inference_bundle :=
    {| ii_topic_id := topic; ii_block_height := inference_nonce;
       ii_inferer := address w; ii_value := str_float L inference_value;
       ii_extra_data := []; ii_proof := "" |} in
  set_tx_body (Transaction_init w) "/emissions.v9.InsertWorkerPayloadRequest"
    (InsertWorkerPayloadRequest (address w)
       {| wb_worker := address w; wb_nonce := inference_nonce;
          wb_topic_id := topic; wb_inference := inference_bundle;
          wb_signature :=
            sign_deterministic L (priv_key_bytes w)
              (serialize_inference L inference_bundle);
          wb_pubkey := hex L (pub_key_bytes w) |})
    (height_result
       (latest_height_reply W (count (is_request EpLatestHeight) (trace s)))
     + 50).

(** The text the two methods share from the gas-estimation loop on
    (wallet.py 178-249 and 316-384).  They differ in one value only: [r] is
    what the method returns when gas cannot be estimated and when the
    execution of the broadcast transaction fails, [False] in
    [register_for_topic] and [True] in [submit_inference]
    (lemmas [register_for_topic_tail] and [submit_inference_tail]). *)
Definition pipeline_tail (r : bool) (fuel : nat) (tx : Transaction) : M bool :=
  gas <- estimate_gas_loop fuel 3 (-1) tx ;;
  if gas =? -1 then ret r
  else
    price <- get_gas_price ;;
    adjustment <- gets (fun s => gas_adjustment (wallet s)) ;;
    tx <- lift (call_set_fee T tx gas price adjustment) ;;
    _ <- get_fee tx ;;
    fee_ <- get_fee tx ;;
    bal <- gets (fun s => balance (wallet s)) ;;
    if fee_ >? bal then
      _ <- get_fee tx ;;
      ret false
    else
      tx_hash <- broadcast_loop fuel 5 (PyStr "") tx ;;
      if py_eqb tx_hash (PyInt (-1)) then ret r
      else
        message <- wait_for_tx fuel (py_str tx_hash) ;;
        fee_ <- get_fee tx ;;
        debit_balance fee_ ;;
        increment_sequence ;;
        ret (if negb (String.eqb message "") then r else true).

(** The number of broadcast requests in a trace. *)
Definition broadcasts (s : State) : nat :=
  count (is_request EpBroadcast) (trace s).

(** The number of calls of [submit_inference] in a trace. *)
Definition submissions (s : State) : nat := count is_submit (trace s).

(** What [fetch_wallet_details] takes from the reply to the account query
    ([None]: the method returns, or raises, before setting anything) and
    from the reply to the balance query ([None]: the balance is not set). *)
Definition fetched_account (r : reply AccountInfo) : option AccountInfo :=
  match r with
  | RequestError => None
  | Response status body =>
      if error_status status then None
      else match body with
           | None => None
           | Some resp =>
               match j_code resp with
               | Some _ => None
               | None => payload resp
               end
           end
  end.

Definition fetched_balance (r : reply N) : option N :=
  match r with
  | RequestError => None
  | Response status body =>
      if error_status status then None
      else match body with
           | None => None
           | Some resp =>
               match j_code resp with
               | Some _ => None
               | None => payload resp
               end
           end
  end.

Definition is_thread_start (e : event) : bool :=
  match e with ThreadStart _ => true | _ => false end.

(** The number of worker threads started in a trace. *)
Definition threads_started (s : State) : nat :=
  count is_thread_start (trace s).

(** Kinds of events, for the frames of the loops. *)
Definition sim_or_sleep (e : event) : bool :=
  is_request EpSimulate e || is_sleep e.
Definition bcast_or_sleep (e : event) : bool :=
  is_request EpBroadcast e || is_sleep e.
Definition txq_or_sleep (e : event) : bool :=
  is_request EpTx e || is_sleep e.
Definition inf_or_sleep (e : event) : bool :=
  is_request EpInference e || is_sleep e.

Definition is_stop_check (e : event) : bool :=
  match e with IsSet _ => true | _ => false end.

(** The events of one pass of the polling loop: requests, sleeps and the
    call of [submit_inference]. *)
Definition pass_event (e : event) : bool :=
  is_network e || is_sleep e || is_submit e.

(** The number of checks of the stop flag in a trace. *)
Definition stop_checks (s : State) : nat := count is_stop_check (trace s).

(** The trace grows by events that all satisfy [p] (the rest of the state
    may change). *)
Definition grows (p : event -> bool) (s s' : State) : Prop :=
  exists new, trace s' = (new ++ trace s)%list /\ forallb p new = true.

Definition traces {A} (p : event -> bool) (m : M A) : Prop :=
  forall s o s', m s = (o, s') -> grows p s s'.

(** The frame of a computation that only talks to the outside: wallet,
    node and last-used nonce are as before, a set stop flag stays set, and
    the trace grows by events that all satisfy [p]. *)
Definition step (p : event -> bool) (s s' : State) : Prop :=
  wallet s' = wallet s /\ node s' = node s /\
  latest_used_nonce s' = latest_used_nonce s /\
  (stop_event s = true -> stop_event s' = true) /\
  ((forall k, interrupt W k = false) -> stop_event s' = stop_event s) /\
  exists new, trace s' = (new ++ trace s)%list /\ forallb p new = true.

Definition emits {A} (p : event -> bool) (m : M A) : Prop :=
  forall s o s', m s = (o, s') -> step p s s'.

(** ** Notions for the remaining functions *)

Definition is_register_call (e : event) : bool :=
  match e with CallRegister _ => true | _ => false end.

(** The number of calls of [register_for_topic] in a trace. *)
Definition registrations (s : State) : nat :=
  count is_register_call (trace s).

(** The nonces [submit_inference] was called with, newest first. *)
Fixpoint submit_nonces (tr : list event) : list Z :=
  match tr with
  | [] => []
  | CallSubmit _ _ n :: rest => n :: submit_nonces rest
  | _ :: rest => submit_nonces rest
  end.

(** The replies to the transaction query, as [wait_for_tx] sorts them: a
    reply that makes it sleep and count one retry (no ["tx_response"], code
    5); a reply it passes over without counting (no ["tx_response"], code
    absent or not 5); a reply that ends the wait, with the message then
    returned. *)
Definition tx_pending (r : reply TxResponse) : bool :=
  match r with
  | Response _ (Some resp) =>
      match payload resp, j_code resp with
      | None, Some c => c =? 5
      | _, _ => false
      end
  | _ => false
  end.

Definition tx_passed_over (r : reply TxResponse) : bool :=
  match r with
  | Response _ (Some resp) =>
      match payload resp, j_code resp with
      | None, Some c => negb (c =? 5)
      | None, None => true
      | Some _, _ => false
      end
  | _ => false
  end.

Definition tx_verdict (r : reply TxResponse) : option string :=
  match r with
  | RequestError => Some "httpx.RequestError"
  | Response _ None => Some "transaction not included in a block"
  | Response _ (Some resp) =>
      match payload resp with
      | Some receipt =>
          Some (if txr_code receipt =? 0 then "" else txr_raw_log receipt)
      | None => None
      end
  end.

(** One entry of [CONFIG["topics"]] that [main] starts a worker for. *)
Definition well_formed_topic (p : TopicConfig) : bool :=
  match cfg_topic_id p, cfg_inference_url p with
  | Some _, Some _ => true
  | _, _ => false
  end.

(** *** The construction of an [APINode] (api_node.py 25-34, 42-71, 79-108,
    142-194)

    The three requests of [create_client] go to endpoints of their own;
    their replies are given by [NodeReplies], and the requests made are
    collected newest first.  The price is the number that
    [float(resp["price"]["amount"])] reads. *)
Inductive setup_request := ReqNodeInfo | ReqGasPrice | ReqSyncing.

Record NodeReplies := {
  node_info_reply : reply string;     (* default_node_info.network *)
  gas_price_reply : reply Q;          (* price.amount *)
  syncing_reply : reply bool          (* syncing *)
}.

Record Setup := { setup_node : APINode; setup_requests : list setup_request }.

(** The value a fetch takes from a reply after the status check and the
    JSON decoding: [None] when the method returns early. *)
Definition fetched_value {A} (r : reply A) : option A :=
  match r with
  | RequestError => None
  | Response status body =>
      if error_status status then None
      else match body with
           | None => None
           | Some resp => payload resp
           end
  end.

Definition fetch_chain_id (R : NodeReplies) (st : Setup) : Setup :=
  {| setup_node :=
       match fetched_value (node_info_reply R) with
       | None => setup_node st
       | Some network =>
           {| chain_id := network; gas_price := gas_price (setup_node st);
              connected := connected (setup_node st) |}
       end;
     setup_requests := ReqNodeInfo :: setup_requests st |}.

Definition update_gas_price (R : NodeReplies) (st : Setup) : Setup :=
  {| setup_node :=
       match fetched_value (gas_price_reply R) with
       | None => setup_node st
       | Some price =>
           {| chain_id := chain_id (setup_node st); gas_price := price;
              connected := connected (setup_node st) |}
       end;
     setup_requests := ReqGasPrice :: setup_requests st |}.

(** The syncing check at the end of [create_client]. *)
Definition check_syncing (R : NodeReplies) (st : Setup) : bool * Setup :=
  (match fetched_value (syncing_reply R) with
   | None => false
   | Some syncing => negb syncing
   end,
   {| setup_node := setup_node st;
      setup_requests := ReqSyncing :: setup_requests st |}).

Definition create_client (R : NodeReplies) (is_wallet_node : bool)
    (st : Setup) : bool * Setup :=
  if is_wallet_node then
    let st1 := fetch_chain_id R st in
    if String.eqb (chain_id (setup_node st1)) "" then (false, st1)
    else
      let st2 := update_gas_price R st1 in
      if Qeq_bool (gas_price (setup_node st2)) 0 then (false, st2)
      else check_syncing R st2
  else check_syncing R st.

(** [APINode.__init__]: the class defaults, then [connected] is what
    [create_client] returns. *)
Definition APINode_init (R : NodeReplies) (is_wallet_node : bool) : Setup :=
  let start :=
    {| setup_node := {| chain_id := ""; gas_price := 0; connected := false |};
       setup_requests := [] |} in
  let (ok_, st) := create_client R is_wallet_node start in
  {| setup_node := {| chain_id := chain_id (setup_node st);
                      gas_price := gas_price (setup_node st);
                      connected := ok_ |};
     setup_requests := setup_requests st |}.

(** The state after [i] rounds of [wait_for_tx] in which the transaction
    was not found yet: a query and a sleep each. *)
Fixpoint after_polls (i : nat) (tx_hash : string) (s : State) : State :=
  match i with
  | O => s
  | S i' =>
      after_polls i' tx_hash
        (record (Sleep (tx_check_freq node_params))
           (record (Request EpTx tx_hash) s))
  end.

(** The message [wait_for_tx] makes of what its loop ends with. *)
Definition wait_message (r : string + option TxResponse) : string :=
  match r with
  | inl msg => msg
  | inr None => "transaction not included in a block"
  | inr (Some receipt) =>
      if txr_code receipt =? 0 then "" else txr_raw_log receipt
  end.

(** The nonces of the calls of [submit_inference] made between [s] and
    [s'], newest first. *)
Definition new_nonces (s s' : State) (ns : list Z) : Prop :=
  exists new, trace s' = (new ++ trace s)%list /\ submit_nonces new = ns.

Definition is_close (e : event) : bool :=
  match e with ClientClose => true | _ => false end.

(** The number of times the worker closed its inference client. *)
Definition closes (s : State) : nat := count is_close (trace s).

(** The events of a submission after its draft is made: the three kinds of
    transaction request, and sleeps. *)
Definition tx_event (e : event) : bool :=
  is_request EpSimulate e || is_request EpBroadcast e || is_request EpTx e
  || is_sleep e.

(** The events of the polling loop: those of a pass, and the checks of the
    stop flag. *)
Definition loop_event (e : event) : bool := pass_event e || is_stop_check e.

(** Sample replies at the construction of a node that is in order, and of
    one that is still syncing. *)
Definition good_node_replies : NodeReplies :=
  {| node_info_reply := ok "allora-testnet-1";
     gas_price_reply := ok (10 # 1);
     syncing_reply := ok false |}.

Definition syncing_node_replies : NodeReplies :=
  {| node_info_reply := ok "allora-testnet-1";
     gas_price_reply := ok (10 # 1);
     syncing_reply := ok true |}.

(** ** Lemmas on the monad and on frames *)

#[local] Open Scope list_scope.

Lemma bind_Ret {A B} (m : M A) (k : A -> M B) s a s1 :
  m s = (Ret a, s1) -> bind m k s = k a s1.
Proof. unfold bind; intros ->; reflexivity. Qed.

Lemma bind_OutOfFuel {A B} (m : M A) (k : A -> M B) s s1 :
  m s = (OutOfFuel, s1) -> bind m k s = (OutOfFuel, s1).
Proof. unfold bind; intros ->; reflexivity. Qed.

Lemma bind_inv {A B} (m : M A) (k : A -> M B) s o s' :
  bind m k s = (o, s') ->
  (exists a s1, m s = (Ret a, s1) /\ k a s1 = (o, s')) \/
  (exists e, m s = (Raise e, s') /\ o = Raise e) \/
  (m s = (OutOfFuel, s') /\ o = OutOfFuel).
Proof.
  unfold bind; destruct (m s) as [[a | e | ] s1]; intros H.
  - left; eauto.
  - inversion H; subst; right; left; eauto.
  - inversion H; subst; right; right; auto.
Qed.

Lemma step_refl p s : step p s s.
Proof.
  unfold step; repeat split; auto. exists []; split; reflexivity.
Qed.

Lemma step_trans p s1 s2 s3 : step p s1 s2 -> step p s2 s3 -> step p s1 s3.
Proof.
  intros (Hw & Hn & Hl & Hs & Hi & new & Ht & Hp)
         (Hw' & Hn' & Hl' & Hs' & Hi' & new' & Ht' & Hp').
  unfold step; repeat split; try congruence; auto.
  - intros H; rewrite Hi', Hi; auto.
  - exists (new' ++ new); split.
    + rewrite Ht', Ht, app_assoc; reflexivity.
    + rewrite forallb_app, Hp, Hp'; reflexivity.
Qed.

Lemma step_record p e s : p e = true -> step p s (record e s).
Proof.
  intros He; unfold step, record; simpl; repeat split; auto.
  - intros ->; reflexivity.
  - intros H; rewrite H, orb_false_r; reflexivity.
  - exists [e]; split; simpl; [reflexivity | rewrite He; reflexivity].
Qed.

Lemma count_app p l1 l2 : count p (l1 ++ l2) = (count p l1 + count p l2)%nat.
Proof. unfold count; rewrite filter_app, length_app; reflexivity. Qed.

Lemma count_none p q l :
  (forall e, p e = true -> q e = false) -> forallb p l = true -> count q l = O.
Proof.
  intros Hpq; induction l as [| e l IH]; simpl; intros H; [reflexivity |].
  apply andb_prop in H; destruct H as [He Hl].
  unfold count in *; simpl; rewrite (Hpq e He); auto.
Qed.

Lemma step_count p q s s' :
  (forall e, p e = true -> q e = false) -> step p s s' ->
  count q (trace s') = count q (trace s).
Proof.
  intros Hpq (_ & _ & _ & _ & _ & new & Ht & Hp).
  rewrite Ht, count_app, (count_none p q new Hpq Hp); reflexivity.
Qed.

Lemma emits_ret {A} p (a : A) : emits p (ret a).
Proof. intros s o s' H; inversion H; subst; apply step_refl. Qed.

Lemma emits_raise {A} p e : emits p (@raise A e).
Proof. intros s o s' H; inversion H; subst; apply step_refl. Qed.

Lemma emits_out_of_fuel {A} p : emits p (@out_of_fuel A).
Proof. intros s o s' H; inversion H; subst; apply step_refl. Qed.

Lemma emits_lift {A} p (o : outcome A) : emits p (lift o).
Proof. intros s o' s' H; inversion H; subst; apply step_refl. Qed.

Lemma emits_gets {A} p (f : State -> A) : emits p (gets f).
Proof. intros s o s' H; inversion H; subst; apply step_refl. Qed.

Lemma emits_emit p e : p e = true -> emits p (emit e).
Proof. intros He s o s' H; inversion H; subst; apply step_record; auto. Qed.

Lemma emits_bind {A B} p (m : M A) (k : A -> M B) :
  emits p m -> (forall a, emits p (k a)) -> emits p (bind m k).
Proof.
  intros Hm Hk s o s' H.
  apply bind_inv in H; destruct H as [(a & s1 & H1 & H2) | [(e & H1 & _) | (H1 & _)]].
  - eapply step_trans; [eapply Hm | eapply Hk]; eauto.
  - eapply Hm; eauto.
  - eapply Hm; eauto.
Qed.

Lemma emits_http {A} p ep arg (replies : nat -> A) :
  p (Request ep arg) = true -> emits p (http ep arg replies).
Proof.
  intros He; unfold http.
  apply emits_bind; [apply emits_gets | intros k].
  apply emits_bind; [apply emits_emit; auto | intros _; apply emits_ret].
Qed.

Ltac emits_step :=
  first
    [ apply emits_ret | apply emits_raise | apply emits_out_of_fuel
    | apply emits_lift | apply emits_gets
    | apply emits_emit; reflexivity
    | apply emits_http; reflexivity
    | apply emits_bind; [| intros ? ] ].

Ltac emits_auto := repeat emits_step.

Lemma emits_get_latest_height :
  emits (is_request EpLatestHeight) get_latest_height.
Proof. unfold get_latest_height; emits_auto. Qed.

Lemma emits_simulate_tx b : emits sim_or_sleep (simulate_tx b).
Proof. unfold simulate_tx; emits_auto. Qed.

Lemma emits_broadcast_tx b : emits bcast_or_sleep (broadcast_tx b).
Proof. unfold broadcast_tx; emits_auto. Qed.

Lemma emits_tx_bytes p tx : emits p (tx_bytes tx).
Proof. intros s o s' H; inversion H; subst; apply step_refl. Qed.

Lemma emits_bool_query ep arg replies :
  emits (is_request ep) (bool_query ep arg replies).
Proof.
  unfold bool_query; apply emits_bind; [| intros; apply emits_ret].
  apply emits_http; simpl; destruct ep; reflexivity.
Qed.

Lemma emits_get_topic_nonce topic :
  emits (is_request EpNonce) (get_topic_nonce topic).
Proof. unfold get_topic_nonce; emits_auto. Qed.

Lemma emits_fetch_inference params :
  emits inf_or_sleep (fetch_inference params).
Proof. unfold fetch_inference; emits_auto. Qed.

Lemma emits_estimate_gas_loop fuel : forall retries gas tx,
  emits sim_or_sleep (estimate_gas_loop fuel retries gas tx).
Proof.
  induction fuel as [| fuel IH]; intros retries gas tx; simpl;
    destruct ((retries >? 0) && (gas =? -1));
    try apply emits_ret; try apply emits_out_of_fuel.
  apply emits_bind; [apply emits_tx_bytes | intros b].
  apply emits_bind; [apply emits_simulate_tx | intros gas'].
  destruct (gas' =? -1); [| apply IH].
  apply emits_bind; [unfold sleep; emits_step | intros _; apply IH].
Qed.

Lemma emits_broadcast_loop fuel : forall retries tx_hash tx,
  emits bcast_or_sleep (broadcast_loop fuel retries tx_hash tx).
Proof.
  induction fuel as [| fuel IH]; intros retries tx_hash tx; simpl;
    destruct ((retries >? 0) && py_eqb tx_hash (PyStr ""));
    try apply emits_ret; try apply emits_out_of_fuel.
  apply emits_bind; [apply emits_tx_bytes | intros b].
  apply emits_bind; [apply emits_broadcast_tx | intros h]; apply IH.
Qed.

Lemma emits_wait_for_tx_loop fuel : forall retries receipt tx_hash,
  emits txq_or_sleep (wait_for_tx_loop fuel retries receipt tx_hash).
Proof.
  induction fuel as [| fuel IH]; intros retries receipt tx_hash; simpl;
    destruct ((retries >? 0) && _);
    try apply emits_ret; try apply emits_out_of_fuel.
  apply emits_bind; [apply emits_http; reflexivity | intros r].
  destruct r as [| status [resp |]]; try apply emits_ret.
  destruct (payload resp); [apply IH |].
  destruct (j_code resp) as [c |]; [| apply IH].
  destruct (Z.eq_dec c 5) as [-> | Hc].
  - apply emits_bind; [unfold sleep; emits_step | intros _; apply IH].
  - destruct c as [| [[[| | ] | [| | ] | ] | [[| | ] | [| | ] | ] | ] | ];
      try apply IH; congruence.
Qed.

Lemma emits_wait_for_tx fuel tx_hash :
  emits txq_or_sleep (wait_for_tx fuel tx_hash).
Proof.
  unfold wait_for_tx.
  apply emits_bind; [apply emits_wait_for_tx_loop | intros r].
  destruct r as [msg | [receipt |]]; emits_step.
Qed.

Lemma emits_fetch_loop fuel : forall retries v params,
  emits inf_or_sleep (fetch_loop fuel retries v params).
Proof.
  induction fuel as [| fuel IH]; intros retries v params; simpl;
    destruct ((retries >? 0) && _);
    try apply emits_ret; try apply emits_out_of_fuel.
  apply emits_bind; [apply emits_fetch_inference | intros v'].
  destruct v'; [apply IH |].
  apply emits_bind; [unfold sleep; emits_step | intros _; apply IH].
Qed.

(** ** The gas-estimation loop *)

Lemma get_tx_bytes_body tx body w n :
  tx_body tx = Some body -> exists b, get_tx_bytes L tx w n = Ret b.
Proof. unfold get_tx_bytes; intros ->; eauto. Qed.

Lemma estimate_gas_loop_done fuel retries gas tx s :
  gas <> -1 -> estimate_gas_loop fuel retries gas tx s = (Ret gas, s).
Proof.
  intros Hgas.
  assert (Hc : (retries >? 0) && (gas =? -1) = false).
  { apply andb_false_iff; right; apply Z.eqb_neq; exact Hgas. }
  destruct fuel; simpl; rewrite Hc; reflexivity.
Qed.

Lemma estimate_gas_loop_run n : forall fuel tx body s,
  tx_body tx = Some body -> (n <= fuel)%nat ->
  exists s',
    estimate_gas_loop fuel (Z.of_nat n) (-1) tx s
    = (Ret (first_gas n (count (is_request EpSimulate) (trace s))), s')
    /\ step sim_or_sleep s s'
    /\ (first_gas n (count (is_request EpSimulate) (trace s)) = -1 ->
        count (is_request EpSimulate) (trace s')
        = (count (is_request EpSimulate) (trace s) + n)%nat).
Proof.
  induction n as [| n IH]; intros fuel tx body s Hbody Hfuel.
  - exists s; split; [| split; [apply step_refl | intros _; lia]].
    destruct fuel; reflexivity.
  - destruct fuel as [| fuel]; [lia |].
    destruct (get_tx_bytes_body tx body (wallet s) (node s) Hbody) as [b Hb].
    cbn [estimate_gas_loop first_gas].
    replace (Z.of_nat (S n) >? 0) with true by (symmetry; apply Z.gtb_lt; lia).
    cbn [andb Z.eqb Pos.eqb].
    unfold bind at 1, tx_bytes at 1; rewrite Hb.
    unfold bind at 1, simulate_tx at 1, http, bind, gets, emit, ret.
    set (k := count (is_request EpSimulate) (trace s)).
    set (s1 := record (Request EpSimulate b) s).
    destruct (simulate_result (simulate_reply W k) =? -1) eqn:Hg.
    + apply Z.eqb_eq in Hg; rewrite Hg.
      unfold sleep, emit.
      replace (Z.of_nat (S n) - 1) with (Z.of_nat n) by lia.
      destruct (IH fuel tx body (record (Sleep 1) s1) Hbody ltac:(lia))
        as (s' & Hrun & Hstep & Hcount).
      exists s'; split; [| split].
      * exact Hrun.
      * eapply step_trans; [| exact Hstep].
        eapply step_trans; apply step_record; reflexivity.
      * intros Hall; rewrite (Hcount Hall).
        change (count (is_request EpSimulate) (trace (record (Sleep 1) s1)))
          with (S k); lia.
    + exists s1; split; [| split].
      * apply estimate_gas_loop_done; apply Z.eqb_neq; exact Hg.
      * apply step_record; reflexivity.
      * intros Hall; apply Z.eqb_neq in Hg; contradiction.
Qed.

Lemma first_gas_all_fail n k :
  (forall i, (i < n)%nat -> simulate_result (simulate_reply W (k + i)) = -1) ->
  first_gas n k = -1.
Proof.
  revert k; induction n as [| n IH]; intros k Hall; simpl; [reflexivity |].
  generalize (Hall O ltac:(lia)); rewrite Nat.add_0_r; intros ->; simpl.
  apply IH; intros i Hi.
  replace (S k + i)%nat with (k + S i)%nat by lia; apply Hall; lia.
Qed.

Lemma set_tx_body_body tx ty req timeout :
  tx_body (set_tx_body tx ty req timeout)
  = Some {| messages := [ {| type_url := ty; packed := req |} ];
            memo := ""; timeout_height := timeout |}.
Proof. reflexivity. Qed.

(** ** The two submission methods and their common tail *)

Ltac split_match :=
  repeat match goal with
         | |- context [match ?x with _ => _ end] => destruct x eqn:?
         end.

Lemma register_for_topic_tail fuel topic s :
  register_for_topic fuel topic s
  = pipeline_tail false fuel (register_draft topic s)
      (record (Request EpLatestHeight "") (record (CallRegister topic) s)).
Proof.
  unfold register_for_topic, pipeline_tail, register_draft.
  unfold bind at 1, emit at 1.
  unfold bind at 1, gets at 1.
  unfold bind at 1, get_latest_height at 1, http, bind, gets, emit, ret.
  cbn [wallet record trace].
  change (count (is_request EpLatestHeight) (CallRegister topic :: trace s))
    with (count (is_request EpLatestHeight) (trace s)).
  unfold bind.
  split_match; reflexivity.
Qed.

Lemma submit_inference_tail fuel value topic nonce s :
  submit_inference fuel value topic nonce s
  = pipeline_tail true fuel (submit_draft value topic nonce s)
      (record (Request EpLatestHeight "")
         (record (CallSubmit value topic nonce) s)).
Proof.
  unfold submit_inference, pipeline_tail, submit_draft.
  unfold bind at 1, emit at 1.
  unfold bind at 1, gets at 1.
  unfold bind at 1, get_latest_height at 1, http, bind, gets, emit, ret.
  cbn [wallet record trace].
  change (count (is_request EpLatestHeight)
            (CallSubmit value topic nonce :: trace s))
    with (count (is_request EpLatestHeight) (trace s)).
  unfold bind.
  split_match; reflexivity.
Qed.

Lemma pipeline_tail_unestimable r fuel tx body s :
  tx_body tx = Some body -> (3 <= fuel)%nat ->
  first_gas 3 (count (is_request EpSimulate) (trace s)) = -1 ->
  exists s',
    pipeline_tail r fuel tx s = (Ret r, s') /\ step sim_or_sleep s s' /\
    count (is_request EpSimulate) (trace s')
    = (count (is_request EpSimulate) (trace s) + 3)%nat.
Proof.
  intros Hbody Hfuel Hgas.
  destruct (estimate_gas_loop_run 3 fuel tx body s Hbody Hfuel)
    as (s' & Hrun & Hstep & Hcount).
  change (Z.of_nat 3) with 3 in Hrun.
  exists s'; repeat split; try apply Hstep; [| auto].
  unfold pipeline_tail; rewrite (bind_Ret _ _ _ _ _ Hrun), Hgas; reflexivity.
Qed.

Lemma count_record_other q e s :
  q e = false -> count q (trace (record e s)) = count q (trace s).
Proof. intros H; unfold count; simpl; rewrite H; reflexivity. Qed.

Lemma no_broadcast_in_estimate e :
  sim_or_sleep e = true -> is_request EpBroadcast e = false.
Proof. destruct e as [[] ? | | | | | |]; cbv; congruence. Qed.

Lemma no_tx_query_in_estimate e :
  sim_or_sleep e = true -> is_request EpTx e = false.
Proof. destruct e as [[] ? | | | | | |]; cbv; congruence. Qed.

(** C5. If the next three simulate replies all fail (which the gas loop
    reads as three estimates of -1), both methods stop at the gas loop:
    [register_for_topic] returns [False], [submit_inference] returns [True],
    the wallet (so its sequence and its balance) is as before, no broadcast
    was requested, and exactly three simulations were. *)
Theorem unestimable_gas_aborts fuel topic value nonce s :
  (3 <= fuel)%nat ->
  (forall i, (i < 3)%nat ->
     simulate_result
       (simulate_reply W (count (is_request EpSimulate) (trace s) + i)) = -1) ->
  (exists s',
     register_for_topic fuel topic s = (Ret false, s') /\
     wallet s' = wallet s /\
     count (is_request EpBroadcast) (trace s')
     = count (is_request EpBroadcast) (trace s) /\
     count (is_request EpSimulate) (trace s')
     = (count (is_request EpSimulate) (trace s) + 3)%nat) /\
  (exists s',
     submit_inference fuel value topic nonce s = (Ret true, s') /\
     wallet s' = wallet s /\
     count (is_request EpBroadcast) (trace s')
     = count (is_request EpBroadcast) (trace s) /\
     count (is_request EpSimulate) (trace s')
     = (count (is_request EpSimulate) (trace s) + 3)%nat).
Proof.
  intros Hfuel Hall.
  pose proof (first_gas_all_fail 3 _ Hall) as Hgas.
  split.
  - rewrite register_for_topic_tail.
    destruct (pipeline_tail_unestimable false fuel (register_draft topic s) _
                (record (Request EpLatestHeight "")
                   (record (CallRegister topic) s))
                (set_tx_body_body _ _ _ _) Hfuel Hgas)
      as (s' & Hrun & Hstep & Hcount).
    exists s'; repeat split; auto.
    + destruct Hstep as (Hw & _); exact Hw.
    + rewrite (step_count _ _ _ _ no_broadcast_in_estimate Hstep);
        reflexivity.
  - rewrite submit_inference_tail.
    destruct (pipeline_tail_unestimable true fuel
                (submit_draft value topic nonce s) _
                (record (Request EpLatestHeight "")
                   (record (CallSubmit value topic nonce) s))
                (set_tx_body_body _ _ _ _) Hfuel Hgas)
      as (s' & Hrun & Hstep & Hcount).
    exists s'; repeat split; auto.
    + destruct Hstep as (Hw & _); exact Hw.
    + rewrite (step_count _ _ _ _ no_broadcast_in_estimate Hstep);
        reflexivity.
Qed.

(** ** The broadcast loop *)

Lemma bind_gets {A B} (f : State -> A) (k : A -> M B) s :
  bind (gets f) k s = k (f s) s.
Proof. reflexivity. Qed.

Lemma broadcast_tx_run b s :
  broadcast_tx b s
  = (Ret (broadcast_result
            (broadcast_reply W (count (is_request EpBroadcast) (trace s)))),
     record (Request EpBroadcast b) s).
Proof. reflexivity. Qed.


Lemma step_count_le p q s s' :
  step p s s' -> (count q (trace s) <= count q (trace s'))%nat.
Proof.
  intros (_ & _ & _ & _ & _ & new & Ht & _); rewrite Ht, count_app; lia.
Qed.

Lemma broadcast_loop_no_raise fuel : forall retries tx_hash tx body s e s',
  tx_body tx = Some body ->
  broadcast_loop fuel retries tx_hash tx s <> (Raise e, s').
Proof.
  induction fuel as [| fuel IH]; intros retries tx_hash tx body s e s' Hbody;
    cbn [broadcast_loop];
    destruct ((retries >? 0) && py_eqb tx_hash (PyStr ""));
    try discriminate.
  destruct (get_tx_bytes_body tx body (wallet s) (node s) Hbody) as [b Hb].
  unfold bind at 1, tx_bytes at 1; rewrite Hb.
  unfold bind at 1; rewrite broadcast_tx_run.
  cbn [py_eqb]; eapply IH; eauto.
Qed.

Lemma broadcast_loop_raise fuel retries tx_hash tx s e s' :
  broadcast_loop fuel retries tx_hash tx s = (Raise e, s') -> s' = s.
Proof.
  destruct (tx_body tx) as [body |] eqn:Hbody.
  - intros H; exfalso; eapply broadcast_loop_no_raise; eauto.
  - destruct fuel; cbn [broadcast_loop];
      destruct ((retries >? 0) && py_eqb tx_hash (PyStr ""));
      try discriminate.
    unfold bind at 1, tx_bytes at 1, get_tx_bytes; rewrite Hbody.
    intros H; inversion H; reflexivity.
Qed.

Lemma broadcast_loop_ret fuel : forall retries x0 tx s h s',
  broadcast_loop fuel retries (PyStr x0) tx s = (Ret h, s') ->
  (exists x, h = PyStr x) /\
  (retries > 0 -> x0 = "" ->
   (count (is_request EpBroadcast) (trace s)
    < count (is_request EpBroadcast) (trace s'))%nat).
Proof.
  induction fuel as [| fuel IH]; intros retries x0 tx s h s';
    cbn [broadcast_loop];
    destruct ((retries >? 0) && py_eqb (PyStr x0) (PyStr "")) eqn:Hcond;
    try discriminate.
  - intros H; inversion H; subst; split; [eauto |].
    intros Hr ->; apply andb_false_iff in Hcond; destruct Hcond as [Hc | Hc].
    + rewrite Z.gtb_ltb in Hc; apply Z.ltb_ge in Hc; lia.
    + discriminate.
  - unfold bind at 1, tx_bytes at 1.
    destruct (get_tx_bytes L tx (wallet s) (node s)) as [b | |];
      try discriminate.
    unfold bind at 1; rewrite broadcast_tx_run; cbn [py_eqb].
    intros H; pose proof (emits_broadcast_loop _ _ _ _ _ _ _ H) as Hstep.
    apply IH in H; destruct H as [Hx _]; split; [exact Hx |].
    intros _ _.
    apply (step_count_le _ (is_request EpBroadcast)) in Hstep.
    change (count (is_request EpBroadcast)
              (trace (record (Request EpBroadcast b) s)))
      with (S (count (is_request EpBroadcast) (trace s))) in Hstep; lia.
  - intros H; inversion H; subst; split; [eauto |].
    intros Hr ->; apply andb_false_iff in Hcond; destruct Hcond as [Hc | Hc].
    + rewrite Z.gtb_ltb in Hc; apply Z.ltb_ge in Hc; lia.
    + discriminate.
Qed.

Lemma wait_for_tx_loop_no_raise fuel : forall retries receipt tx_hash s e s',
  wait_for_tx_loop fuel retries receipt tx_hash s <> (Raise e, s').
Proof.
  induction fuel as [| fuel IH]; intros retries receipt tx_hash s e s';
    cbn [wait_for_tx_loop];
    destruct ((retries >? 0) && _); try discriminate.
  unfold bind at 1, http, bind, gets, emit, ret.
  destruct (tx_reply W _) as [| status [resp |]]; try discriminate.
  destruct (payload resp); [apply IH |].
  destruct (j_code resp) as [c |]; [| apply IH].
  destruct (Z.eq_dec c 5) as [-> | Hc].
  - unfold bind, sleep, emit; apply IH.
  - destruct c as [| [[[| | ] | [| | ] | ] | [[| | ] | [| | ] | ] | ] | ];
      try apply IH; congruence.
Qed.

Lemma wait_for_tx_no_raise fuel tx_hash s e s' :
  wait_for_tx fuel tx_hash s <> (Raise e, s').
Proof.
  unfold wait_for_tx, bind.
  destruct (wait_for_tx_loop fuel _ None tx_hash s) as [[r | e' |] s1] eqn:H;
    try discriminate.
  - destruct r as [msg | [receipt |]]; discriminate.
  - exfalso; eapply wait_for_tx_loop_no_raise; eauto.
Qed.

(** ** The worker's loop body *)

Lemma not_submit_sim e : sim_or_sleep e = true -> is_submit e = false.
Proof. destruct e as [[] ? | | | | | |]; cbv; congruence. Qed.

Lemma not_submit_bcast e : bcast_or_sleep e = true -> is_submit e = false.
Proof. destruct e as [[] ? | | | | | |]; cbv; congruence. Qed.

Lemma not_submit_txq e : txq_or_sleep e = true -> is_submit e = false.
Proof. destruct e as [[] ? | | | | | |]; cbv; congruence. Qed.

Lemma not_submit_inf e : inf_or_sleep e = true -> is_submit e = false.
Proof. destruct e as [[] ? | | | | | |]; cbv; congruence. Qed.

Lemma pipeline_tail_submissions r fuel tx s o s' :
  pipeline_tail r fuel tx s = (o, s') -> submissions s' = submissions s.
Proof.
  unfold pipeline_tail, submissions; intros H.
  apply bind_inv in H;
    destruct H as [(gas & s1 & H1 & H) | [(e & H1 & ->) | (H1 & ->)]];
    try solve [eapply step_count;
               [apply not_submit_sim | eapply emits_estimate_gas_loop; eauto]].
  pose proof (emits_estimate_gas_loop _ _ _ _ _ _ _ H1) as Hs1.
  apply (step_count _ _ _ _ not_submit_sim) in Hs1; rewrite <- Hs1.
  destruct (gas =? -1); [inversion H; reflexivity |].
  unfold get_gas_price in H; rewrite !bind_gets in H.
  unfold bind at 1, lift at 1 in H.
  destruct (call_set_fee T tx gas _ _) as [tx' | e |];
    try (inversion H; reflexivity).
  unfold get_fee in H; unfold bind at 1, lift at 1 in H.
  destruct (call_get_fee T tx') as [fee_ | e |];
    try (inversion H; reflexivity).
  unfold bind at 1, lift at 1 in H; rewrite bind_gets in H.
  destruct (fee_ >? _).
  { unfold bind, lift, ret in H; inversion H; reflexivity. }
  apply bind_inv in H;
    destruct H as [(h & s2 & H2 & H) | [(e & H2 & ->) | (H2 & ->)]];
    try solve [eapply step_count;
               [apply not_submit_bcast | eapply emits_broadcast_loop; eauto]].
  pose proof (emits_broadcast_loop _ _ _ _ _ _ _ H2) as Hs2.
  apply (step_count _ _ _ _ not_submit_bcast) in Hs2; rewrite <- Hs2.
  destruct (py_eqb h (PyInt (-1))); [inversion H; reflexivity |].
  apply bind_inv in H;
    destruct H as [(msg & s3 & H3 & H) | [(e & H3 & ->) | (H3 & ->)]];
    try solve [eapply step_count;
               [apply not_submit_txq | eapply emits_wait_for_tx; eauto]].
  pose proof (emits_wait_for_tx _ _ _ _ _ H3) as Hs3.
  apply (step_count _ _ _ _ not_submit_txq) in Hs3; rewrite <- Hs3.
  unfold bind at 1, lift at 1 in H.
  unfold bind, debit_balance, increment_sequence, modify, ret in H.
  inversion H; reflexivity.
Qed.

Lemma submit_inference_submissions fuel value topic nonce s o s' :
  submit_inference fuel value topic nonce s = (o, s') ->
  submissions s' = S (submissions s).
Proof.
  rewrite submit_inference_tail; intros H.
  apply pipeline_tail_submissions in H; rewrite H; reflexivity.
Qed.

Lemma is_topic_active_run topic s :
  is_topic_active topic s
  = (Ret (bool_result
            (topic_active_reply W
               (count (is_request EpTopicActive) (trace s)))),
     record (Request EpTopicActive (str_int topic)) s).
Proof. reflexivity. Qed.

Lemma get_topic_nonce_run topic s :
  get_topic_nonce topic s
  = (Ret (nonce_result
            (nonce_reply W (count (is_request EpNonce) (trace s)))),
     record (Request EpNonce (str_int topic)) s).
Proof. reflexivity. Qed.

(** ** Fetching the inference value *)

Lemma fetch_inference_run params s :
  fetch_inference params s
  = (inference_result
       (inference_replies W (count (is_request EpInference) (trace s))),
     record (Request EpInference (inference_url params)) s).
Proof. reflexivity. Qed.

Lemma unavailable_result r :
  inference_result r = Ret None <-> unavailable r = true.
Proof.
  destruct r as [| status [v | t]]; simpl; [tauto | |];
    destruct (error_status status); split; congruence.
Qed.

Lemma fetch_loop_exhausted n : forall fuel retries params s,
  Z.to_nat retries = n -> (n <= fuel)%nat ->
  (forall i, (i < n)%nat ->
     unavailable
       (inference_replies W (count (is_request EpInference) (trace s) + i))
     = true) ->
  exists s',
    fetch_loop fuel retries None params s = (Ret None, s') /\
    step inf_or_sleep s s' /\
    count (is_request EpInference) (trace s')
    = (count (is_request EpInference) (trace s) + n)%nat /\
    count is_sleep (trace s') = (count is_sleep (trace s) + n)%nat.
Proof.
  induction n as [| n IH]; intros fuel retries params s Hn Hfuel Hall.
  - exists s; split; [| split; [apply step_refl | split; lia]].
    assert (Hr : (retries >? 0) = false)
      by (rewrite Z.gtb_ltb; apply Z.ltb_ge; lia).
    destruct fuel; cbn [fetch_loop]; rewrite Hr; reflexivity.
  - destruct fuel as [| fuel]; [lia |].
    cbn [fetch_loop].
    replace (retries >? 0) with true by (symmetry; apply Z.gtb_lt; lia).
    cbn [andb].
    unfold bind at 1; rewrite fetch_inference_run.
    generalize (Hall O ltac:(lia)); rewrite Nat.add_0_r; intros Hu.
    apply unavailable_result in Hu; rewrite Hu.
    unfold bind at 1, sleep at 1, emit at 1.
    set (s1 := record _ (record _ s)).
    destruct (IH fuel (retries - 1) params s1 ltac:(lia) ltac:(lia))
      as (s' & Hrun & Hstep & Hc & Hsl).
    { intros i Hi.
      change (count (is_request EpInference) (trace s1))
        with (S (count (is_request EpInference) (trace s))).
      replace (S (count (is_request EpInference) (trace s)) + i)%nat
        with (count (is_request EpInference) (trace s) + S i)%nat by lia.
      apply Hall; lia. }
    exists s'; split; [exact Hrun |].
    split; [| split].
    { unfold step; repeat split; try apply Hstep.
    + destruct Hstep as (_ & _ & _ & Hst & _); intros Hs; apply Hst.
      subst s1; cbn; rewrite Hs; reflexivity.
    + destruct Hstep as (_ & _ & _ & _ & Hi & _); intros Hno.
      rewrite (Hi Hno); subst s1; cbn; rewrite !Hno, !orb_false_r.
      reflexivity.
    + destruct Hstep as (_ & _ & _ & _ & _ & new & Ht & Hp).
      exists (new ++ [Sleep (inference_fetch_retry_freq params);
                      Request EpInference (inference_url params)]).
      split.
      * rewrite Ht, <- app_assoc; reflexivity.
      * rewrite forallb_app, Hp; reflexivity. }
    + rewrite Hc.
      change (count (is_request EpInference) (trace s1))
        with (S (count (is_request EpInference) (trace s))); lia.
    + rewrite Hsl.
      change (count is_sleep (trace s1)) with (S (count is_sleep (trace s)));
        lia.
Qed.

(** ** Traces of computations that also change the wallet *)

Lemma grows_refl p s : grows p s s.
Proof. exists []; split; reflexivity. Qed.

Lemma grows_trans p s1 s2 s3 : grows p s1 s2 -> grows p s2 s3 -> grows p s1 s3.
Proof.
  intros (new & Ht & Hp) (new' & Ht' & Hp').
  exists (new' ++ new); split.
  - rewrite Ht', Ht, app_assoc; reflexivity.
  - rewrite forallb_app, Hp, Hp'; reflexivity.
Qed.

Lemma grows_count p q s s' :
  (forall e, p e = true -> q e = false) -> grows p s s' ->
  count q (trace s') = count q (trace s).
Proof.
  intros Hpq (new & Ht & Hp).
  rewrite Ht, count_app, (count_none p q new Hpq Hp); reflexivity.
Qed.

Lemma traces_of_emits {A} (p q : event -> bool) (m : M A) :
  (forall e, p e = true -> q e = true) -> emits p m -> traces q m.
Proof.
  intros Hpq Hm s o s' H.
  destruct (Hm s o s' H) as (_ & _ & _ & _ & _ & new & Ht & Hp).
  exists new; split; [exact Ht |].
  rewrite forallb_forall in *; auto.
Qed.

Lemma traces_ret {A} p (a : A) : traces p (ret a).
Proof. intros s o s' H; inversion H; subst; apply grows_refl. Qed.

Lemma traces_gets {A} p (f : State -> A) : traces p (gets f).
Proof. intros s o s' H; inversion H; subst; apply grows_refl. Qed.

Lemma traces_lift {A} p (o : outcome A) : traces p (lift o).
Proof. intros s o' s' H; inversion H; subst; apply grows_refl. Qed.

Lemma traces_modify p f :
  (forall s, trace (f s) = trace s) -> traces p (modify f).
Proof.
  intros Hf s o s' H; inversion H; subst.
  exists []; split; [apply Hf | reflexivity].
Qed.

Lemma traces_emit p e : p e = true -> traces p (emit e).
Proof.
  intros He s o s' H; inversion H; subst.
  exists [e]; split; [reflexivity | simpl; rewrite He; reflexivity].
Qed.

Lemma traces_bind {A B} p (m : M A) (k : A -> M B) :
  traces p m -> (forall a, traces p (k a)) -> traces p (bind m k).
Proof.
  intros Hm Hk s o s' H.
  apply bind_inv in H;
    destruct H as [(a & s1 & H1 & H2) | [(e & H1 & _) | (H1 & _)]].
  - eapply grows_trans; [eapply Hm | eapply Hk]; eauto.
  - eapply Hm; eauto.
  - eapply Hm; eauto.
Qed.

Lemma pass_event_sim e : sim_or_sleep e = true -> pass_event e = true.
Proof. destruct e as [[] ? | | | | | |]; cbv; congruence. Qed.

Lemma pass_event_bcast e : bcast_or_sleep e = true -> pass_event e = true.
Proof. destruct e as [[] ? | | | | | |]; cbv; congruence. Qed.

Lemma pass_event_txq e : txq_or_sleep e = true -> pass_event e = true.
Proof. destruct e as [[] ? | | | | | |]; cbv; congruence. Qed.

Lemma pass_event_inf e : inf_or_sleep e = true -> pass_event e = true.
Proof. destruct e as [[] ? | | | | | |]; cbv; congruence. Qed.

Lemma pass_event_request ep e : is_request ep e = true -> pass_event e = true.
Proof. destruct e as [[] ? | | | | | |]; destruct ep; cbv; congruence. Qed.

Lemma pass_event_no_check e : pass_event e = true -> is_stop_check e = false.
Proof. destruct e as [[] ? | | | | | |]; cbv; congruence. Qed.

Ltac traces_leaf :=
  first
    [ apply traces_ret | apply traces_gets | apply traces_lift
    | apply traces_modify; reflexivity
    | apply traces_emit; reflexivity ].

Ltac traces_seq := apply traces_bind; [solve [traces_leaf] | intros ?].

Lemma traces_pipeline_tail r fuel tx :
  traces pass_event (pipeline_tail r fuel tx).
Proof.
  unfold pipeline_tail.
  apply traces_bind;
    [eapply traces_of_emits;
       [apply pass_event_sim | apply emits_estimate_gas_loop] | intros gas].
  destruct (gas =? -1); [apply traces_ret |].
  unfold get_gas_price, get_fee.
  do 6 traces_seq.
  match goal with |- traces _ (if ?c then _ else _) => destruct c end;
    [traces_seq; traces_leaf |].
  apply traces_bind;
    [eapply traces_of_emits;
       [apply pass_event_bcast | apply emits_broadcast_loop] | intros h].
  destruct (py_eqb h (PyInt (-1))); [apply traces_ret |].
  apply traces_bind;
    [eapply traces_of_emits;
       [apply pass_event_txq | apply emits_wait_for_tx] | intros msg].
  unfold debit_balance, increment_sequence.
  do 3 traces_seq; traces_leaf.
Qed.

Lemma traces_submit_inference fuel value topic nonce :
  traces pass_event (submit_inference fuel value topic nonce).
Proof.
  intros s o s' H; rewrite submit_inference_tail in H.
  apply traces_pipeline_tail in H.
  eapply grows_trans; [| exact H].
  exists [Request EpLatestHeight ""; CallSubmit value topic nonce];
    split; reflexivity.
Qed.

Lemma traces_loop_body fuel params : traces pass_event (loop_body fuel params).
Proof.
  unfold loop_body.
  apply traces_bind;
    [eapply traces_of_emits;
       [apply (pass_event_request EpTopicActive) | apply emits_bool_query]
    | intros proceed].
  destruct proceed; cbn [negb];
    [| unfold stop; apply traces_modify; reflexivity].
  apply traces_bind;
    [eapply traces_of_emits;
       [apply (pass_event_request EpNonce) | apply emits_get_topic_nonce]
    | intros n].
  apply traces_bind; [apply traces_gets | intros latest].
  apply traces_bind; [| intros _; unfold sleep; traces_leaf].
  match goal with |- traces _ (if ?c then _ else _) => destruct c end;
    [| apply traces_ret].
  apply traces_bind;
    [eapply traces_of_emits; [apply pass_event_inf | apply emits_fetch_loop]
    | intros v].
  destruct v as [v |]; [| apply traces_ret].
  apply traces_bind; [apply traces_submit_inference | intros _].
  apply traces_modify; reflexivity.
Qed.

(** C8 (amended). [fetch_inference] answers [None], "value unavailable",
    exactly for a transport error and for the statuses 403, 429, 500 and
    503; a body that is not a number, under any other status, raises
    [ValueError] instead.  In a pass on an active topic with a new nonce,
    if the next K4 replies of the endpoint are all unavailable (K4 the
    configured number of retries), the pass asks K4 times, sleeps after each
    attempt and once more at its end, makes no submission, leaves last-used
    nonce and wallet alone, does not set the stop flag, and returns: the
    loop goes on. *)
Theorem unavailable_value_skips_round fuel params s s1 s2 n :
  (forall r, inference_result r = Ret None <-> unavailable r = true) /\
  (forall status t,
     error_status status = false ->
     inference_result (InferenceResponse status (NotNumeric t))
     = Raise (ValueError ("could not convert string to float: " ++ t)%string))
  /\
  (is_topic_active (topic_id params) s = (Ret true, s1) ->
   get_topic_nonce (topic_id params) s1 = (Ret n, s2) ->
   n > 0 -> n > latest_used_nonce s ->
   (Z.to_nat (inference_fetch_retries params) <= fuel)%nat ->
   (forall i, (i < Z.to_nat (inference_fetch_retries params))%nat ->
      unavailable
        (inference_replies W (count (is_request EpInference) (trace s) + i))
      = true) ->
   exists s',
     loop_body fuel params s = (Ret tt, s') /\
     count (is_request EpInference) (trace s')
     = (count (is_request EpInference) (trace s)
        + Z.to_nat (inference_fetch_retries params))%nat /\
     count is_sleep (trace s')
     = (count is_sleep (trace s)
        + Z.to_nat (inference_fetch_retries params) + 1)%nat /\
     submissions s' = submissions s /\
     latest_used_nonce s' = latest_used_nonce s /\
     wallet s' = wallet s /\
     ((forall k, interrupt W k = false) -> stop_event s' = stop_event s)).
Proof.
  split; [apply unavailable_result |].
  split; [intros status t Hs; simpl; rewrite Hs; reflexivity |].
  intros Hactive Hnonce Hpos Hnew Hfuel Hall.
  pose proof Hactive as Hactive'; pose proof Hnonce as Hnonce'.
  rewrite is_topic_active_run in Hactive'.
  injection Hactive' as Hact Hs1.
  rewrite get_topic_nonce_run in Hnonce'.
  injection Hnonce' as Hn Hs2.
  destruct (fetch_loop_exhausted (Z.to_nat (inference_fetch_retries params))
              fuel (inference_fetch_retries params) params s2 eq_refl Hfuel)
    as (s3 & Hrun & Hstep & Hc & Hsl).
  { intros i Hi; subst s2 s1; apply Hall; exact Hi. }
  exists (record (Sleep (nonce_fetch_freq params)) s3).
  destruct Hstep as (Hw & _ & Hl & _ & Hi & new & Ht & Hp).
  assert (Hsub : submissions s3 = submissions s2).
  { unfold submissions; rewrite Ht, count_app,
      (count_none _ _ _ not_submit_inf Hp); reflexivity. }
  split.
  - unfold loop_body.
    rewrite (bind_Ret _ _ _ _ _ Hactive); cbn [negb].
    rewrite (bind_Ret _ _ _ _ _ Hnonce), bind_gets.
    replace (latest_used_nonce s2) with (latest_used_nonce s)
      by (subst s2 s1; reflexivity).
    replace ((n >? 0) && (n >? latest_used_nonce s)) with true.
    2:{ symmetry; apply andb_true_iff; rewrite !Z.gtb_ltb, !Z.ltb_lt; lia. }
    unfold bind at 1.
    rewrite (bind_Ret _ _ _ _ _ Hrun); reflexivity.
  - subst s2 s1; repeat split.
    + rewrite count_record_other by reflexivity; exact Hc.
    + unfold count in *; cbn in *; lia.
    + unfold submissions in *; unfold count in *; cbn in *; lia.
    + exact Hl.
    + exact Hw.
    + intros Hno; cbn; rewrite (Hi Hno); cbn; rewrite !Hno, !orb_false_r.
      reflexivity.
Qed.

(** ** Cancellation *)

Lemma is_set_run s :
  is_set s = (Ret (stop_event s), record (IsSet (stop_event s)) s).
Proof. reflexivity. Qed.

Lemma polling_loop_stopped rounds fuel params s :
  stop_event s = true ->
  polling_loop rounds fuel params s = (Ret tt, record (IsSet true) s).
Proof.
  intros Hs; destruct rounds; cbn [polling_loop];
    unfold bind; rewrite is_set_run, Hs; reflexivity.
Qed.

Lemma loop_body_ends_with_sleep fuel params s s1 :
  loop_body fuel params s = (Ret tt, s1) ->
  bool_result
    (topic_active_reply W (count (is_request EpTopicActive) (trace s)))
  = true ->
  exists s0, s1 = record (Sleep (nonce_fetch_freq params)) s0.
Proof.
  unfold loop_body; intros H Hact.
  rewrite (bind_Ret _ _ _ _ _ (is_topic_active_run _ _)), Hact in H.
  cbn [negb] in H.
  rewrite (bind_Ret _ _ _ _ _ (get_topic_nonce_run _ _)), bind_gets in H.
  apply bind_inv in H;
    destruct H as [(a & s0 & _ & H) | [(e & _ & He) | (_ & He)]];
    try discriminate.
  exists s0; inversion H; reflexivity.
Qed.

(** C7 (amended). The stop flag is checked at the head of the polling
    loop only: one pass of the loop body makes no check, so there is none
    between the work of a pass and its sleep.  Once the flag is set, the
    check that follows is the loop's last event: no request and no sleep
    come after it.  In particular, when the orchestrator's [stop] lands
    during the sleep that ends a pass on an active topic, the loop and the
    [try]/[finally] around it end with that check and the closing of the
    client. *)
Theorem stop_flag_checked_at_loop_head rounds fuel params s :
  (forall o s', loop_body fuel params s = (o, s') ->
                stop_checks s' = stop_checks s) /\
  (stop_event s = true ->
   polling_loop rounds fuel params s = (Ret tt, record (IsSet true) s)) /\
  (stop_event s = false ->
   bool_result
     (topic_active_reply W (count (is_request EpTopicActive) (trace s)))
   = true ->
   forall s1,
     loop_body fuel params (record (IsSet false) s) = (Ret tt, s1) ->
     exists s0,
       s1 = record (Sleep (nonce_fetch_freq params)) s0 /\
       (interrupt W (List.length (trace s0)) = true ->
        try_except_finally (polling_loop (S rounds) fuel params)
          (emit ClientClose) s
        = (Ret tt, record ClientClose (record (IsSet true) s1)))).
Proof.
  split; [| split].
  - intros o s' H; unfold stop_checks.
    eapply grows_count; [apply pass_event_no_check |].
    eapply traces_loop_body; eauto.
  - apply polling_loop_stopped.
  - intros Hs Hact s1 Hbody.
    destruct (loop_body_ends_with_sleep _ _ _ _ Hbody Hact) as [s0 Hs0].
    exists s0; split; [exact Hs0 |].
    intros Hint.
    assert (Hstop : stop_event s1 = true).
    { subst s1; cbn; rewrite Hint; apply orb_true_r. }
    unfold try_except_finally; cbn [polling_loop].
    rewrite (bind_Ret _ _ _ _ _ (is_set_run _)), Hs.
    rewrite (bind_Ret _ _ _ _ _ Hbody).
    rewrite (polling_loop_stopped _ _ _ _ Hstop); reflexivity.
Qed.

(** ** Wallet construction and start-up *)

(** The state [Wallet.__init__] hands to [fetch_wallet_details]. *)
Lemma fetch_wallet_details_result s o s' :
  fetch_wallet_details s = (o, s') ->
  let ka := count (is_request EpAccountInfo) (trace s) in
  let kb := count (is_request EpBalance) (trace s) in
  grows is_network s s' /\ node s' = node s /\
  match fetched_account (account_info_reply W ka) with
  | None => wallet s' = wallet s
  | Some info =>
      o = Ret tt /\
      match fetched_balance (balance_reply W kb) with
      | None =>
          wallet s' = with_account (Z.of_N (info_account_number info))
                        (Z.of_N (info_sequence info)) (wallet s)
      | Some amount =>
          wallet s'
          = with_balance (Z.of_N amount)
              (with_account (Z.of_N (info_account_number info))
                 (Z.of_N (info_sequence info)) (wallet s))
      end
  end.
Proof.
  intros H ka kb.
  unfold fetch_wallet_details in H; rewrite bind_gets in H.
  unfold http, bind, gets, emit, ret, modify in H.
  fold ka in H; unfold fetched_account.
  set (s1 := record (Request EpAccountInfo (address (wallet s))) s) in *.
  assert (G1 : grows is_network s s1)
    by (exists [Request EpAccountInfo (address (wallet s))]; split;
        reflexivity).
  destruct (account_info_reply W ka) as [| status [resp |]].
  - inversion H; subst; auto.
  - destruct (error_status status); [inversion H; subst; auto |].
    destruct (j_code resp) as [c |]; [inversion H; subst; auto |].
    destruct (payload resp) as [info |];
      [| unfold raise in H; inversion H; subst; auto].
    change (count (is_request EpBalance) (trace (set_wallet _ s1)))
      with kb in H.
    unfold fetched_balance.
    set (s2 := record (Request EpBalance (address (wallet s))) _) in *.
    assert (G2 : grows is_network s s2)
      by (exists [Request EpBalance (address (wallet s));
                  Request EpAccountInfo (address (wallet s))]; split;
          reflexivity).
    destruct (balance_reply W kb) as [| status2 [resp2 |]].
    + inversion H; subst; auto.
    + destruct (error_status status2); [inversion H; subst; auto |].
      destruct (j_code resp2) as [c2 |]; [inversion H; subst; auto |].
      destruct (payload resp2) as [amount |]; inversion H; subst; auto.
    + destruct (error_status status2); inversion H; subst; auto.
  - destruct (error_status status); inversion H; subst; auto.
Qed.

Lemma of_N_not_minus_one n : (Z.of_N n =? -1) = false.
Proof. destruct n; reflexivity. Qed.

Lemma of_N_eqb_zero n : (Z.of_N n =? 0) = (n =? 0)%N.
Proof. destruct n; reflexivity. Qed.

(** The wallet [Wallet.__init__] leaves behind, case by case. *)
Lemma Wallet_init_result adjustment s o s' :
  Wallet_init adjustment s = (o, s') ->
  let ka := count (is_request EpAccountInfo) (trace s) in
  let kb := count (is_request EpBalance) (trace s) in
  grows is_network s s' /\ node s' = node s /\
  match fetched_account (account_info_reply W ka) with
  | None => initialized (wallet s') = false
  | Some info =>
      o = Ret tt /\
      account_number (wallet s') = Z.of_N (info_account_number info) /\
      sequence (wallet s') = Z.of_N (info_sequence info) /\
      match fetched_balance (balance_reply W kb) with
      | None => initialized (wallet s') = false /\ balance (wallet s') = 0
      | Some amount =>
          balance (wallet s') = Z.of_N amount /\
          initialized (wallet s') = negb (amount =? 0)%N
      end
  end.
Proof.
  intros H ka kb; unfold Wallet_init in H.
  unfold bind at 1, modify at 1 in H.
  set (s0 := set_wallet _ s) in H.
  apply bind_inv in H;
    destruct H as [([] & s1 & H1 & H) | [(e & H1 & ->) | (H1 & ->)]];
    apply fetch_wallet_details_result in H1;
    change (count (is_request EpAccountInfo) (trace s0)) with ka in H1;
    change (count (is_request EpBalance) (trace s0)) with kb in H1;
    cbv zeta in H1; destruct H1 as (G & Hn & H1);
    (split; [| split]).
  - rewrite bind_gets in H.
    destruct (_ || _) in H; inversion H; subst; exact G.
  - rewrite bind_gets in H.
    destruct (_ || _) in H; inversion H; subst; exact Hn.
  - rewrite bind_gets in H.
    destruct (fetched_account (account_info_reply W ka)) as [info |].
    + destruct H1 as (_ & H1).
      destruct (fetched_balance (balance_reply W kb)) as [amount |];
        rewrite H1 in H; cbn [account_number sequence balance with_balance
                                with_account s0 set_wallet wallet] in H;
        rewrite ?of_N_not_minus_one, ?of_N_eqb_zero in H; cbn [orb] in H.
      * destruct (amount =? 0)%N; inversion H; subst;
          repeat split; cbn; rewrite H1; reflexivity.
      * inversion H; subst; repeat split; rewrite H1; reflexivity.
    + rewrite H1 in H; cbn in H; inversion H; subst; rewrite H1; reflexivity.
  - exact G.
  - exact Hn.
  - destruct (fetched_account (account_info_reply W ka)) as [info |].
    + destruct H1 as (H1 & _); discriminate.
    + rewrite H1; reflexivity.
  - exact G.
  - exact Hn.
  - destruct (fetched_account (account_info_reply W ka)) as [info |].
    + destruct H1 as (H1 & _); discriminate.
    + rewrite H1; reflexivity.
Qed.

Lemma network_not_thread_start e :
  is_network e = true -> is_thread_start e = false.
Proof. destruct e; cbv; congruence. Qed.

(** C10. After [Wallet.__init__], [is_initialized()] is [True] only if the
    start-up fetch set the account number and the sequence (both are then
    >= 0) and a balance different from 0.  When the account query succeeds
    but the balance query fails, or reports a balance of exactly 0, the
    wallet is left uninitialized with account number and sequence set.
    And with an uninitialized wallet [main] exits with code -1 right after
    the construction, no worker thread started. *)
Theorem initialized_only_if_funded cfg s :
  let ka := count (is_request EpAccountInfo) (trace s) in
  let kb := count (is_request EpBalance) (trace s) in
  (forall adjustment s',
     Wallet_init adjustment s = (Ret tt, s') ->
     is_initialized s' = (Ret true, s') ->
     exists info amount,
       fetched_account (account_info_reply W ka) = Some info /\
       fetched_balance (balance_reply W kb) = Some amount /\
       account_number (wallet s') = Z.of_N (info_account_number info) /\
       sequence (wallet s') = Z.of_N (info_sequence info) /\
       balance (wallet s') = Z.of_N amount /\
       account_number (wallet s') >= 0 /\
       sequence (wallet s') >= 0 /\
       balance (wallet s') <> 0)
  /\
  (forall adjustment info,
     fetched_account (account_info_reply W ka) = Some info ->
     fetched_balance (balance_reply W kb) = None \/
     fetched_balance (balance_reply W kb) = Some 0%N ->
     exists s',
       Wallet_init adjustment s = (Ret tt, s') /\
       is_initialized s' = (Ret false, s') /\
       account_number (wallet s') = Z.of_N (info_account_number info) /\
       sequence (wallet s') = Z.of_N (info_sequence info))
  /\
  (forall seed url adjustment s',
     cfg_seed_phrase cfg = Some seed -> seed <> "" ->
     cfg_api_url cfg = Some url -> url <> "" ->
     connected (node s) = true ->
     cfg_gas_adjustment cfg = Some adjustment ->
     Wallet_init adjustment s = (Ret tt, s') ->
     is_initialized s' = (Ret false, s') ->
     main cfg s = (Raise (SystemExit (-1)), s') /\
     threads_started s' = threads_started s).
Proof.
  intros ka kb; split; [| split].
  - intros adjustment s' H Hinit.
    unfold is_initialized, gets in Hinit; injection Hinit as Hinit.
    apply Wallet_init_result in H; cbv zeta in H; fold ka kb in H.
    destruct H as (_ & _ & H).
    destruct (fetched_account (account_info_reply W ka)) as [info |];
      [| congruence].
    destruct H as (_ & Ha & Hs & H).
    destruct (fetched_balance (balance_reply W kb)) as [amount |];
      [| destruct H; congruence].
    destruct H as (Hb & Hi).
    exists info, amount; repeat split; auto; try lia.
    rewrite Hb; rewrite Hinit in Hi.
    destruct amount; [discriminate | lia].
  - intros adjustment info Hacc Hbal.
    destruct (Wallet_init adjustment s) as [o s'] eqn:H.
    pose proof (Wallet_init_result _ _ _ _ H) as R; cbv zeta in R.
    fold ka kb in R; rewrite Hacc in R.
    destruct R as (_ & _ & -> & Ha & Hs & R).
    exists s'; repeat split; auto.
    unfold is_initialized, gets; f_equal; f_equal.
    destruct Hbal as [Hbal | Hbal]; rewrite Hbal in R.
    + apply R.
    + destruct R as (_ & R); exact R.
  - intros seed url adjustment s' Hseed Hne Hurl Hne' Hconn Hadj H Hinit.
    pose proof (Wallet_init_result _ _ _ _ H) as R; cbv zeta in R.
    destruct R as (G & Hn & _).
    split.
    + unfold main; rewrite Hseed, Hurl, Hadj.
      destruct seed as [| c seed]; [congruence |].
      destruct url as [| c' url]; [congruence |].
      unfold is_connected; rewrite bind_gets, Hconn; cbn [negb].
      rewrite (bind_Ret _ _ _ _ _ H), (bind_Ret _ _ _ _ _ Hinit).
      reflexivity.
    + unfold threads_started.
      eapply grows_count; [apply network_not_thread_start | exact G].
Qed.

(** ** Waiting for a transaction *)

Lemma http_run {A} ep arg (replies : nat -> A) s :
  http ep arg replies s
  = (Ret (replies (count (is_request ep) (trace s))),
     record (Request ep arg) s).
Proof. reflexivity. Qed.

Lemma wait_for_tx_message fuel tx_hash s :
  wait_for_tx fuel tx_hash s
  = match wait_for_tx_loop fuel (tx_check_retries node_params) None tx_hash s
    with
    | (Ret r, s') => (Ret (wait_message r), s')
    | (Raise e, s') => (Raise e, s')
    | (OutOfFuel, s') => (OutOfFuel, s')
    end.
Proof.
  unfold wait_for_tx, bind.
  destruct (wait_for_tx_loop fuel _ None tx_hash s) as [[r | e |] s'];
    try reflexivity.
  destruct r as [msg | [receipt |]]; reflexivity.
Qed.

Lemma after_polls_frame i : forall tx_hash s,
  wallet (after_polls i tx_hash s) = wallet s /\
  count (is_request EpTx) (trace (after_polls i tx_hash s))
  = (count (is_request EpTx) (trace s) + i)%nat /\
  count is_sleep (trace (after_polls i tx_hash s))
  = (count is_sleep (trace s) + i)%nat /\
  broadcasts (after_polls i tx_hash s) = broadcasts s.
Proof.
  induction i as [| i IH]; intros tx_hash s; cbn [after_polls].
  - repeat split; lia.
  - destruct (IH tx_hash (record (Sleep (tx_check_freq node_params))
                            (record (Request EpTx tx_hash) s)))
      as (Hw & Ht & Hs & Hb).
    rewrite Hw, Ht, Hs, Hb; repeat split.
    + change (count (is_request EpTx)
                (trace (record (Sleep (tx_check_freq node_params))
                          (record (Request EpTx tx_hash) s))))
        with (S (count (is_request EpTx) (trace s))); lia.
    + change (count is_sleep
                (trace (record (Sleep (tx_check_freq node_params))
                          (record (Request EpTx tx_hash) s))))
        with (S (count is_sleep (trace s))); lia.
Qed.

Lemma tx_pending_step fuel retries tx_hash s :
  retries > 0 ->
  tx_pending (tx_reply W (count (is_request EpTx) (trace s))) = true ->
  wait_for_tx_loop (S fuel) retries None tx_hash s
  = wait_for_tx_loop fuel (retries - 1) None tx_hash
      (record (Sleep (tx_check_freq node_params))
         (record (Request EpTx tx_hash) s)).
Proof.
  intros Hr Hp; cbn [wait_for_tx_loop].
  replace (retries >? 0) with true by (symmetry; apply Z.gtb_lt; lia).
  cbn [andb]; rewrite (bind_Ret _ _ _ _ _ (http_run _ _ _ _)).
  unfold tx_pending in Hp.
  destruct (tx_reply W _) as [| status [resp |]]; try discriminate.
  destruct (payload resp); [discriminate |].
  destruct (j_code resp) as [c |]; [| discriminate].
  apply Z.eqb_eq in Hp; subst c; reflexivity.
Qed.

Lemma wait_for_tx_loop_polls i : forall fuel retries tx_hash s,
  (forall j, (j < i)%nat ->
     tx_pending (tx_reply W (count (is_request EpTx) (trace s) + j)) = true) ->
  Z.of_nat i <= retries ->
  wait_for_tx_loop (i + fuel) retries None tx_hash s
  = wait_for_tx_loop fuel (retries - Z.of_nat i) None tx_hash
      (after_polls i tx_hash s).
Proof.
  induction i as [| i IH]; intros fuel retries tx_hash s Hall Hle.
  - cbn; rewrite Z.sub_0_r; reflexivity.
  - cbn [Nat.add after_polls].
    rewrite tx_pending_step; [| lia |].
    + rewrite IH; [f_equal; lia | | lia].
      intros j Hj.
      change (count (is_request EpTx)
                (trace (record (Sleep (tx_check_freq node_params))
                          (record (Request EpTx tx_hash) s))))
        with (S (count (is_request EpTx) (trace s))).
      replace (S (count (is_request EpTx) (trace s)) + j)%nat
        with (count (is_request EpTx) (trace s) + S j)%nat by lia.
      apply Hall; lia.
    + generalize (Hall O ltac:(lia)); rewrite Nat.add_0_r; auto.
Qed.

(** X4. [wait_for_tx] gives up after the configured number of queries: if
    the transaction is not found in any of the next [tx_check_retries]
    replies, it has queried that many times, slept after each query (also
    after the last), and returns "transaction not included in a block". *)
Theorem wait_for_tx_times_out fuel tx_hash s :
  (Z.to_nat (tx_check_retries node_params) <= fuel)%nat ->
  (forall j, (j < Z.to_nat (tx_check_retries node_params))%nat ->
     tx_pending (tx_reply W (count (is_request EpTx) (trace s) + j)) = true) ->
  exists s',
    wait_for_tx fuel tx_hash s
    = (Ret "transaction not included in a block", s') /\
    count (is_request EpTx) (trace s')
    = (count (is_request EpTx) (trace s)
       + Z.to_nat (tx_check_retries node_params))%nat /\
    count is_sleep (trace s')
    = (count is_sleep (trace s)
       + Z.to_nat (tx_check_retries node_params))%nat /\
    wallet s' = wallet s.
Proof.
  intros Hfuel Hall.
  set (K := Z.to_nat (tx_check_retries node_params)) in *.
  exists (after_polls K tx_hash s).
  destruct (after_polls_frame K tx_hash s) as (Hw & Ht & Hs & _).
  repeat split; auto.
  rewrite wait_for_tx_message.
  replace fuel with (K + (fuel - K))%nat by lia.
  destruct (Z_le_gt_dec (tx_check_retries node_params) 0) as [Hneg | Hpos].
  - assert (HK : K = O) by (subst K; lia).
    rewrite HK; cbn [Nat.add after_polls].
    assert (Hc : (tx_check_retries node_params >? 0) = false)
      by (rewrite Z.gtb_ltb; apply Z.ltb_ge; lia).
    destruct (fuel - 0)%nat; cbn [wait_for_tx_loop]; rewrite Hc; reflexivity.
  - rewrite (wait_for_tx_loop_polls K _ _ _ _ Hall) by (subst K; lia).
    replace (tx_check_retries node_params - Z.of_nat K) with 0
      by (subst K; lia).
    destruct (fuel - K)%nat; reflexivity.
Qed.

(** X3. A reply that settles the matter ends the wait at once, whatever
    retries are left: after [i] replies "not found", a transport error
    gives "httpx.RequestError", a body that is not JSON gives "transaction
    not included in a block", a receipt gives the empty string for code 0
    and its raw log otherwise; [i + 1] queries were made and [i] sleeps. *)
Theorem wait_for_tx_verdict i fuel tx_hash s msg :
  (i < fuel)%nat ->
  Z.of_nat i < tx_check_retries node_params ->
  (forall j, (j < i)%nat ->
     tx_pending (tx_reply W (count (is_request EpTx) (trace s) + j)) = true) ->
  tx_verdict (tx_reply W (count (is_request EpTx) (trace s) + i)) = Some msg ->
  exists s',
    wait_for_tx fuel tx_hash s = (Ret msg, s') /\
    count (is_request EpTx) (trace s')
    = (count (is_request EpTx) (trace s) + i + 1)%nat /\
    count is_sleep (trace s') = (count is_sleep (trace s) + i)%nat /\
    wallet s' = wallet s.
Proof.
  intros Hfuel Hlt Hall Hv.
  destruct (after_polls_frame i tx_hash s) as (Hw & Ht & Hs & _).
  exists (record (Request EpTx tx_hash) (after_polls i tx_hash s)).
  split; [| repeat split].
  - rewrite wait_for_tx_message.
    replace fuel with (i + S (fuel - i - 1))%nat by lia.
    rewrite (wait_for_tx_loop_polls i _ _ _ _ Hall) by lia.
    cbn [wait_for_tx_loop].
    replace (tx_check_retries node_params - Z.of_nat i >? 0) with true
      by (symmetry; apply Z.gtb_lt; lia).
    cbn [andb]; rewrite (bind_Ret _ _ _ _ _ (http_run _ _ _ _)), Ht.
    unfold tx_verdict in Hv.
    destruct (tx_reply W _) as [| status [resp |]].
    + injection Hv as <-; reflexivity.
    + destruct (payload resp) as [receipt |]; [| discriminate].
      injection Hv as <-.
      assert (E : forall f r,
                wait_for_tx_loop f r (Some receipt) tx_hash
                = ret (inr (Some receipt)))
        by (intros [| f] r; cbn [wait_for_tx_loop];
            rewrite Bool.andb_false_r; reflexivity).
      rewrite E; reflexivity.
    + injection Hv as <-; reflexivity.
  - change (count (is_request EpTx)
              (trace (record (Request EpTx tx_hash)
                        (after_polls i tx_hash s))))
      with (S (count (is_request EpTx) (trace (after_polls i tx_hash s)))).
    rewrite Ht; lia.
  - rewrite count_record_other by reflexivity; exact Hs.
  - exact Hw.
Qed.

Lemma tx_passed_over_step fuel retries tx_hash s :
  retries > 0 ->
  tx_passed_over (tx_reply W (count (is_request EpTx) (trace s))) = true ->
  wait_for_tx_loop (S fuel) retries None tx_hash s
  = wait_for_tx_loop fuel retries None tx_hash
      (record (Request EpTx tx_hash) s).
Proof.
  intros Hr Hp; cbn [wait_for_tx_loop].
  replace (retries >? 0) with true by (symmetry; apply Z.gtb_lt; lia).
  cbn [andb]; rewrite (bind_Ret _ _ _ _ _ (http_run _ _ _ _)).
  unfold tx_passed_over in Hp.
  destruct (tx_reply W _) as [| status [resp |]]; try discriminate.
  destruct (payload resp); [discriminate |].
  destruct (j_code resp) as [c |]; [| reflexivity].
  apply negb_true_iff, Z.eqb_neq in Hp.
  destruct c as [| [[[| | ] | [| | ] | ] | [[| | ] | [| | ] | ] | ] | ];
    try reflexivity; congruence.
Qed.

(** X5. [wait_for_tx] counts a retry only for a reply with code 5.  When
    every reply is a JSON object without ["tx_response"] whose code is
    absent or not 5, the loop neither counts nor sleeps: whatever the
    budget [fuel] of loop passes, it has made [fuel] queries, no sleep, and
    has not returned. *)
Theorem wait_for_tx_never_counts fuel tx_hash s :
  tx_check_retries node_params > 0 ->
  (forall j,
     tx_passed_over (tx_reply W (count (is_request EpTx) (trace s) + j))
     = true) ->
  exists s',
    wait_for_tx fuel tx_hash s = (OutOfFuel, s') /\
    count (is_request EpTx) (trace s')
    = (count (is_request EpTx) (trace s) + fuel)%nat /\
    count is_sleep (trace s') = count is_sleep (trace s).
Proof.
  intros Hr Hall.
  assert (Hloop : exists s',
            wait_for_tx_loop fuel (tx_check_retries node_params) None tx_hash s
            = (OutOfFuel, s') /\
            count (is_request EpTx) (trace s')
            = (count (is_request EpTx) (trace s) + fuel)%nat /\
            count is_sleep (trace s') = count is_sleep (trace s)).
  { revert s Hall; induction fuel as [| fuel IH]; intros s Hall.
    - exists s; repeat split; try lia.
      cbn [wait_for_tx_loop].
      replace (tx_check_retries node_params >? 0) with true
        by (symmetry; apply Z.gtb_lt; lia).
      reflexivity.
    - rewrite tx_passed_over_step; [| exact Hr |].
      + destruct (IH (record (Request EpTx tx_hash) s)) as (s' & H & Ht & Hs).
        { intros j.
          change (count (is_request EpTx)
                    (trace (record (Request EpTx tx_hash) s)))
            with (S (count (is_request EpTx) (trace s))).
          replace (S (count (is_request EpTx) (trace s)) + j)%nat
            with (count (is_request EpTx) (trace s) + S j)%nat by lia.
          apply Hall. }
        exists s'; repeat split; [exact H | |].
        * rewrite Ht.
          change (count (is_request EpTx)
                    (trace (record (Request EpTx tx_hash) s)))
            with (S (count (is_request EpTx) (trace s))); lia.
        * rewrite Hs; apply count_record_other; reflexivity.
      + generalize (Hall O); rewrite Nat.add_0_r; auto. }
  destruct Hloop as (s' & H & Ht & Hs).
  exists s'; repeat split; auto.
  rewrite wait_for_tx_message, H; reflexivity.
Qed.

(** ** The gas loop, attempt by attempt *)

(** The gas loop with [n] retries always ends, after at most [n]
    simulations. *)
Lemma estimate_gas_loop_attempts n : forall fuel tx body s,
  tx_body tx = Some body -> (n <= fuel)%nat ->
  exists a gas s',
    estimate_gas_loop fuel (Z.of_nat n) (-1) tx s = (Ret gas, s') /\
    wallet s' = wallet s /\
    count (is_request EpSimulate) (trace s')
    = (count (is_request EpSimulate) (trace s) + a)%nat /\
    ((gas = -1 /\ a = n /\
      (forall j, (j < n)%nat ->
         simulate_result
           (simulate_reply W (count (is_request EpSimulate) (trace s) + j))
         = -1) /\
      count is_sleep (trace s') = (count is_sleep (trace s) + n)%nat)
     \/
     (gas <> -1 /\ (1 <= a <= n)%nat /\
      gas = simulate_result
              (simulate_reply W
                 (count (is_request EpSimulate) (trace s) + (a - 1))) /\
      (forall j, (j < a - 1)%nat ->
         simulate_result
           (simulate_reply W (count (is_request EpSimulate) (trace s) + j))
         = -1) /\
      count is_sleep (trace s') = (count is_sleep (trace s) + (a - 1))%nat)).
Proof.
  induction n as [| n IH]; intros fuel tx body s Hbody Hfuel.
  - exists O, (-1), s; split; [destruct fuel; reflexivity |].
    split; [reflexivity | split; [lia |]].
    left; repeat split; try lia.
  - destruct fuel as [| fuel]; [lia |].
    destruct (get_tx_bytes_body tx body (wallet s) (node s) Hbody) as [b Hb].
    cbn [estimate_gas_loop].
    replace (Z.of_nat (S n) >? 0) with true by (symmetry; apply Z.gtb_lt; lia).
    cbn [andb Z.eqb Pos.eqb].
    unfold bind at 1, tx_bytes at 1; rewrite Hb.
    unfold bind at 1, simulate_tx at 1, http, bind, gets, emit, ret.
    set (k := count (is_request EpSimulate) (trace s)).
    set (s1 := record (Request EpSimulate b) s).
    destruct (simulate_result (simulate_reply W k) =? -1) eqn:Hg.
    + apply Z.eqb_eq in Hg; rewrite Hg.
      unfold sleep, emit.
      replace (Z.of_nat (S n) - 1) with (Z.of_nat n) by lia.
      destruct (IH fuel tx body (record (Sleep 1) s1) Hbody ltac:(lia))
        as (a & gas & s' & Hrun & Hw & Hsim & Hcase).
      change (count (is_request EpSimulate) (trace (record (Sleep 1) s1)))
        with (S k) in Hsim, Hcase.
      change (count is_sleep (trace (record (Sleep 1) s1)))
        with (S (count is_sleep (trace s))) in Hcase.
      exists (S a), gas, s'; split; [exact Hrun |].
      split; [exact Hw | split; [lia |]].
      assert (Hshift : forall m,
                (forall j, (j < m)%nat ->
                   simulate_result (simulate_reply W (S k + j)) = -1) ->
                forall j, (j < S m)%nat ->
                   simulate_result (simulate_reply W (k + j)) = -1).
      { intros m Hm [| j] Hj; [rewrite Nat.add_0_r; exact Hg |].
        replace (k + S j)%nat with (S k + j)%nat by lia; apply Hm; lia. }
      destruct Hcase as [(Hgas & Ha & Hall & Hsl)
                        | (Hgas & Ha & Hres & Hall & Hsl)].
      * left; repeat split; auto; try lia.
        apply Hshift; exact Hall.
      * right; repeat split; auto; try lia.
        -- rewrite Hres; do 2 f_equal; lia.
        -- replace (S a - 1)%nat with (S (a - 1)) by lia.
           apply Hshift; exact Hall.
    + exists 1%nat, (simulate_result (simulate_reply W k)), s1.
      apply Z.eqb_neq in Hg.
      split; [apply estimate_gas_loop_done; exact Hg |].
      split; [reflexivity | split].
      { change (count (is_request EpSimulate) (trace s1)) with (S k); lia. }
      right; repeat split; auto; try lia.
      cbn [Nat.sub]; rewrite Nat.add_0_r; reflexivity.
Qed.

(** ** What the submission methods return, and what they cost *)

(** Every way [pipeline_tail] can end.  Either the wallet is as before: gas
    could not be estimated ([r] is returned), the fee was above the balance
    ([False] is returned), an exception escaped, or a loop did not end; or
    the wallet paid for one broadcast transaction and a boolean is
    returned. *)
Lemma pipeline_tail_cases r fuel tx s o s' :
  pipeline_tail r fuel tx s = (o, s') ->
  node s' = node s /\ latest_used_nonce s' = latest_used_nonce s /\
  (broadcasts s <= broadcasts s')%nat /\
  ((wallet s' = wallet s /\
    (o <> OutOfFuel -> broadcasts s' = broadcasts s) /\
    (forall b, o = Ret b ->
       b = r \/
       (b = false /\
        exists gas tx' fee_,
          gas <> -1 /\
          call_set_fee T tx gas (gas_price (node s))
            (gas_adjustment (wallet s)) = Ret tx' /\
          call_get_fee T tx' = Ret fee_ /\
          fee_ > balance (wallet s))))
   \/
   ((broadcasts s < broadcasts s')%nat /\
    exists gas tx' fee_ b,
      gas <> -1 /\
      call_set_fee T tx gas (gas_price (node s)) (gas_adjustment (wallet s))
      = Ret tx' /\
      call_get_fee T tx' = Ret fee_ /\
      fee_ <= balance (wallet s) /\
      o = Ret b /\ (b = true \/ b = r) /\
      wallet s'
      = with_sequence (sequence (wallet s) + 1)
          (with_balance (balance (wallet s) - fee_) (wallet s)))).
Proof.
  unfold pipeline_tail, broadcasts; intros H.
  assert (Hleft : forall s1, step sim_or_sleep s s1 ->
            (forall b, o = Ret b ->
               b = r \/
               (b = false /\
                exists gas tx' fee_,
                  gas <> -1 /\
                  call_set_fee T tx gas (gas_price (node s))
                    (gas_adjustment (wallet s)) = Ret tx' /\
                  call_get_fee T tx' = Ret fee_ /\
                  fee_ > balance (wallet s))) ->
            node s1 = node s /\ latest_used_nonce s1 = latest_used_nonce s /\
            (count (is_request EpBroadcast) (trace s)
             <= count (is_request EpBroadcast) (trace s1))%nat /\
            ((wallet s1 = wallet s /\
              (o <> OutOfFuel ->
               count (is_request EpBroadcast) (trace s1)
               = count (is_request EpBroadcast) (trace s)) /\
              (forall b, o = Ret b ->
                 b = r \/
                 (b = false /\
                  exists gas tx' fee_,
                    gas <> -1 /\
                    call_set_fee T tx gas (gas_price (node s))
                      (gas_adjustment (wallet s)) = Ret tx' /\
                    call_get_fee T tx' = Ret fee_ /\
                    fee_ > balance (wallet s))))
             \/
             ((count (is_request EpBroadcast) (trace s)
               < count (is_request EpBroadcast) (trace s1))%nat /\
              exists gas tx' fee_ b,
                gas <> -1 /\
                call_set_fee T tx gas (gas_price (node s))
                  (gas_adjustment (wallet s)) = Ret tx' /\
                call_get_fee T tx' = Ret fee_ /\
                fee_ <= balance (wallet s) /\
                o = Ret b /\ (b = true \/ b = r) /\
                wallet s1
                = with_sequence (sequence (wallet s) + 1)
                    (with_balance (balance (wallet s) - fee_) (wallet s))))).
  { intros s1 Hs1 Ho.
    pose proof (step_count _ _ _ _ no_broadcast_in_estimate Hs1) as Hc.
    destruct Hs1 as (Hw & Hn & Hl & _).
    repeat split; auto; try lia. }
  apply bind_inv in H;
    destruct H as [(gas & s1 & H1 & H) | [(e & H1 & ->) | (H1 & ->)]];
    [| apply Hleft; [eapply emits_estimate_gas_loop; eauto | discriminate]
     | apply Hleft; [eapply emits_estimate_gas_loop; eauto | discriminate]].
  pose proof (emits_estimate_gas_loop _ _ _ _ _ _ _ H1) as Hs1.
  destruct (gas =? -1) eqn:Hgas.
  { inversion H; subst; apply Hleft; auto.
    intros b Hb; injection Hb as <-; auto. }
  apply Z.eqb_neq in Hgas.
  unfold get_gas_price in H; rewrite !bind_gets in H.
  unfold bind at 1, lift at 1 in H.
  assert (Hw1 : wallet s1 = wallet s) by apply Hs1.
  assert (Hn1 : node s1 = node s) by apply Hs1.
  rewrite Hw1, Hn1 in H.
  destruct (call_set_fee T tx gas (gas_price (node s))
              (gas_adjustment (wallet s))) as [tx' | e |] eqn:Hset;
    [| inversion H; subst; apply Hleft; [auto | discriminate]
     | inversion H; subst; apply Hleft; [auto | discriminate]].
  unfold get_fee in H.
  unfold bind at 1, lift at 1 in H.
  destruct (call_get_fee T tx') as [fee_ | e |] eqn:Hget;
    [| inversion H; subst; apply Hleft; [auto | discriminate]
     | inversion H; subst; apply Hleft; [auto | discriminate]].
  unfold bind at 1, lift at 1 in H.
  rewrite bind_gets, Hw1 in H.
  destruct (fee_ >? balance (wallet s)) eqn:Hfee.
  { unfold bind, lift, ret in H; inversion H; subst; apply Hleft; auto.
    intros b Hb; injection Hb as <-; right; split; [reflexivity |].
    exists gas, tx', fee_; repeat split; auto.
    apply Z.gtb_lt in Hfee; lia. }
  rewrite Z.gtb_ltb in Hfee; apply Z.ltb_ge in Hfee.
  pose proof (step_count _ _ _ _ no_broadcast_in_estimate Hs1) as Hc1.
  apply bind_inv in H;
    destruct H as [(h & s2 & H2 & H) | [(e & H2 & ->) | (H2 & ->)]].
  2:{ apply broadcast_loop_raise in H2; subst;
        apply Hleft; [auto | discriminate]. }
  2:{ pose proof (emits_broadcast_loop _ _ _ _ _ _ _ H2) as Hs2.
      pose proof (step_count_le _ (is_request EpBroadcast) _ _ Hs2) as Hc2.
      destruct Hs1 as (_ & _ & Hl1 & _).
      destruct Hs2 as (Hw2 & Hn2 & Hl2 & _).
      repeat split; try congruence; try lia.
      left; repeat split; try congruence; discriminate. }
  pose proof (emits_broadcast_loop _ _ _ _ _ _ _ H2) as Hs2.
  apply broadcast_loop_ret in H2; destruct H2 as [[x ->] Hlt].
  specialize (Hlt ltac:(lia) eq_refl).
  cbn [py_eqb py_str] in H.
  apply bind_inv in H;
    destruct H as [(msg & s3 & H3 & H) | [(e & H3 & ->) | (H3 & ->)]];
    [| exfalso; eapply wait_for_tx_no_raise; eauto |].
  2:{ pose proof (emits_wait_for_tx _ _ _ _ _ H3) as Hs3.
      pose proof (step_count_le _ (is_request EpBroadcast) _ _ Hs3) as Hc3.
      destruct Hs1 as (_ & _ & Hl1 & _).
      destruct Hs2 as (Hw2 & Hn2 & Hl2 & _).
      destruct Hs3 as (Hw3 & Hn3 & Hl3 & _).
      repeat split; try congruence; try lia.
      left; repeat split; try congruence; discriminate. }
  pose proof (emits_wait_for_tx _ _ _ _ _ H3) as Hs3.
  unfold bind at 1, lift at 1 in H.
  unfold bind, debit_balance, increment_sequence, modify, ret in H.
  inversion H; subst o s'; clear H.
  pose proof (step_count_le _ (is_request EpBroadcast) _ _ Hs3) as Hc3.
  destruct Hs1 as (_ & _ & Hl1 & _).
  destruct Hs2 as (Hw2 & Hn2 & Hl2 & _).
  destruct Hs3 as (Hw3 & Hn3 & Hl3 & _).
  cbn [node latest_used_nonce trace wallet set_wallet].
  repeat split; try congruence; try lia.
  right; split; [lia |].
  exists gas, tx', fee_, (if negb (String.eqb msg "") then r else true).
  repeat split; auto.
  - destruct (negb (String.eqb msg "")); auto.
  - rewrite Hw3, Hw2, Hw1; reflexivity.
Qed.

Lemma wait_for_tx_loop_receipt fuel tx_hash receipt : forall retries,
  wait_for_tx_loop fuel retries (Some receipt) tx_hash
  = ret (inr (Some receipt)).
Proof.
  intros retries; destruct fuel; cbn [wait_for_tx_loop];
    rewrite Bool.andb_false_r; reflexivity.
Qed.

Lemma wait_for_tx_loop_empty fuel : forall retries tx_hash s r s',
  wait_for_tx_loop fuel retries None tx_hash s = (Ret r, s') ->
  wait_message r = "" ->
  (count (is_request EpTx) (trace s)
   < count (is_request EpTx) (trace s'))%nat /\
  exists status resp receipt,
    tx_reply W (count (is_request EpTx) (trace s') - 1)
    = Response status (Some resp) /\
    payload resp = Some receipt /\
    (txr_code receipt = 0 \/ txr_raw_log receipt = "").
Proof.
  induction fuel as [| fuel IH]; intros retries tx_hash s r s' H Hmsg;
    cbn [wait_for_tx_loop] in H;
    destruct (retries >? 0); cbn [andb] in H;
    try (inversion H; subst; discriminate).
  rewrite (bind_Ret _ _ _ _ _ (http_run _ _ _ _)) in H.
  destruct (tx_reply W (count (is_request EpTx) (trace s)))
    as [| status [resp |]] eqn:Hreply;
    try (inversion H; subst; discriminate).
  destruct (payload resp) as [receipt |] eqn:Hpay.
  - rewrite wait_for_tx_loop_receipt in H; inversion H; subst r s'.
    change (count (is_request EpTx) (trace (record (Request EpTx tx_hash) s)))
      with (S (count (is_request EpTx) (trace s))).
    split; [lia |].
    exists status, resp, receipt.
    replace (S (count (is_request EpTx) (trace s)) - 1)%nat
      with (count (is_request EpTx) (trace s)) by lia.
    repeat split; auto.
    cbn [wait_message] in Hmsg.
    destruct (txr_code receipt =? 0) eqn:Hc; [left; lia | right; exact Hmsg].
  - assert (Hnext : exists s1,
              wait_for_tx_loop fuel
                (if match j_code resp with
                    | Some c => c =? 5 | None => false end
                 then retries - 1 else retries) None tx_hash s1 = (Ret r, s')
              /\ (count (is_request EpTx) (trace s)
                  < count (is_request EpTx) (trace s1))%nat).
    { destruct (j_code resp) as [c |].
      - destruct (c =? 5) eqn:Hc.
        + apply Z.eqb_eq in Hc; subst c.
          exists (record (Sleep (tx_check_freq node_params))
                    (record (Request EpTx tx_hash) s)).
          split; [exact H |].
          change (count (is_request EpTx)
                    (trace (record (Sleep (tx_check_freq node_params))
                              (record (Request EpTx tx_hash) s))))
            with (S (count (is_request EpTx) (trace s))); lia.
        + exists (record (Request EpTx tx_hash) s).
          split.
          * apply Z.eqb_neq in Hc.
            destruct c
              as [| [[[| | ] | [| | ] | ] | [[| | ] | [| | ] | ] | ] | ];
              try exact H; congruence.
          * change (count (is_request EpTx)
                      (trace (record (Request EpTx tx_hash) s)))
              with (S (count (is_request EpTx) (trace s))); lia.
      - exists (record (Request EpTx tx_hash) s).
        split; [exact H |].
        change (count (is_request EpTx)
                  (trace (record (Request EpTx tx_hash) s)))
          with (S (count (is_request EpTx) (trace s))); lia. }
    destruct Hnext as (s1 & Hrun & Hlt).
    destruct (IH _ _ _ _ _ Hrun Hmsg) as (Hlt' & Hrec).
    split; [lia | exact Hrec].
Qed.

(** X6. [wait_for_tx] reports success (the empty string) only when the
    last reply it read carried a ["tx_response"] whose code is 0 or whose
    raw log is empty; at least one query was made. *)
Theorem wait_for_tx_empty_means_receipt fuel tx_hash s s' :
  wait_for_tx fuel tx_hash s = (Ret "", s') ->
  (count (is_request EpTx) (trace s)
   < count (is_request EpTx) (trace s'))%nat /\
  exists status resp receipt,
    tx_reply W (count (is_request EpTx) (trace s') - 1)
    = Response status (Some resp) /\
    payload resp = Some receipt /\
    (txr_code receipt = 0 \/ txr_raw_log receipt = "").
Proof.
  rewrite wait_for_tx_message; intros H.
  destruct (wait_for_tx_loop fuel (tx_check_retries node_params) None
              tx_hash s) as [[r | e |] s1] eqn:Hloop; try discriminate.
  injection H as Hmsg <-.
  eapply wait_for_tx_loop_empty; eauto.
Qed.

(** ** The nonces a worker submits *)

Lemma submit_nonces_app a b :
  submit_nonces (a ++ b) = submit_nonces a ++ submit_nonces b.
Proof.
  induction a as [| e a IH]; [reflexivity |].
  destruct e; cbn [submit_nonces app]; rewrite ?IH; reflexivity.
Qed.

Lemma submit_nonces_length l :
  List.length (submit_nonces l) = count is_submit l.
Proof.
  unfold count; induction l as [| e l IH]; [reflexivity |].
  destruct e; cbn [submit_nonces filter is_submit List.length];
    rewrite ?IH; reflexivity.
Qed.

Lemma new_nonces_refl s : new_nonces s s [].
Proof. exists []; split; reflexivity. Qed.

Lemma new_nonces_trans s s1 s2 a b :
  new_nonces s s1 a -> new_nonces s1 s2 b -> new_nonces s s2 (b ++ a).
Proof.
  intros (la & Ha & <-) (lb & Hb & <-).
  exists (lb ++ la); rewrite Hb, Ha, app_assoc, submit_nonces_app; auto.
Qed.

Lemma new_nonces_record e s :
  is_submit e = false -> new_nonces s (record e s) [].
Proof.
  intros H; exists [e]; split; [reflexivity |].
  destruct e; auto; discriminate.
Qed.

Lemma new_nonces_submissions s s' ns :
  new_nonces s s' ns ->
  submissions s' = (submissions s + List.length ns)%nat.
Proof.
  intros (l & Hl & <-); unfold submissions.
  rewrite Hl, count_app, submit_nonces_length; lia.
Qed.

Lemma new_nonces_quiet p s s' :
  grows p s s' -> submissions s' = submissions s -> new_nonces s s' [].
Proof.
  intros (l & Hl & _) Hsub; exists l; split; [exact Hl |].
  unfold submissions in Hsub; rewrite Hl, count_app in Hsub.
  assert (H0 : count is_submit l = O) by lia.
  rewrite <- submit_nonces_length in H0.
  destruct (submit_nonces l); [reflexivity | discriminate].
Qed.

Lemma new_nonces_step p s s' :
  (forall e, p e = true -> is_submit e = false) ->
  step p s s' -> new_nonces s s' [].
Proof.
  intros Hp Hs.
  apply (new_nonces_quiet p).
  - destruct Hs as (_ & _ & _ & _ & _ & Hg); exact Hg.
  - apply (step_count _ _ _ _ Hp Hs).
Qed.

(** Every way [submit_inference] can end: one call is on record, the
    last-used nonce and the node are as before, and the sequence is as
    before or one higher, the latter only after a broadcast. *)
Lemma submit_inference_frame fuel value topic nonce s o s' :
  submit_inference fuel value topic nonce s = (o, s') ->
  new_nonces s s' [nonce] /\
  latest_used_nonce s' = latest_used_nonce s /\ node s' = node s /\
  (sequence (wallet s') = sequence (wallet s) \/
   sequence (wallet s') = sequence (wallet s) + 1 /\
   (broadcasts s < broadcasts s')%nat).
Proof.
  intros H.
  pose proof (submit_inference_submissions _ _ _ _ _ _ _ H) as Hsub.
  pose proof (traces_submit_inference _ _ _ _ _ _ _ H) as Hg.
  rewrite submit_inference_tail in H.
  pose proof (pipeline_tail_submissions _ _ _ _ _ _ H) as Hsub'.
  pose proof (traces_pipeline_tail _ _ _ _ _ _ H) as Hg'.
  apply pipeline_tail_cases in H.
  destruct H as (Hn & Hl & _ & Hcase).
  split; [| split; [exact Hl | split; [exact Hn |]]].
  - change [nonce] with ([] ++ [nonce]).
    eapply new_nonces_trans; [| eapply new_nonces_quiet; eauto].
    exists [Request EpLatestHeight ""; CallSubmit value topic nonce].
    split; reflexivity.
  - destruct Hcase as [(Hw & _) | (Hlt & gas & tx' & fee_ & b & _ & _ & _ & _
                                   & _ & _ & Hw)].
    + left; rewrite Hw; reflexivity.
    + right; split; [rewrite Hw; reflexivity | exact Hlt].
Qed.

(** One pass of the polling loop on an active topic, with [n] the nonce
    fetched from the chain.  A nonce that is not positive or not above the
    last-used one: the pass goes straight to its sleep. *)
Lemma loop_body_old_nonce fuel params s s1 s2 n :
  is_topic_active (topic_id params) s = (Ret true, s1) ->
  get_topic_nonce (topic_id params) s1 = (Ret n, s2) ->
  n <= 0 \/ n <= latest_used_nonce s ->
  loop_body fuel params s
  = (Ret tt, record (Sleep (nonce_fetch_freq params)) s2) /\
  submissions s2 = submissions s /\
  latest_used_nonce s2 = latest_used_nonce s.
Proof.
  intros Hactive Hnonce Hold.
  assert (Hl2 : latest_used_nonce s2 = latest_used_nonce s).
  { rewrite is_topic_active_run in Hactive; inversion Hactive; subst s1.
    rewrite get_topic_nonce_run in Hnonce; inversion Hnonce; reflexivity. }
  assert (Hc2 : submissions s2 = submissions s).
  { rewrite is_topic_active_run in Hactive; inversion Hactive; subst s1.
    rewrite get_topic_nonce_run in Hnonce; inversion Hnonce; reflexivity. }
  repeat split; auto.
  unfold loop_body.
  rewrite (bind_Ret _ _ _ _ _ Hactive); cbn [negb].
  rewrite (bind_Ret _ _ _ _ _ Hnonce), bind_gets, Hl2.
  replace ((n >? 0) && (n >? latest_used_nonce s)) with false.
  2:{ symmetry; apply andb_false_iff; rewrite !Z.gtb_ltb, !Z.ltb_ge; lia. }
  reflexivity.
Qed.

(** A new nonce and a fetched value [v]: [submit_inference] is called
    once.  If the call returns, whatever the boolean, the last-used nonce
    becomes [n] and the pass sleeps; if it raises or does not end, the
    pass ends there in the same way, the assignment not reached. *)
Lemma loop_body_new_nonce fuel params s s1 s2 n v s3 o s4 :
  is_topic_active (topic_id params) s = (Ret true, s1) ->
  get_topic_nonce (topic_id params) s1 = (Ret n, s2) ->
  n > 0 -> n > latest_used_nonce s ->
  fetch_loop fuel (inference_fetch_retries params) None params s2
  = (Ret (Some v), s3) ->
  submit_inference fuel v (topic_id params) n s3 = (o, s4) ->
  submissions s4 = S (submissions s) /\
  latest_used_nonce s4 = latest_used_nonce s /\
  loop_body fuel params s
  = match o with
    | Ret _ => (Ret tt, record (Sleep (nonce_fetch_freq params))
                          (set_latest_used_nonce n s4))
    | Raise e => (Raise e, s4)
    | OutOfFuel => (OutOfFuel, s4)
    end.
Proof.
  intros Hactive Hnonce Hpos Hnew Hfetch Hsubmit.
  assert (Hl2 : latest_used_nonce s2 = latest_used_nonce s).
  { rewrite is_topic_active_run in Hactive; inversion Hactive; subst s1.
    rewrite get_topic_nonce_run in Hnonce; inversion Hnonce; reflexivity. }
  assert (Hc2 : submissions s2 = submissions s).
  { rewrite is_topic_active_run in Hactive; inversion Hactive; subst s1.
    rewrite get_topic_nonce_run in Hnonce; inversion Hnonce; reflexivity. }
  pose proof (emits_fetch_loop _ _ _ _ _ _ _ Hfetch) as Hs3.
  pose proof (step_count _ _ _ _ not_submit_inf Hs3) as Hc3.
  pose proof (submit_inference_submissions _ _ _ _ _ _ _ Hsubmit) as Hc4.
  assert (Hl4 : latest_used_nonce s4 = latest_used_nonce s3).
  { rewrite submit_inference_tail in Hsubmit.
    apply pipeline_tail_cases in Hsubmit.
    destruct Hsubmit as (_ & Hl & _); exact Hl. }
  split; [unfold submissions in *; congruence |].
  split; [destruct Hs3 as (_ & _ & Hl3 & _); congruence |].
  unfold loop_body.
  rewrite (bind_Ret _ _ _ _ _ Hactive); cbn [negb].
  rewrite (bind_Ret _ _ _ _ _ Hnonce), bind_gets, Hl2.
  replace ((n >? 0) && (n >? latest_used_nonce s)) with true.
  2:{ symmetry; apply andb_true_iff; rewrite !Z.gtb_ltb, !Z.ltb_lt; lia. }
  unfold bind at 1.
  rewrite (bind_Ret _ _ _ _ _ Hfetch).
  unfold bind at 1; rewrite Hsubmit.
  destruct o; reflexivity.
Qed.

Lemma fetch_and_submit_effect fuel params n s o s' :
  (v <- fetch_loop fuel (inference_fetch_retries params) None params ;;
   match v with
   | None => ret tt
   | Some inference_value =>
       _ <- submit_inference fuel inference_value (topic_id params) n ;;
       modify (set_latest_used_nonce n)
   end) s = (o, s') ->
  node s' = node s /\
  ((new_nonces s s' [] /\ latest_used_nonce s' = latest_used_nonce s /\
    wallet s' = wallet s)
   \/
   (new_nonces s s' [n] /\
    (o = Ret tt -> latest_used_nonce s' = n) /\
    (latest_used_nonce s' = n \/
     latest_used_nonce s' = latest_used_nonce s) /\
    (sequence (wallet s') = sequence (wallet s) \/
     sequence (wallet s') = sequence (wallet s) + 1 /\
     (broadcasts s < broadcasts s')%nat))).
Proof.
  intros H.
  assert (Hquiet : forall s3, step inf_or_sleep s s3 ->
            node s3 = node s /\
            ((new_nonces s s3 [] /\
              latest_used_nonce s3 = latest_used_nonce s /\
              wallet s3 = wallet s)
             \/
             (new_nonces s s3 [n] /\
              (o = Ret tt -> latest_used_nonce s3 = n) /\
              (latest_used_nonce s3 = n \/
               latest_used_nonce s3 = latest_used_nonce s) /\
              (sequence (wallet s3) = sequence (wallet s) \/
               sequence (wallet s3) = sequence (wallet s) + 1 /\
               (broadcasts s < broadcasts s3)%nat)))).
  { intros s3 Hs3.
    pose proof (new_nonces_step _ _ _ not_submit_inf Hs3) as Hnn.
    destruct Hs3 as (Hw & Hn & Hl & _); auto. }
  apply bind_inv in H;
    destruct H as [(v & s3 & Hf & H) | [(e & Hf & ->) | (Hf & ->)]];
    try solve [apply Hquiet; eapply emits_fetch_loop; eauto].
  pose proof (emits_fetch_loop _ _ _ _ _ _ _ Hf) as Hs3.
  destruct v as [v |]; [| inversion H; subst; apply Hquiet; exact Hs3].
  pose proof (new_nonces_step _ _ _ not_submit_inf Hs3) as Hnn.
  assert (Hb3 : broadcasts s3 = broadcasts s).
  { apply (step_count inf_or_sleep); [| exact Hs3].
    intros [[] ? | | | | | |]; cbv; congruence. }
  destruct Hs3 as (Hw3 & Hn3 & Hl3 & _).
  assert (Hsub : forall o5 s5,
            submit_inference fuel v (topic_id params) n s3 = (o5, s5) ->
            node s5 = node s /\ new_nonces s s5 [n] /\
            latest_used_nonce s5 = latest_used_nonce s /\
            (sequence (wallet s5) = sequence (wallet s) \/
             sequence (wallet s5) = sequence (wallet s) + 1 /\
             (broadcasts s < broadcasts s5)%nat)).
  { intros o5 s5 H5.
    apply submit_inference_frame in H5.
    destruct H5 as (Hnn5 & Hl5 & Hn5 & Hseq).
    rewrite Hw3, Hb3 in Hseq.
    repeat split; try congruence; auto.
    change [n] with ([n] ++ []); eapply new_nonces_trans; eauto. }
  apply bind_inv in H;
    destruct H as [(b & s5 & H5 & H) | [(e & H5 & ->) | (H5 & ->)]].
  - destruct (Hsub _ _ H5) as (Hn5 & Hnn5 & Hl5 & Hseq).
    unfold modify in H; inversion H; subst o s'.
    split; [exact Hn5 |].
    right; repeat split; auto.
  - destruct (Hsub _ _ H5) as (Hn5 & Hnn5 & Hl5 & Hseq).
    split; [exact Hn5 |].
    right; repeat split; auto; discriminate.
  - destruct (Hsub _ _ H5) as (Hn5 & Hnn5 & Hl5 & Hseq).
    split; [exact Hn5 |].
    right; repeat split; auto; discriminate.
Qed.

(** Every way one pass of the polling loop can end: it made no submission
    and left wallet and last-used nonce alone, or it made one, for a
    positive nonce above the last-used one. *)
Lemma loop_body_effect fuel params s o s' :
  loop_body fuel params s = (o, s') ->
  node s' = node s /\
  ((new_nonces s s' [] /\ latest_used_nonce s' = latest_used_nonce s /\
    wallet s' = wallet s)
   \/
   (exists n,
      new_nonces s s' [n] /\ 0 < n /\ latest_used_nonce s < n /\
      (o = Ret tt -> latest_used_nonce s' = n) /\
      (latest_used_nonce s' = n \/
       latest_used_nonce s' = latest_used_nonce s) /\
      (sequence (wallet s') = sequence (wallet s) \/
       sequence (wallet s') = sequence (wallet s) + 1 /\
       (broadcasts s < broadcasts s')%nat))).
Proof.
  unfold loop_body; intros H.
  rewrite (bind_Ret _ _ _ _ _ (is_topic_active_run _ _)) in H.
  destruct (bool_result _); cbn [negb] in H.
  2:{ unfold stop, modify in H; inversion H; subst o s'.
      split; [reflexivity |].
      left; split; [| split; reflexivity].
      eexists [_]; split; reflexivity. }
  rewrite (bind_Ret _ _ _ _ _ (get_topic_nonce_run _ _)), bind_gets in H.
  set (n := nonce_result _) in H.
  set (s2 := record (Request EpNonce (str_int (topic_id params)))
               (record (Request EpTopicActive (str_int (topic_id params))) s))
    in *.
  assert (H02 : new_nonces s s2 []) by (eexists [_; _]; split; reflexivity).
  destruct ((n >? 0) && (n >? latest_used_nonce s2)) eqn:Hc.
  2:{ unfold bind, ret, sleep, emit in H; inversion H; subst o s'.
      split; [reflexivity |].
      left; split; [| split; reflexivity].
      eexists [_; _; _]; split; reflexivity. }
  apply andb_true_iff in Hc; destruct Hc as [Hpos Hnew].
  apply Z.gtb_lt in Hpos, Hnew.
  change (latest_used_nonce s2) with (latest_used_nonce s) in Hnew.
  assert (Hend : forall o4 s4,
            (v <- fetch_loop fuel (inference_fetch_retries params) None
                    params ;;
             match v with
             | None => ret tt
             | Some inference_value =>
                 _ <- submit_inference fuel inference_value (topic_id params)
                        n ;;
                 modify (set_latest_used_nonce n)
             end) s2 = (o4, s4) ->
            node s4 = node s /\
            ((new_nonces s s4 [] /\
              latest_used_nonce s4 = latest_used_nonce s /\
              wallet s4 = wallet s)
             \/
             (new_nonces s s4 [n] /\
              (o4 = Ret tt -> latest_used_nonce s4 = n) /\
              (latest_used_nonce s4 = n \/
               latest_used_nonce s4 = latest_used_nonce s) /\
              (sequence (wallet s4) = sequence (wallet s) \/
               sequence (wallet s4) = sequence (wallet s) + 1 /\
               (broadcasts s < broadcasts s4)%nat)))).
  { intros o4 s4 H4; apply fetch_and_submit_effect in H4.
    destruct H4 as (Hn4 & [(Hnn & Hl & Hw) | (Hnn & Hret & Hl & Hseq)]).
    - split; [exact Hn4 |]; left; repeat split; auto.
      change (@nil Z) with (@nil Z ++ []); eapply new_nonces_trans; eauto.
    - split; [exact Hn4 |]; right; repeat split; auto.
      change [n] with ([n] ++ []); eapply new_nonces_trans; eauto. }
  apply bind_inv in H;
    destruct H as [(u & s4 & H4 & H) | [(e & H4 & ->) | (H4 & ->)]].
  - destruct u.
    destruct (Hend _ _ H4) as (Hn4 & Hcase).
    unfold sleep, emit in H; inversion H; subst o s'.
    split; [exact Hn4 |].
    destruct Hcase as [(Hnn & Hl & Hw) | (Hnn & Hret & Hl & Hseq)].
    + left; repeat split; auto.
      destruct Hnn as (l & Hl' & Hns).
      exists (Sleep (nonce_fetch_freq params) :: l); split;
        [cbn; rewrite Hl'; reflexivity | exact Hns].
    + right; exists n; repeat split; auto.
      destruct Hnn as (l & Hl' & Hns).
      exists (Sleep (nonce_fetch_freq params) :: l); split;
        [cbn; rewrite Hl'; reflexivity | exact Hns].
  - destruct (Hend _ _ H4) as (Hn4 & Hcase).
    split; [exact Hn4 |].
    destruct Hcase as [? | (Hnn & Hret & Hl & Hseq)]; [left; assumption |].
    right; exists n; repeat split; auto; discriminate.
  - destruct (Hend _ _ H4) as (Hn4 & Hcase).
    split; [exact Hn4 |].
    destruct Hcase as [? | (Hnn & Hret & Hl & Hseq)]; [left; assumption |].
    right; exists n; repeat split; auto; discriminate.
Qed.

Lemma StronglySorted_snoc (l : list Z) (n : Z) :
  StronglySorted Z.gt l -> Forall (fun x => n < x) l ->
  StronglySorted Z.gt (l ++ [n]).
Proof.
  induction 1 as [| x l Hl IH Hx]; intros Hall; cbn [app].
  - repeat constructor.
  - inversion Hall as [| ? ? Hxn Hrest]; subst.
    constructor; [apply IH; exact Hrest |].
    apply Forall_app; split; [exact Hx |].
    constructor; [lia | constructor].
Qed.

(** The invariant of the polling loop, for every way it can end. *)
Lemma polling_loop_invariant rounds : forall fuel params s o s',
  polling_loop rounds fuel params s = (o, s') ->
  node s' = node s /\
  latest_used_nonce s <= latest_used_nonce s' /\
  exists ns,
    new_nonces s s' ns /\
    StronglySorted Z.gt ns /\
    Forall (fun n => latest_used_nonce s < n /\ 0 < n) ns /\
    sequence (wallet s) <= sequence (wallet s')
    <= sequence (wallet s) + Z.of_nat (List.length ns).
Proof.
  induction rounds as [| rounds IH]; intros fuel params s o s' H;
    cbn [polling_loop] in H;
    rewrite (bind_Ret _ _ _ _ _ (is_set_run _)) in H.
  - assert (Hs' : s' = record (IsSet (stop_event s)) s)
      by (destruct (stop_event s); inversion H; reflexivity).
    subst s'; split; [reflexivity | split; [cbn; lia |]].
    exists []; repeat split; try constructor; cbn; try lia.
    eexists [_]; split; reflexivity.
  - destruct (stop_event s) eqn:Hstop.
    { inversion H; subst o s'; split; [reflexivity | split; [cbn; lia |]].
      exists []; repeat split; try constructor; cbn; try lia.
      eexists [_]; split; reflexivity. }
    set (s0 := record (IsSet false) s) in *.
    assert (H00 : new_nonces s s0 []) by (eexists [_]; split; reflexivity).
    assert (Hbody : forall o1 s1,
              loop_body fuel params s0 = (o1, s1) ->
              node s1 = node s /\
              latest_used_nonce s <= latest_used_nonce s1 /\
              exists ns,
                new_nonces s s1 ns /\
                (ns = [] \/
                 exists n, ns = [n] /\ latest_used_nonce s < n /\ 0 < n /\
                           (o1 = Ret tt -> latest_used_nonce s1 = n)) /\
                sequence (wallet s) <= sequence (wallet s1)
                <= sequence (wallet s) + Z.of_nat (List.length ns)).
    { intros o1 s1 H1; apply loop_body_effect in H1.
      change (node s0) with (node s) in H1.
      change (latest_used_nonce s0) with (latest_used_nonce s) in H1.
      change (wallet s0) with (wallet s) in H1.
      destruct H1 as (Hn1 & [(Hnn & Hl & Hw) | (n & Hnn & Hpos & Hnew & Hret
                                                 & Hl & Hseq)]).
      - split; [exact Hn1 | split; [lia |]].
        exists []; repeat split; auto; try (rewrite Hw; cbn; lia).
        change (@nil Z) with (@nil Z ++ []); eapply new_nonces_trans; eauto.
      - split; [exact Hn1 | split; [destruct Hl; lia |]].
        exists [n]; repeat split.
        + change [n] with ([n] ++ []); eapply new_nonces_trans; eauto.
        + right; exists n; auto.
        + destruct Hseq as [-> | [-> _]]; lia.
        + destruct Hseq as [-> | [-> _]]; cbn; lia. }
    apply bind_inv in H;
      destruct H as [(u & s1 & H1 & H) | [(e & H1 & ->) | (H1 & ->)]].
    + destruct u.
      destruct (Hbody _ _ H1) as (Hn1 & Hl1 & ns1 & Hnn1 & Hshape & Hseq1).
      destruct (IH _ _ _ _ _ H) as (Hn2 & Hl2 & ns2 & Hnn2 & Hsort & Hall
                                    & Hseq2).
      split; [congruence | split; [lia |]].
      exists (ns2 ++ ns1); split; [eapply new_nonces_trans; eauto |].
      destruct Hshape as [-> | (n & -> & Hnew & Hpos & Hret)].
      * rewrite app_nil_r; repeat split; auto; try (cbn in Hseq1; lia).
        eapply Forall_impl; [| exact Hall]; cbn; intros; lia.
      * specialize (Hret eq_refl).
        repeat split.
        -- apply StronglySorted_snoc; [exact Hsort |].
           eapply Forall_impl; [| exact Hall]; cbn; intros; lia.
        -- apply Forall_app; split.
           ++ eapply Forall_impl; [| exact Hall]; cbn; intros; lia.
           ++ constructor; [lia | constructor].
        -- lia.
        -- rewrite length_app; cbn in *; lia.
    + destruct (Hbody _ _ H1) as (Hn1 & Hl1 & ns1 & Hnn1 & Hshape & Hseq1).
      split; [exact Hn1 | split; [exact Hl1 |]].
      exists ns1; repeat split; auto; try lia;
        destruct Hshape as [-> | (n & -> & Hnew & Hpos & _)];
        repeat constructor; auto.
    + destruct (Hbody _ _ H1) as (Hn1 & Hl1 & ns1 & Hnn1 & Hshape & Hseq1).
      split; [exact Hn1 | split; [exact Hl1 |]].
      exists ns1; repeat split; auto; try lia;
        destruct Hshape as [-> | (n & -> & Hnew & Hpos & _)];
        repeat constructor; auto.
Qed.

(** X14. Within one run of the polling loop, however it ends, the nonces
    the worker calls [submit_inference] with are strictly increasing in
    time (the list is newest first), all positive and all above the
    last-used nonce the loop started with: no nonce is submitted twice. *)
Theorem polling_loop_nonces_increase rounds fuel params s o s' :
  polling_loop rounds fuel params s = (o, s') ->
  exists ns,
    new_nonces s s' ns /\
    StronglySorted Z.gt ns /\
    Forall (fun n => latest_used_nonce s < n /\ 0 < n) ns.
Proof.
  intros H; apply polling_loop_invariant in H.
  destruct H as (_ & _ & ns & Hnn & Hsort & Hall & _).
  exists ns; auto.
Qed.

(** X15. The polling loop never lowers the wallet's sequence nor the
    last-used nonce, does not touch the node, and spends at most one
    sequence number per call of [submit_inference]. *)
Theorem polling_loop_sequence_bound rounds fuel params s o s' :
  polling_loop rounds fuel params s = (o, s') ->
  node s' = node s /\
  latest_used_nonce s <= latest_used_nonce s' /\
  sequence (wallet s) <= sequence (wallet s')
  <= sequence (wallet s) + Z.of_nat (submissions s' - submissions s).
Proof.
  intros H; apply polling_loop_invariant in H.
  destruct H as (Hn & Hl & ns & Hnn & _ & _ & Hseq).
  apply new_nonces_submissions in Hnn.
  repeat split; auto; lia.
Qed.

(** ** The fetch loop, attempt by attempt *)

Lemma inference_result_ends r : inference_result r <> OutOfFuel.
Proof.
  destruct r as [| status [v | t]]; cbn; try discriminate;
    destruct (error_status status); discriminate.
Qed.

Lemma fetch_loop_fetched fuel retries v params :
  fetch_loop fuel retries (Some v) params = ret (Some v).
Proof.
  destruct fuel; cbn [fetch_loop]; rewrite Bool.andb_false_r; reflexivity.
Qed.

(** X12. The fetch loop always ends within [inference_fetch_retries]
    requests.  Either every one of them found the endpoint unavailable, the
    result is [None], and the loop slept after each request, the last
    included; or request number [a] is the first the endpoint answered, the
    loop ends with what [fetch_inference] made of that answer (a value, or
    the [ValueError] of a text that is no number) and slept only after the
    [a - 1] requests before it. *)
Theorem fetch_loop_ends n : forall fuel retries params s o s',
  Z.to_nat retries = n -> (n <= fuel)%nat ->
  fetch_loop fuel retries None params s = (o, s') ->
  o <> OutOfFuel /\ wallet s' = wallet s /\
  exists a,
    count (is_request EpInference) (trace s')
    = (count (is_request EpInference) (trace s) + a)%nat /\
    ((o = Ret None /\ a = n /\
      count is_sleep (trace s') = (count is_sleep (trace s) + n)%nat /\
      forall j, (j < n)%nat ->
        unavailable
          (inference_replies W
             (count (is_request EpInference) (trace s) + j)) = true)
     \/
     (o <> Ret None /\ (1 <= a <= n)%nat /\
      inference_result
        (inference_replies W
           (count (is_request EpInference) (trace s) + (a - 1))) = o /\
      count is_sleep (trace s') = (count is_sleep (trace s) + (a - 1))%nat /\
      forall j, (j < a - 1)%nat ->
        unavailable
          (inference_replies W
             (count (is_request EpInference) (trace s) + j)) = true)).
Proof.
  induction n as [| n IH]; intros fuel retries params s o s' Hn Hfuel H.
  - assert (Hc : (retries >? 0) = false)
      by (rewrite Z.gtb_ltb; apply Z.ltb_ge; lia).
    destruct fuel; cbn [fetch_loop] in H; rewrite Hc in H;
      inversion H; subst o s';
      (split; [discriminate | split; [reflexivity |]]);
      exists O; (split; [lia |]); left; repeat split; auto; lia.
  - destruct fuel as [| fuel]; [lia |].
    cbn [fetch_loop] in H.
    replace (retries >? 0) with true in H by (symmetry; apply Z.gtb_lt; lia).
    cbn [andb] in H.
    unfold bind at 1 in H; rewrite fetch_inference_run in H.
    set (k := count (is_request EpInference) (trace s)) in *.
    set (s1 := record (Request EpInference (inference_url params)) s) in *.
    destruct (inference_result (inference_replies W k))
      as [[v |] | e |] eqn:Hres.
    + rewrite fetch_loop_fetched in H; inversion H; subst o s'.
      split; [discriminate | split; [reflexivity |]].
      exists 1%nat; split;
        [change (count (is_request EpInference) (trace s1)) with (S k); lia |].
      right; cbn [Nat.sub]; rewrite !Nat.add_0_r.
      repeat split; auto; try lia; discriminate.
    + apply unavailable_result in Hres.
      unfold bind at 1, sleep at 1, emit at 1 in H.
      apply IH in H; [| lia | lia].
      change (count (is_request EpInference)
                (trace (record (Sleep (inference_fetch_retry_freq params))
                          s1))) with (S k) in H.
      change (count is_sleep
                (trace (record (Sleep (inference_fetch_retry_freq params))
                          s1))) with (S (count is_sleep (trace s))) in H.
      destruct H as (Hend & Hw & a & Ha & Hcase).
      split; [exact Hend | split; [exact Hw |]].
      exists (S a); split; [lia |].
      assert (Hshift : forall m,
                (forall j, (j < m)%nat ->
                   unavailable (inference_replies W (S k + j)) = true) ->
                forall j, (j < S m)%nat ->
                   unavailable (inference_replies W (k + j)) = true).
      { intros m Hm [| j] Hj; [rewrite Nat.add_0_r; exact Hres |].
        replace (k + S j)%nat with (S k + j)%nat by lia; apply Hm; lia. }
      destruct Hcase as [(Ho & Han & Hsl & Hall)
                        | (Ho & Han & Hlast & Hsl & Hall)].
      * left; repeat split; auto; try lia.
        apply Hshift; exact Hall.
      * right; repeat split; auto; try lia.
        -- rewrite <- Hlast; do 2 f_equal; lia.
        -- replace (S a - 1)%nat with (S (a - 1)) by lia.
           apply Hshift; exact Hall.
    + inversion H; subst o s'.
      split; [discriminate | split; [reflexivity |]].
      exists 1%nat; split;
        [change (count (is_request EpInference) (trace s1)) with (S k); lia |].
      right; cbn [Nat.sub]; rewrite !Nat.add_0_r.
      repeat split; auto; try lia; discriminate.
    + exfalso; eapply inference_result_ends; eauto.
Qed.

(** ** [Worker.run]: from the checks to the polling loop *)

Lemma traces_weaken {A} (p q : event -> bool) (m : M A) :
  (forall e, p e = true -> q e = true) -> traces p m -> traces q m.
Proof.
  intros Hpq Hm s o s' H.
  destruct (Hm s o s' H) as (new & Ht & Hp).
  exists new; split; [exact Ht |].
  rewrite forallb_forall in *; auto.
Qed.

Lemma grows_count_le p q s s' :
  grows p s s' -> (count q (trace s) <= count q (trace s'))%nat.
Proof. intros (new & Ht & _); rewrite Ht, count_app; lia. Qed.

Lemma traces_pipeline_tail_in p r fuel tx :
  (forall e, sim_or_sleep e = true -> p e = true) ->
  (forall e, bcast_or_sleep e = true -> p e = true) ->
  (forall e, txq_or_sleep e = true -> p e = true) ->
  traces p (pipeline_tail r fuel tx).
Proof.
  intros Hsim Hbcast Htxq; unfold pipeline_tail.
  apply traces_bind;
    [eapply traces_of_emits;
       [apply Hsim | apply emits_estimate_gas_loop] | intros gas].
  destruct (gas =? -1); [apply traces_ret |].
  unfold get_gas_price, get_fee.
  do 6 traces_seq.
  match goal with |- traces _ (if ?c then _ else _) => destruct c end;
    [traces_seq; traces_leaf |].
  apply traces_bind;
    [eapply traces_of_emits;
       [apply Hbcast | apply emits_broadcast_loop] | intros h].
  destruct (py_eqb h (PyInt (-1))); [apply traces_ret |].
  apply traces_bind;
    [eapply traces_of_emits;
       [apply Htxq | apply emits_wait_for_tx] | intros msg].
  unfold debit_balance, increment_sequence.
  do 3 traces_seq; traces_leaf.
Qed.

Lemma traces_tx_event r fuel tx : traces tx_event (pipeline_tail r fuel tx).
Proof.
  apply traces_pipeline_tail_in;
    intros [[] ? | | | | | |]; cbv; congruence.
Qed.

Lemma traces_polling_loop rounds fuel params :
  traces loop_event (polling_loop rounds fuel params).
Proof.
  assert (Hpass : forall e, pass_event e = true -> loop_event e = true)
    by (intros e He; unfold loop_event; rewrite He; reflexivity).
  induction rounds as [| rounds IH]; cbn [polling_loop]; unfold is_set;
    (apply traces_bind;
     [apply traces_bind; [apply traces_gets | intros flag];
      apply traces_bind; [apply traces_emit; reflexivity | intros _];
      apply traces_ret
     | intros flag]);
    destruct flag; try apply traces_ret.
  - intros s o s' H; inversion H; subst; apply grows_refl.
  - apply traces_bind; [| intros _; exact IH].
    eapply traces_weaken; [exact Hpass | apply traces_loop_body].
Qed.

(** Every way [register_for_topic] can end: one call is on record, and
    only transaction requests and sleeps were added after its draft. *)
Lemma register_for_topic_frame fuel topic s o s' :
  register_for_topic fuel topic s = (o, s') ->
  node s' = node s /\ latest_used_nonce s' = latest_used_nonce s /\
  registrations s' = S (registrations s) /\
  stop_checks s' = stop_checks s /\ closes s' = closes s /\
  submissions s' = submissions s /\
  count (is_request EpTopicActive) (trace s')
  = count (is_request EpTopicActive) (trace s) /\
  (broadcasts s <= broadcasts s')%nat /\
  (o = Ret true -> (broadcasts s < broadcasts s')%nat).
Proof.
  rewrite register_for_topic_tail; intros H.
  pose proof (traces_tx_event _ _ _ _ _ _ H) as Hg.
  apply pipeline_tail_cases in H.
  destruct H as (Hn & Hl & Hle & Hcase).
  assert (Hcount : forall q,
            (forall e, tx_event e = true -> q e = false) ->
            count q (trace s')
            = count q
                (trace (record (Request EpLatestHeight "")
                          (record (CallRegister topic) s))))
    by (intros q Hq; apply (grows_count _ _ _ _ Hq Hg)).
  repeat split; auto.
  - unfold registrations; rewrite Hcount; [reflexivity |].
    intros [[] ? | | | | | |]; cbv; congruence.
  - unfold stop_checks; rewrite Hcount; [reflexivity |].
    intros [[] ? | | | | | |]; cbv; congruence.
  - unfold closes; rewrite Hcount; [reflexivity |].
    intros [[] ? | | | | | |]; cbv; congruence.
  - unfold submissions; rewrite Hcount; [reflexivity |].
    intros [[] ? | | | | | |]; cbv; congruence.
  - rewrite Hcount; [reflexivity |].
    intros [[] ? | | | | | |]; cbv; congruence.
  - intros ->.
    destruct Hcase as [(_ & _ & Hret) | (Hlt & _)]; [| exact Hlt].
    destruct (Hret true eq_refl) as [Hr | (Hr & _)]; discriminate.
Qed.

Lemma is_topic_whitelisted_run topic s :
  is_topic_whitelisted topic s
  = (Ret (bool_result
            (whitelist_enabled_reply W
               (count (is_request EpWhitelistEnabled) (trace s)))),
     record (Request EpWhitelistEnabled (str_int topic)) s).
Proof. reflexivity. Qed.

Lemma is_whitelisted_for_run topic s :
  is_whitelisted_for topic s
  = (Ret (bool_result
            (whitelisted_reply W
               (count (is_request EpWhitelisted) (trace s)))),
     record (Request EpWhitelisted
               (str_int topic ++ "/" ++ address (wallet s))%string) s).
Proof. reflexivity. Qed.

Lemma is_registered_for_run topic s :
  is_registered_for topic s
  = (Ret (bool_result
            (registered_reply W
               (count (is_request EpRegistered) (trace s)))),
     record (Request EpRegistered
               (str_int topic ++ "/" ++ address (wallet s))%string) s).
Proof. reflexivity. Qed.

Lemma run_registration rounds fuel params s3 o s' :
  (registered <- is_registered_for (topic_id params) ;;
   proceed <- (if negb registered
               then register_for_topic fuel (topic_id params)
               else ret true) ;;
   if negb proceed then ret tt
   else
     active' <- is_topic_active (topic_id params) ;;
     if negb active' then ret tt
     else
       try_except_finally (polling_loop rounds fuel params)
                          (emit ClientClose)) s3 = (o, s') ->
  (stop_checks s' = stop_checks s3 /\ closes s' = closes s3 /\
   submissions s' = submissions s3 /\
   (forall e, o = Raise e -> registrations s' = S (registrations s3)))
  \/
  (exists s6,
     bool_result
       (topic_active_reply W (count (is_request EpTopicActive) (trace s3)))
     = true /\
     (if bool_result
           (registered_reply W (count (is_request EpRegistered) (trace s3)))
      then registrations s6 = registrations s3 /\ wallet s6 = wallet s3
      else registrations s6 = S (registrations s3) /\
           (broadcasts s3 < broadcasts s6)%nat) /\
     node s6 = node s3 /\ latest_used_nonce s6 = latest_used_nonce s3 /\
     stop_checks s6 = stop_checks s3 /\ closes s6 = closes s3 /\
     submissions s6 = submissions s3 /\
     try_except_finally (polling_loop rounds fuel params) (emit ClientClose)
       s6 = (o, s')).
Proof.
  intros H.
  rewrite (bind_Ret _ _ _ _ _ (is_registered_for_run _ _)) in H.
  set (s4 := record (Request EpRegistered
                       (str_int (topic_id params) ++ "/"
                        ++ address (wallet s3))%string) s3) in *.
  destruct (bool_result (registered_reply W _)) eqn:Hreg; cbn [negb] in H.
  - unfold bind at 1, ret at 1 in H; cbn [negb] in H.
    rewrite (bind_Ret _ _ _ _ _ (is_topic_active_run _ _)) in H.
    change (count (is_request EpTopicActive) (trace s4))
      with (count (is_request EpTopicActive) (trace s3)) in H.
    destruct (bool_result (topic_active_reply W _)) eqn:Hact; cbn [negb] in H.
    + right;
        exists (record (Request EpTopicActive (str_int (topic_id params))) s4);
        repeat split; exact H.
    + inversion H; subst o s'; left; repeat split; intros; discriminate.
  - apply bind_inv in H;
      destruct H as [(b & s5 & H5 & H) | [(e & H5 & ->) | (H5 & ->)]];
      pose proof (register_for_topic_frame _ _ _ _ _ H5)
        as (Hn & Hl & Hr & Hc & Hcl & Hsub & Hact5 & Hble & Hblt);
      change (registrations s4) with (registrations s3) in Hr;
      change (stop_checks s4) with (stop_checks s3) in Hc;
      change (closes s4) with (closes s3) in Hcl;
      change (submissions s4) with (submissions s3) in Hsub;
      change (broadcasts s4) with (broadcasts s3) in Hble, Hblt;
      change (count (is_request EpTopicActive) (trace s4))
        with (count (is_request EpTopicActive) (trace s3)) in Hact5.
    + destruct b; cbn [negb] in H.
      2:{ inversion H; subst o s'; left; repeat split; auto;
            intros; discriminate. }
      rewrite (bind_Ret _ _ _ _ _ (is_topic_active_run _ _)), Hact5 in H.
      destruct (bool_result (topic_active_reply W _)) eqn:Hact;
        cbn [negb] in H.
      * right;
          exists (record (Request EpTopicActive (str_int (topic_id params)))
                    s5);
          repeat split; auto.
      * inversion H; subst o s'; left; repeat split; auto;
          intros; discriminate.
    + left; repeat split; auto.
    + left; repeat split; auto; intros; discriminate.
Qed.

(** Every way [run] can end: either it returned (or its registration call
    failed) before the polling loop, or the checks before the loop all
    passed and the loop ran. *)
Lemma run_cases rounds fuel connected params s o s' :
  run rounds fuel connected params s = (o, s') ->
  (stop_checks s' = stop_checks s /\ closes s' = closes s /\
   submissions s' = submissions s /\
   (forall e, o = Raise e -> registrations s' = S (registrations s)))
  \/
  (exists s6,
     connected = true /\
     bool_result
       (topic_active_reply W (count (is_request EpTopicActive) (trace s)))
     = true /\
     bool_result
       (topic_active_reply W
          (S (count (is_request EpTopicActive) (trace s)))) = true /\
     (bool_result
        (whitelist_enabled_reply W
           (count (is_request EpWhitelistEnabled) (trace s))) = true ->
      bool_result
        (whitelisted_reply W (count (is_request EpWhitelisted) (trace s)))
      = true) /\
     (if bool_result
           (registered_reply W (count (is_request EpRegistered) (trace s)))
      then registrations s6 = registrations s /\ wallet s6 = wallet s
      else registrations s6 = S (registrations s) /\
           (broadcasts s < broadcasts s6)%nat) /\
     node s6 = node s /\ latest_used_nonce s6 = latest_used_nonce s /\
     stop_checks s6 = stop_checks s /\ closes s6 = closes s /\
     submissions s6 = submissions s /\
     try_except_finally (polling_loop rounds fuel params) (emit ClientClose)
       s6 = (o, s')).
Proof.
  unfold run; intros H.
  destruct connected; cbn [negb] in H.
  2:{ inversion H; subst o s'; left; repeat split; intros; discriminate. }
  rewrite (bind_Ret _ _ _ _ _ (is_topic_active_run _ _)) in H.
  destruct (bool_result (topic_active_reply W _)) eqn:Hact1; cbn [negb] in H.
  2:{ inversion H; subst o s'; left; repeat split; intros; discriminate. }
  rewrite (bind_Ret _ _ _ _ _ (is_topic_whitelisted_run _ _)) in H.
  set (s1 := record (Request EpTopicActive (str_int (topic_id params))) s)
    in *.
  change (count (is_request EpWhitelistEnabled) (trace s1))
    with (count (is_request EpWhitelistEnabled) (trace s)) in H.
  set (s2 := record (Request EpWhitelistEnabled (str_int (topic_id params)))
               s1) in *.
  assert (Hrest : forall s3,
            stop_checks s3 = stop_checks s -> closes s3 = closes s ->
            submissions s3 = submissions s ->
            registrations s3 = registrations s ->
            broadcasts s3 = broadcasts s ->
            wallet s3 = wallet s -> node s3 = node s ->
            latest_used_nonce s3 = latest_used_nonce s ->
            count (is_request EpTopicActive) (trace s3)
            = S (count (is_request EpTopicActive) (trace s)) ->
            count (is_request EpRegistered) (trace s3)
            = count (is_request EpRegistered) (trace s) ->
            (bool_result
               (whitelist_enabled_reply W
                  (count (is_request EpWhitelistEnabled) (trace s))) = true ->
             bool_result
               (whitelisted_reply W
                  (count (is_request EpWhitelisted) (trace s))) = true) ->
            forall H3 :
              (registered <- is_registered_for (topic_id params) ;;
               proceed <- (if negb registered
                           then register_for_topic fuel (topic_id params)
                           else ret true) ;;
               if negb proceed then ret tt
               else
                 active' <- is_topic_active (topic_id params) ;;
                 if negb active' then ret tt
                 else
                   try_except_finally (polling_loop rounds fuel params)
                                      (emit ClientClose)) s3 = (o, s'),
            (stop_checks s' = stop_checks s /\ closes s' = closes s /\
             submissions s' = submissions s /\
             (forall e, o = Raise e -> registrations s' = S (registrations s)))
            \/
            (exists s6,
               true = true /\
               true = true /\
               bool_result
                 (topic_active_reply W
                    (S (count (is_request EpTopicActive) (trace s)))) = true /\
               (bool_result
                  (whitelist_enabled_reply W
                     (count (is_request EpWhitelistEnabled) (trace s)))
                = true ->
                bool_result
                  (whitelisted_reply W
                     (count (is_request EpWhitelisted) (trace s))) = true) /\
               (if bool_result
                     (registered_reply W
                        (count (is_request EpRegistered) (trace s)))
                then registrations s6 = registrations s /\
                     wallet s6 = wallet s
                else registrations s6 = S (registrations s) /\
                     (broadcasts s < broadcasts s6)%nat) /\
               node s6 = node s /\
               latest_used_nonce s6 = latest_used_nonce s /\
               stop_checks s6 = stop_checks s /\ closes s6 = closes s /\
               submissions s6 = submissions s /\
               try_except_finally (polling_loop rounds fuel params)
                 (emit ClientClose) s6 = (o, s'))).
  { intros s3 Hc Hcl Hsub Hr Hb Hw Hn Hl Hka Hkr Hwl H3.
    apply run_registration in H3.
    rewrite Hc, Hcl, Hsub, Hr, Hb, Hw, Hn, Hl, Hka, Hkr in H3.
    destruct H3 as [? | (s6 & Hact2 & Hreg & Hrest)]; [left; assumption |].
    right; exists s6; repeat split; auto; apply Hrest. }
  destruct (bool_result (whitelist_enabled_reply W _)) eqn:Hwl.
  - rewrite (bind_Ret _ _ _ _ _ (is_whitelisted_for_run _ _)) in H.
    change (count (is_request EpWhitelisted) (trace s2))
      with (count (is_request EpWhitelisted) (trace s)) in H.
    destruct (bool_result (whitelisted_reply W _)) eqn:Hmem; cbn [negb] in H.
    2:{ inversion H; subst o s'; left; repeat split; intros; discriminate. }
    eapply Hrest; [.. | exact H]; auto.
  - unfold bind at 1, ret at 1 in H; cbn [negb] in H.
    eapply Hrest; [.. | exact H]; auto; discriminate.
Qed.

(** [run] gets to the head of the polling loop with a wallet that was not
    reported as registered only if [register_for_topic] returned [True]. *)
Lemma run_registration_true rounds fuel params s3 o s' :
  (registered <- is_registered_for (topic_id params) ;;
   proceed <- (if negb registered
               then register_for_topic fuel (topic_id params)
               else ret true) ;;
   if negb proceed then ret tt
   else
     active' <- is_topic_active (topic_id params) ;;
     if negb active' then ret tt
     else
       try_except_finally (polling_loop rounds fuel params)
                          (emit ClientClose)) s3 = (o, s') ->
  bool_result
    (registered_reply W (count (is_request EpRegistered) (trace s3))) = false ->
  (stop_checks s3 < stop_checks s')%nat ->
  exists s4 s5,
    register_for_topic fuel (topic_id params) s4 = (Ret true, s5).
Proof.
  intros H Hreg Hlt.
  rewrite (bind_Ret _ _ _ _ _ (is_registered_for_run _ _)), Hreg in H.
  cbn [negb] in H.
  set (s4 := record (Request EpRegistered
                       (str_int (topic_id params) ++ "/"
                        ++ address (wallet s3))%string) s3) in *.
  apply bind_inv in H;
    destruct H as [(b & s5 & H5 & H) | [(e & H5 & ->) | (H5 & ->)]];
    pose proof (register_for_topic_frame _ _ _ _ _ H5)
      as (_ & _ & _ & Hc & _);
    change (stop_checks s4) with (stop_checks s3) in Hc; try lia.
  destruct b; [eauto |].
  cbn [negb] in H; inversion H; subst; lia.
Qed.

Lemma run_polls_only_if_registered rounds fuel connected params s o s' :
  run rounds fuel connected params s = (o, s') ->
  bool_result
    (registered_reply W (count (is_request EpRegistered) (trace s))) = false ->
  (stop_checks s < stop_checks s')%nat ->
  exists s4 s5,
    register_for_topic fuel (topic_id params) s4 = (Ret true, s5).
Proof.
  unfold run; intros H Hreg Hlt.
  destruct connected; cbn [negb] in H.
  2:{ inversion H; subst; lia. }
  rewrite (bind_Ret _ _ _ _ _ (is_topic_active_run _ _)) in H.
  set (s1 := record (Request EpTopicActive (str_int (topic_id params))) s)
    in *.
  change (stop_checks s) with (stop_checks s1) in Hlt.
  change (count (is_request EpRegistered) (trace s))
    with (count (is_request EpRegistered) (trace s1)) in Hreg.
  destruct (bool_result (topic_active_reply W _)); cbn [negb] in H.
  2:{ inversion H; subst; lia. }
  rewrite (bind_Ret _ _ _ _ _ (is_topic_whitelisted_run _ _)) in H.
  set (s2 := record (Request EpWhitelistEnabled (str_int (topic_id params)))
               s1) in *.
  change (stop_checks s1) with (stop_checks s2) in Hlt.
  change (count (is_request EpRegistered) (trace s1))
    with (count (is_request EpRegistered) (trace s2)) in Hreg.
  destruct (bool_result (whitelist_enabled_reply W _)).
  - rewrite (bind_Ret _ _ _ _ _ (is_whitelisted_for_run _ _)) in H.
    set (s3 := record (Request EpWhitelisted
                         (str_int (topic_id params) ++ "/"
                          ++ address (wallet s2))%string) s2) in *.
    change (stop_checks s2) with (stop_checks s3) in Hlt.
    change (count (is_request EpRegistered) (trace s2))
      with (count (is_request EpRegistered) (trace s3)) in Hreg.
    destruct (bool_result (whitelisted_reply W _)); cbn [negb] in H.
    2:{ inversion H; subst; lia. }
    eapply run_registration_true; eauto.
  - unfold bind at 1, ret at 1 in H; cbn [negb] in H.
    eapply run_registration_true; eauto.
Qed.

Lemma run_loop_end rounds fuel params s6 o s' :
  try_except_finally (polling_loop rounds fuel params) (emit ClientClose) s6
  = (o, s') ->
  exists o7 s7,
    polling_loop rounds fuel params s6 = (o7, s7) /\
    ((o7 = OutOfFuel /\ o = OutOfFuel /\ s' = s7) \/
     (o7 <> OutOfFuel /\ s' = record ClientClose s7 /\
      (o = Ret tt \/ exists c, o = Raise (SystemExit c)))).
Proof.
  unfold try_except_finally, emit.
  destruct (polling_loop rounds fuel params s6) as [[[] | e |] s7];
    intros H;
    [exists (Ret tt), s7 | exists (Raise e), s7 | exists OutOfFuel, s7];
    (split; [reflexivity |]).
  - inversion H; subst; right; repeat split; auto; discriminate.
  - destruct e; inversion H; subst; right;
      (split; [discriminate | split; [reflexivity |]]); eauto.
  - inversion H; subst; left; auto.
Qed.

Lemma polling_loop_checks rounds fuel params s o s' :
  polling_loop rounds fuel params s = (o, s') ->
  (stop_checks s < stop_checks s')%nat.
Proof.
  intros H.
  assert (Hrest : forall m : M unit,
            traces loop_event m ->
            m (record (IsSet (stop_event s)) s) = (o, s') ->
            (stop_checks s < stop_checks s')%nat).
  { intros m Hm Hrun; apply Hm in Hrun.
    apply (grows_count_le _ is_stop_check) in Hrun.
    change (count is_stop_check (trace (record (IsSet (stop_event s)) s)))
      with (S (stop_checks s)) in Hrun.
    unfold stop_checks at 2; lia. }
  destruct rounds as [| rounds]; cbn [polling_loop] in H;
    rewrite (bind_Ret _ _ _ _ _ (is_set_run _)) in H;
    (eapply Hrest; [| exact H]);
    destruct (stop_event s); try apply traces_ret.
  - intros s0 o0 s0' H0; inversion H0; subst; apply grows_refl.
  - apply traces_bind; [| intros _; apply traces_polling_loop].
    eapply traces_weaken; [| apply traces_loop_body].
    intros e He; unfold loop_event; rewrite He; reflexivity.
Qed.

Lemma loop_event_frame rounds fuel params s o s' :
  polling_loop rounds fuel params s = (o, s') ->
  registrations s' = registrations s /\ closes s' = closes s /\
  (broadcasts s <= broadcasts s')%nat.
Proof.
  intros H; apply traces_polling_loop in H.
  repeat split.
  - apply (grows_count loop_event); [| exact H].
    intros [[] ? | | | | | |]; cbv; congruence.
  - apply (grows_count loop_event); [| exact H].
    intros [[] ? | | | | | |]; cbv; congruence.
  - apply (grows_count_le _ _ _ _ H).
Qed.

(** X16. [run] reaches the head of the polling loop (a check of the stop
    flag) only if every check before it passed: the worker's node is
    connected, the topic was active at both queries, the wallet is
    whitelisted where the topic's whitelist is enabled, and, where the
    wallet was not reported as registered, [register_for_topic] was called
    once and a transaction was broadcast. *)
Theorem run_reaches_loop_only_if rounds fuel connected params s o s' :
  run rounds fuel connected params s = (o, s') ->
  (stop_checks s < stop_checks s')%nat ->
  connected = true /\
  bool_result
    (topic_active_reply W (count (is_request EpTopicActive) (trace s)))
  = true /\
  bool_result
    (topic_active_reply W (S (count (is_request EpTopicActive) (trace s))))
  = true /\
  (bool_result
     (whitelist_enabled_reply W
        (count (is_request EpWhitelistEnabled) (trace s))) = true ->
   bool_result
     (whitelisted_reply W (count (is_request EpWhitelisted) (trace s)))
   = true) /\
  (if bool_result
        (registered_reply W (count (is_request EpRegistered) (trace s)))
   then registrations s' = registrations s
   else registrations s' = S (registrations s) /\
        (broadcasts s < broadcasts s')%nat).
Proof.
  intros H Hlt; apply run_cases in H.
  destruct H as [(Hc & _) | (s6 & Hconn & Ha1 & Ha2 & Hwl & Hreg & _ & _ & _
                             & _ & _ & H)]; [lia |].
  repeat split; auto.
  apply run_loop_end in H.
  destruct H as (o7 & s7 & H7 & Hend).
  apply loop_event_frame in H7; destruct H7 as (Hr7 & _ & Hb7).
  assert (Hr : registrations s' = registrations s7)
    by (destruct Hend as [(_ & _ & ->) | (_ & -> & _)]; reflexivity).
  assert (Hb : broadcasts s' = broadcasts s7)
    by (destruct Hend as [(_ & _ & ->) | (_ & -> & _)]; reflexivity).
  destruct (bool_result (registered_reply W _)).
  - destruct Hreg; congruence.
  - destruct Hreg; split; [congruence | lia].
Qed.

(** X17. How [run] ends, when it ends.  Either the polling loop was never
    entered: then no inference was submitted, the inference client was not
    closed, and an exception can only come from the registration call.  Or
    the loop was entered: then the client was closed exactly once, as the
    last thing done, and no exception of the loop escapes other than a
    [SystemExit]. *)
Theorem run_closes_client_iff_loop rounds fuel connected params s o s' :
  run rounds fuel connected params s = (o, s') ->
  o <> OutOfFuel ->
  (stop_checks s' = stop_checks s /\ closes s' = closes s /\
   submissions s' = submissions s /\
   (forall e, o = Raise e -> registrations s' = S (registrations s)))
  \/
  ((stop_checks s < stop_checks s')%nat /\ closes s' = S (closes s) /\
   (exists s7, s' = record ClientClose s7) /\
   (o = Ret tt \/ exists c, o = Raise (SystemExit c))).
Proof.
  intros H Hend; apply run_cases in H.
  destruct H as [? | (s6 & _ & _ & _ & _ & _ & _ & _ & Hc & Hcl & _ & H)];
    [left; assumption |].
  right.
  apply run_loop_end in H.
  destruct H as (o7 & s7 & H7 & [(_ & -> & _) | (_ & -> & Ho)]);
    [congruence |].
  pose proof (polling_loop_checks _ _ _ _ _ _ H7) as Hlt.
  apply loop_event_frame in H7; destruct H7 as (_ & Hcl7 & _).
  repeat split; eauto.
  - change (stop_checks (record ClientClose s7)) with (stop_checks s7); lia.
  - change (closes (record ClientClose s7)) with (S (closes s7)); congruence.
Qed.

(** X13. A topic reported as not active stops the worker at once: the pass
    sets the stop flag without asking for the nonce and without sleeping,
    and the next check of the flag ends the loop. *)
Theorem polling_loop_deactivated rounds fuel params s :
  stop_event s = false ->
  bool_result
    (topic_active_reply W (count (is_request EpTopicActive) (trace s)))
  = false ->
  exists s',
    polling_loop (S rounds) fuel params s = (Ret tt, s') /\
    trace s'
    = IsSet true :: Request EpTopicActive (str_int (topic_id params))
        :: IsSet false :: trace s /\
    stop_event s' = true /\ wallet s' = wallet s /\
    latest_used_nonce s' = latest_used_nonce s.
Proof.
  intros Hstop Hact.
  cbn [polling_loop].
  rewrite (bind_Ret _ _ _ _ _ (is_set_run _)), Hstop.
  unfold loop_body.
  unfold bind at 1.
  rewrite (bind_Ret _ _ _ _ _ (is_topic_active_run _ _)).
  change (count (is_request EpTopicActive) (trace (record (IsSet false) s)))
    with (count (is_request EpTopicActive) (trace s)).
  rewrite Hact; cbn [negb].
  unfold stop, modify.
  eexists; split; [apply polling_loop_stopped; reflexivity |].
  repeat split.
Qed.

(** ** Gas estimation as the wallet methods run it *)

(** X7. The gas loop of both wallet methods (three retries) always ends,
    after at most three simulations.  Either all three attempts failed,
    the result is [-1] and the loop has slept one second after each of
    them, the last included; or attempt number [a] is the first to succeed,
    its estimate is the result, and the loop slept after the [a - 1]
    failures only.  The wallet is not touched. *)
Theorem gas_estimation_attempts fuel tx body s :
  tx_body tx = Some body -> (3 <= fuel)%nat ->
  exists a gas s',
    estimate_gas_loop fuel 3 (-1) tx s = (Ret gas, s') /\
    wallet s' = wallet s /\
    count (is_request EpSimulate) (trace s')
    = (count (is_request EpSimulate) (trace s) + a)%nat /\
    ((gas = -1 /\ a = 3%nat /\
      (forall j, (j < 3)%nat ->
         simulate_result
           (simulate_reply W (count (is_request EpSimulate) (trace s) + j))
         = -1) /\
      count is_sleep (trace s') = (count is_sleep (trace s) + 3)%nat)
     \/
     (gas <> -1 /\ (1 <= a <= 3)%nat /\
      gas = simulate_result
              (simulate_reply W
                 (count (is_request EpSimulate) (trace s) + (a - 1))) /\
      (forall j, (j < a - 1)%nat ->
         simulate_result
           (simulate_reply W (count (is_request EpSimulate) (trace s) + j))
         = -1) /\
      count is_sleep (trace s') = (count is_sleep (trace s) + (a - 1))%nat)).
Proof.
  intros Hbody Hfuel.
  exact (estimate_gas_loop_attempts 3 fuel tx body s Hbody Hfuel).
Qed.

Lemma pipeline_tail_simulates r fuel tx body s o s' :
  tx_body tx = Some body -> (3 <= fuel)%nat ->
  pipeline_tail r fuel tx s = (o, s') ->
  (count (is_request EpSimulate) (trace s)
   < count (is_request EpSimulate) (trace s'))%nat.
Proof.
  intros Hbody Hfuel H.
  destruct (estimate_gas_loop_attempts 3 fuel tx body s Hbody Hfuel)
    as (a & gas & s1 & Hrun & _ & Hcount & Hcase).
  change (Z.of_nat 3) with 3 in Hrun.
  assert (Ha : (1 <= a)%nat)
    by (destruct Hcase as [(_ & -> & _) | (_ & ? & _)]; lia).
  unfold pipeline_tail in H.
  unfold bind at 1 in H; rewrite Hrun in H.
  match type of H with
  | ?m s1 = _ => assert (Htr : traces tx_event m)
  end.
  { destruct (gas =? -1); [apply traces_ret |].
    unfold get_gas_price, get_fee.
    do 6 traces_seq.
    match goal with |- traces _ (if ?c then _ else _) => destruct c end;
      [traces_seq; traces_leaf |].
    apply traces_bind;
      [eapply traces_of_emits; [| apply emits_broadcast_loop] | intros h].
    { intros [[] ? | | | | | |]; cbv; congruence. }
    destruct (py_eqb h (PyInt (-1))); [apply traces_ret |].
    apply traces_bind;
      [eapply traces_of_emits; [| apply emits_wait_for_tx] | intros msg].
    { intros [[] ? | | | | | |]; cbv; congruence. }
    unfold debit_balance, increment_sequence.
    do 3 traces_seq; traces_leaf. }
  apply Htr in H.
  apply (grows_count_le _ (is_request EpSimulate)) in H; lia.
Qed.

(** X11. Neither wallet method looks at a failed height query.  When
    [get_latest_height] answers [-1], the transaction is still drafted,
    with the timeout height [-1 + 50 = 49], and is still simulated. *)
Theorem failed_height_still_submits fuel value topic nonce s :
  (3 <= fuel)%nat ->
  height_result
    (latest_height_reply W (count (is_request EpLatestHeight) (trace s)))
  = -1 ->
  (exists body,
     tx_body (register_draft topic s) = Some body /\
     timeout_height body = 49) /\
  (exists body,
     tx_body (submit_draft value topic nonce s) = Some body /\
     timeout_height body = 49) /\
  (forall o s',
     register_for_topic fuel topic s = (o, s') ->
     (count (is_request EpSimulate) (trace s)
      < count (is_request EpSimulate) (trace s'))%nat) /\
  (forall o s',
     submit_inference fuel value topic nonce s = (o, s') ->
     (count (is_request EpSimulate) (trace s)
      < count (is_request EpSimulate) (trace s'))%nat).
Proof.
  intros Hfuel Hheight; repeat split.
  - unfold register_draft; rewrite Hheight, set_tx_body_body.
    eexists; split; reflexivity.
  - unfold submit_draft; cbv zeta; rewrite Hheight, set_tx_body_body.
    eexists; split; reflexivity.
  - intros o s'; rewrite register_for_topic_tail; intros H.
    eapply pipeline_tail_simulates in H; [exact H | | exact Hfuel].
    unfold register_draft; apply set_tx_body_body.
  - intros o s'; rewrite submit_inference_tail; intros H.
    eapply pipeline_tail_simulates in H; [exact H | | exact Hfuel].
    unfold submit_draft; cbv zeta; apply set_tx_body_body.
Qed.

(** ** [main]: from the configuration to the worker threads *)

Lemma fetch_wallet_details_outcome s o s' :
  fetch_wallet_details s = (o, s') ->
  o = Ret tt \/ o = Raise (KeyError "code").
Proof.
  intros H.
  unfold fetch_wallet_details in H; rewrite bind_gets in H.
  unfold http, bind, gets, emit, ret, modify, raise in H.
  destruct (account_info_reply W _) as [| status [resp |]].
  - inversion H; auto.
  - destruct (error_status status); [inversion H; auto |].
    destruct (j_code resp) as [c |]; [inversion H; auto |].
    destruct (payload resp) as [info |]; [| inversion H; auto].
    destruct (balance_reply W _) as [| status2 [resp2 |]].
    + inversion H; auto.
    + destruct (error_status status2); [inversion H; auto |].
      destruct (j_code resp2) as [c2 |]; [inversion H; auto |].
      destruct (payload resp2) as [amount |]; inversion H; auto.
    + destruct (error_status status2); inversion H; auto.
  - destruct (error_status status); inversion H; auto.
Qed.

Lemma Wallet_init_outcome adjustment s o s' :
  Wallet_init adjustment s = (o, s') ->
  o = Ret tt \/ o = Raise (KeyError "code").
Proof.
  unfold Wallet_init; intros H.
  unfold bind at 1, modify at 1 in H.
  apply bind_inv in H;
    destruct H as [([] & s1 & H1 & H) | [(e & H1 & ->) | (H1 & ->)]].
  - rewrite bind_gets in H.
    destruct (_ || _) in H; inversion H; auto.
  - apply fetch_wallet_details_outcome in H1; exact H1.
  - apply fetch_wallet_details_outcome in H1; exact H1.
Qed.

Lemma start_workers_run topics : forall s,
  exists s',
    start_workers topics s = (Ret tt, s') /\
    threads_started s'
    = (threads_started s
       + List.length (filter well_formed_topic topics))%nat /\
    wallet s' = wallet s /\ node s' = node s.
Proof.
  induction topics as [| p rest IH]; intros s; cbn [start_workers filter].
  - exists s; repeat split; cbn; lia.
  - unfold well_formed_topic.
    destruct (cfg_topic_id p) as [topic |];
      [destruct (cfg_inference_url p) as [url |] |].
    + destruct (IH (record (ThreadStart topic) s))
        as (s' & Hrun & Hcount & Hw & Hn).
      exists s'; split; [exact Hrun |].
      rewrite Hcount; repeat split; auto.
    + destruct (IH s) as (s' & Hrun & Hcount & Hw & Hn).
      exists s'; repeat split; auto.
    + destruct (IH s) as (s' & Hrun & Hcount & Hw & Hn).
      exists s'; repeat split; auto.
Qed.

(** X18. What [main] has checked when it starts a worker.  If [main]
    starts a worker thread, or returns normally, then the seed phrase and
    the API URL are present and not empty, the wallet's node is connected,
    [gas_adjustment] is present, the wallet came out of its constructor
    initialized (hence with a balance other than 0) and the list of topics
    is not empty; and when it returns normally it has started one worker
    thread for each topic entry that has both a [topic_id] and an
    [inference_url], and no other, which may be none at all.  When [main]
    ends by [exit], the code is -1 and no thread was started.  ([main] can
    also end in an exception, as in X19 or when [gas_adjustment] is
    absent; the theorem does not list the ways it can end.) *)
Theorem main_outcomes cfg s o s' :
  main cfg s = (o, s') ->
  ((o = Ret tt \/ threads_started s' <> threads_started s) ->
   exists seed url adjustment topics,
     cfg_seed_phrase cfg = Some seed /\ seed <> "" /\
     cfg_api_url cfg = Some url /\ url <> "" /\
     connected (node s) = true /\
     cfg_gas_adjustment cfg = Some adjustment /\
     initialized (wallet s') = true /\ balance (wallet s') <> 0 /\
     cfg_topics cfg = Some topics /\ topics <> [] /\
     (o = Ret tt ->
      threads_started s'
      = (threads_started s
         + List.length (filter well_formed_topic topics))%nat))
  /\
  (forall code, o = Raise (SystemExit code) ->
     code = -1 /\ threads_started s' = threads_started s).
Proof.
  unfold main; intros H.
  assert (Hquiet : forall c,
            (Raise (SystemExit c) : outcome unit, s) = (o, s') ->
            ((o = Ret tt \/ threads_started s' <> threads_started s) ->
             False) /\
            (forall code, o = Raise (SystemExit code) ->
               code = c /\ threads_started s' = threads_started s)).
  { intros c E; inversion E; subst; split.
    - intros [E' | E']; [discriminate | congruence].
    - intros code E'; inversion E'; auto. }
  assert (Hexit : forall c,
            (Raise (SystemExit c) : outcome unit, s) = (o, s') -> c = -1 ->
            ((o = Ret tt \/ threads_started s' <> threads_started s) ->
             exists seed url adjustment topics,
               cfg_seed_phrase cfg = Some seed /\ seed <> "" /\
               cfg_api_url cfg = Some url /\ url <> "" /\
               connected (node s) = true /\
               cfg_gas_adjustment cfg = Some adjustment /\
               initialized (wallet s') = true /\ balance (wallet s') <> 0 /\
               cfg_topics cfg = Some topics /\ topics <> [] /\
               (o = Ret tt ->
                threads_started s'
                = (threads_started s
                   + List.length (filter well_formed_topic topics))%nat))
            /\
            (forall code, o = Raise (SystemExit code) ->
               code = -1 /\ threads_started s' = threads_started s)).
  { intros c E ->; destruct (Hquiet _ E) as (Hno & Hcode); split.
    - intros Hyes; destruct (Hno Hyes).
    - exact Hcode. }
  destruct (cfg_seed_phrase cfg) as [[| c seed] |] eqn:Hseed;
    try solve [eapply Hexit; [exact H | reflexivity]].
  destruct (cfg_api_url cfg) as [[| c' url] |] eqn:Hurl;
    try solve [eapply Hexit; [exact H | reflexivity]].
  unfold is_connected in H; rewrite bind_gets in H.
  destruct (connected (node s)) eqn:Hconn; cbn [negb] in H;
    [| eapply Hexit; [exact H | reflexivity]].
  destruct (cfg_gas_adjustment cfg) as [adjustment |] eqn:Hadj.
  2: { unfold raise in H; inversion H; subst; split.
       - intros [E | E]; [discriminate | congruence].
       - intros code E; discriminate. }
  clear Hquiet Hexit.
  apply bind_inv in H;
    destruct H as [([] & s1 & H1 & H) | [(e & H1 & ->) | (H1 & ->)]].
  - pose proof (Wallet_init_result _ _ _ _ H1) as R; cbv zeta in R.
    destruct R as (G & Hn & R).
    assert (Ht1 : threads_started s1 = threads_started s)
      by (eapply grows_count; [apply network_not_thread_start | exact G]).
    unfold is_initialized in H; rewrite bind_gets in H.
    destruct (initialized (wallet s1)) eqn:Hinit; cbn [negb] in H.
    2: { unfold exit, raise in H; inversion H; subst; split.
         - intros [E | E]; [discriminate | congruence].
         - intros code E; inversion E; auto. }
    assert (Hbal : balance (wallet s1) <> 0).
    { destruct (fetched_account _) as [info |]; [| congruence].
      destruct R as (_ & _ & _ & R).
      destruct (fetched_balance _) as [amount |]; [| destruct R; congruence].
      destruct R as (Hb & Hi); rewrite Hb.
      destruct amount; [discriminate | lia]. }
    destruct (cfg_topics cfg) as [[| p rest] |] eqn:Htopics;
      try solve [unfold exit, raise in H; inversion H; subst; split;
                 [intros [E | E]; [discriminate | congruence]
                 | intros code E; inversion E; auto]].
    destruct (start_workers_run (p :: rest) s1) as (s2 & Hrun & Hc & Hw & _).
    rewrite Hrun in H; inversion H; subst o s'.
    split; [| intros code E; discriminate].
    intros _.
    exists (String c seed), (String c' url), adjustment, (p :: rest).
    repeat split; try congruence.
  - apply Wallet_init_outcome in H1 as Ho.
    apply Wallet_init_result in H1; cbv zeta in H1.
    destruct H1 as (G & _).
    assert (Ht : threads_started s' = threads_started s)
      by (eapply grows_count; [apply network_not_thread_start | exact G]).
    split.
    + intros [E | E]; [discriminate | congruence].
    + intros code E; inversion E; subst.
      destruct Ho as [Ho | Ho]; discriminate.
  - apply Wallet_init_outcome in H1; destruct H1; discriminate.
Qed.

(** X19. An account reply that is a JSON object with neither ["code"] nor
    ["info"] is not handled: [fetch_wallet_details] reads [resp["code"]]
    and raises [KeyError].  The exception leaves the constructor of the
    wallet and then [main], which does not end by [exit(-1)]; the balance
    is not asked for. *)
Theorem account_reply_without_info_raises cfg seed url adjustment status
    resp s :
  account_info_reply W (count (is_request EpAccountInfo) (trace s))
  = Response status (Some resp) ->
  error_status status = false ->
  j_code resp = None -> payload resp = None ->
  cfg_seed_phrase cfg = Some seed -> seed <> "" ->
  cfg_api_url cfg = Some url -> url <> "" ->
  connected (node s) = true ->
  cfg_gas_adjustment cfg = Some adjustment ->
  exists s',
    Wallet_init adjustment s = (Raise (KeyError "code"), s') /\
    main cfg s = (Raise (KeyError "code"), s') /\
    trace s' = Request EpAccountInfo (address (wallet s)) :: trace s /\
    initialized (wallet s') = false.
Proof.
  intros Hreply Hstatus Hcode Hpay Hseed Hne Hurl Hne' Hconn Hadj.
  assert (Hinit : exists s',
            Wallet_init adjustment s
            = (Raise (KeyError "code"), s') /\
            trace s' = Request EpAccountInfo (address (wallet s)) :: trace s /\
            initialized (wallet s') = false).
  { eexists; split; [| split].
    - unfold Wallet_init, fetch_wallet_details, http, bind, gets, emit, ret,
        raise, modify.
      cbn [trace set_wallet].
      rewrite Hreply, Hstatus, Hcode, Hpay; reflexivity.
    - reflexivity.
    - reflexivity. }
  destruct Hinit as (s' & Hrun & Htrace & Hi).
  exists s'; repeat split; auto.
  unfold main; rewrite Hseed, Hurl, Hadj.
  destruct seed as [| c seed]; [congruence |].
  destruct url as [| c' url]; [congruence |].
  unfold is_connected; rewrite bind_gets, Hconn; cbn [negb].
  unfold bind at 1; rewrite Hrun; reflexivity.
Qed.

(** ** The broadcast loop when a broadcast succeeds *)

(** X8. The broadcast loop returns the first transaction hash the node
    gives, after however many failed attempts: the count of retries (5 in
    both wallet methods) does not bound them, and the loop never sleeps
    between attempts. *)
Theorem broadcast_loop_first_hash i : forall fuel retries tx body s h,
  tx_body tx = Some body -> retries > 0 -> (i < fuel)%nat ->
  (forall j, (j < i)%nat ->
     broadcast_result
       (broadcast_reply W (count (is_request EpBroadcast) (trace s) + j))
     = "") ->
  broadcast_result
    (broadcast_reply W (count (is_request EpBroadcast) (trace s) + i)) = h ->
  h <> "" ->
  exists s',
    broadcast_loop fuel retries (PyStr "") tx s = (Ret (PyStr h), s') /\
    count (is_request EpBroadcast) (trace s')
    = (count (is_request EpBroadcast) (trace s) + i + 1)%nat /\
    count is_sleep (trace s') = count is_sleep (trace s) /\
    wallet s' = wallet s.
Proof.
  induction i as [| i IH];
    intros fuel retries tx body s h Hbody Hretries Hfuel Hfail Hh Hne;
    (destruct fuel as [| fuel]; [lia |]);
    cbn [broadcast_loop];
    replace (retries >? 0) with true by (symmetry; apply Z.gtb_lt; lia);
    cbn [andb py_eqb String.eqb];
    destruct (get_tx_bytes_body tx body (wallet s) (node s) Hbody) as [b Hb];
    unfold bind at 1, tx_bytes at 1; rewrite Hb;
    unfold bind at 1; rewrite broadcast_tx_run.
  - rewrite Nat.add_0_r in Hh; rewrite Hh; cbn [py_eqb].
    exists (record (Request EpBroadcast b) s).
    assert (Hc : py_eqb (PyStr h) (PyStr "") = false)
      by (cbn [py_eqb]; apply String.eqb_neq; exact Hne).
    split; [destruct fuel; cbn [broadcast_loop]; rewrite Hc,
                                                  Bool.andb_false_r;
            reflexivity |].
    repeat split.
    change (count (is_request EpBroadcast)
              (trace (record (Request EpBroadcast b) s)))
      with (S (count (is_request EpBroadcast) (trace s))); lia.
  - generalize (Hfail O ltac:(lia)); rewrite Nat.add_0_r; intros ->.
    cbn [py_eqb].
    destruct (IH fuel retries tx body (record (Request EpBroadcast b) s) h
                Hbody Hretries ltac:(lia)) as (s' & Hrun & Hcount & Hsleep
                                               & Hw); auto.
    { intros j Hj.
      change (count (is_request EpBroadcast)
                (trace (record (Request EpBroadcast b) s)))
        with (S (count (is_request EpBroadcast) (trace s))).
      replace (S (count (is_request EpBroadcast) (trace s)) + j)%nat
        with (count (is_request EpBroadcast) (trace s) + S j)%nat by lia.
      apply Hfail; lia. }
    { change (count (is_request EpBroadcast)
                (trace (record (Request EpBroadcast b) s)))
        with (S (count (is_request EpBroadcast) (trace s))).
      replace (S (count (is_request EpBroadcast) (trace s)) + i)%nat
        with (count (is_request EpBroadcast) (trace s) + S i)%nat by lia.
      exact Hh. }
    exists s'; repeat split; auto.
    rewrite Hcount.
    change (count (is_request EpBroadcast)
              (trace (record (Request EpBroadcast b) s)))
      with (S (count (is_request EpBroadcast) (trace s))); lia.
Qed.

End Program.

(** ** The fee set by tx.py *)

Lemma digits2_size p : SpecFloat.digits2_pos p = Pos.size p.
Proof. induction p; simpl; congruence. Qed.

Lemma iter_xO_mul q n : Zpos (Pos.iter xO q n) = Zpos q * 2 ^ Zpos n.
Proof.
  revert q; induction n using Pos.peano_ind; intros q.
  - simpl; lia.
  - rewrite Pos.iter_succ, Pos2Z.inj_succ, Z.pow_succ_r by lia.
    rewrite Pos2Z.inj_xO, IHn; lia.
Qed.

Lemma size_iter_xO q n :
  Zpos (Pos.size (Pos.iter xO q n)) = Zpos (Pos.size q) + Zpos n.
Proof.
  revert q; induction n using Pos.peano_ind; intros q.
  - simpl; lia.
  - rewrite Pos.iter_succ; cbn [Pos.size].
    rewrite Pos2Z.inj_succ, IHn; lia.
Qed.

(** Shifting out [n] bits that are all 0 loses nothing. *)
Lemma shr_exact n : forall q,
  SpecFloat.iter_pos SpecFloat.shr_1 n
    {| SpecFloat.shr_m := Zpos (Pos.iter xO q n);
       SpecFloat.shr_r := false; SpecFloat.shr_s := false |}
  = {| SpecFloat.shr_m := Zpos q;
       SpecFloat.shr_r := false; SpecFloat.shr_s := false |}.
Proof.
  induction n as [n IH | n IH |]; intros q;
    cbn [SpecFloat.iter_pos Pos.iter].
  - cbn [SpecFloat.shr_1 orb]; rewrite IH, IH; reflexivity.
  - rewrite IH, IH; reflexivity.
  - reflexivity.
Qed.

Lemma size_bounds p :
  2 ^ (Zpos (Pos.size p) - 1) <= Zpos p < 2 ^ Zpos (Pos.size p).
Proof.
  pose proof (Pos.size_gt p) as Hgt.
  pose proof (Pos.size_le p) as Hle.
  apply Pos2Z.pos_lt_pos in Hgt; apply Pos2Z.pos_le_pos in Hle.
  rewrite Pos2Z.inj_pow in Hgt, Hle.
  replace (Zpos (Pos.size p)) with (Z.succ (Zpos (Pos.size p) - 1)) in Hle
    at 1 by lia.
  rewrite Z.pow_succ_r in Hle by lia.
  lia.
Qed.

Lemma size_le_of_lt p n : 0 <= n -> Zpos p < 2 ^ n -> Zpos (Pos.size p) <= n.
Proof.
  intros Hn H.
  destruct (Z.le_gt_cases (Zpos (Pos.size p)) n) as [? | Hgt]; [assumption |].
  exfalso.
  pose proof (size_bounds p) as [Hlo _].
  assert (2 ^ n <= 2 ^ (Zpos (Pos.size p) - 1))
    by (apply Z.pow_le_mono_r; lia).
  lia.
Qed.

Lemma size_gt_of_le p n : 0 <= n -> 2 ^ n <= Zpos p -> n < Zpos (Pos.size p).
Proof.
  intros Hn H.
  destruct (Z.lt_ge_cases n (Zpos (Pos.size p))) as [? | Hge]; [assumption |].
  exfalso.
  pose proof (size_bounds p) as [_ Hhi].
  assert (2 ^ Zpos (Pos.size p) <= 2 ^ n) by (apply Z.pow_le_mono_r; lia).
  lia.
Qed.

(** Rounding a mantissa of 53 bits changes nothing. *)
Lemma binary_round_aux_exact s m e :
  Zpos (Pos.size m) = 53 -> -1074 <= e <= 971 ->
  SpecFloat.binary_round_aux 53 1024 s (Zpos m) e SpecFloat.loc_Exact
  = SpecFloat.S754_finite s m e.
Proof.
  intros Hd He.
  unfold SpecFloat.binary_round_aux, SpecFloat.shr_fexp, SpecFloat.fexp,
    SpecFloat.emin, SpecFloat.Zdigits2.
  rewrite digits2_size, Hd.
  replace (Z.max (53 + e - 53) (3 - 1024 - 53) - e) with 0 by lia.
  cbn [SpecFloat.shr SpecFloat.shr_record_of_loc SpecFloat.shr_m
         SpecFloat.loc_of_shr_record SpecFloat.round_nearest_even].
  rewrite digits2_size, Hd.
  replace (Z.max (53 + e - 53) (3 - 1024 - 53) - e) with 0 by lia.
  cbn [SpecFloat.shr SpecFloat.shr_record_of_loc SpecFloat.shr_m].
  replace (e <=? 1024 - 53) with true by (symmetry; apply Z.leb_le; lia).
  reflexivity.
Qed.

(** Rounding a mantissa of [53 + n] bits whose last [n] bits are 0 only
    drops these bits. *)
Lemma binary_round_aux_shift s m q n e :
  Zpos m = Zpos q * 2 ^ Zpos n -> Zpos (Pos.size q) = 53 ->
  -1074 <= e + Zpos n <= 971 ->
  SpecFloat.binary_round_aux 53 1024 s (Zpos m) e SpecFloat.loc_Exact
  = SpecFloat.S754_finite s q (e + Zpos n).
Proof.
  intros Hm Hq He.
  rewrite <- iter_xO_mul in Hm; injection Hm as ->.
  unfold SpecFloat.binary_round_aux, SpecFloat.shr_fexp, SpecFloat.fexp,
    SpecFloat.emin, SpecFloat.Zdigits2.
  rewrite digits2_size, size_iter_xO, Hq.
  replace (Z.max (53 + Zpos n + e - 53) (3 - 1024 - 53) - e) with (Zpos n)
    by lia.
  cbn [SpecFloat.shr SpecFloat.shr_record_of_loc].
  rewrite shr_exact.
  cbn [SpecFloat.shr_m SpecFloat.loc_of_shr_record
         SpecFloat.round_nearest_even].
  rewrite digits2_size, Hq.
  replace (Z.max (53 + (e + Zpos n) - 53) (3 - 1024 - 53) - (e + Zpos n))
    with 0 by lia.
  cbn [SpecFloat.shr SpecFloat.shr_record_of_loc SpecFloat.shr_m].
  replace (e + Zpos n <=? 1024 - 53) with true
    by (symmetry; apply Z.leb_le; lia).
  reflexivity.
Qed.

(** [float(p)] for an int of fewer than 53 bits: the bits of [p], moved
    up to fill the mantissa. *)
Lemma py_float_of_pos p kp :
  Zpos (Pos.size p) + Zpos kp = 53 ->
  py_float_of_int (Zpos p)
  = Ret (SpecFloat.S754_finite false (Pos.iter xO p kp) (Zneg kp)).
Proof.
  intros H.
  unfold py_float_of_int, SpecFloat.binary_normalize, SpecFloat.binary_round,
    SpecFloat.shl_align, SpecFloat.fexp, SpecFloat.emin.
  rewrite digits2_size.
  replace (Z.max (Zpos (Pos.size p) + 0 - 53) (3 - 1024 - 53))
    with (Zneg kp) by lia.
  cbn [Z.sub Z.add Z.opp].
  rewrite binary_round_aux_exact; [reflexivity | | lia].
  rewrite size_iter_xO; lia.
Qed.

(** For an estimate below 2^51 the product [gas * 1.5] is exact in
    binary64, and [int] cuts it off to the whole part of 3*gas/2. *)
Lemma adjusted_gas_exact p :
  Zpos p < 2 ^ 51 ->
  exists g,
    py_float_of_int (Zpos p) = Ret g /\
    py_int (f64_mul g f64_1_5) = Ret (3 * Zpos p / 2).
Proof.
  intros Hp.
  pose proof (size_bounds p) as [Hlo Hhi].
  set (d := Zpos (Pos.size p)) in *.
  assert (Hd : 1 <= d <= 51)
    by (split; [unfold d; lia | apply size_le_of_lt; lia]).
  assert (Hk : Zpos (Pos.size p) + Zpos (Z.to_pos (53 - d)) = 53)
    by (rewrite Z2Pos.id; unfold d; lia).
  eexists; split; [apply (py_float_of_pos p _ Hk) |].
  set (kp := Z.to_pos (53 - d)) in *.
  assert (Hkp : Zpos kp = 53 - d) by (unfold kp; rewrite Z2Pos.id; lia).
  unfold f64_mul, f64_1_5.
  change (SpecFloat.binary_normalize 53 1024 3 (-1) false)
    with (SpecFloat.S754_finite false 6755399441055744 (-52)).
  cbn [SpecFloat.SFmul xorb].
  set (t := (3 * p)%positive).
  pose proof (size_bounds t) as [Hlo' Hhi'].
  set (D := Zpos (Pos.size t)) in *.
  assert (Hpow : 2 ^ d = 2 * 2 ^ (d - 1)).
  { replace d with (Z.succ (d - 1)) at 1 by lia.
    apply Z.pow_succ_r; lia. }
  assert (HD : d + 1 <= D <= d + 2).
  { split.
    - assert (d < D); [| lia].
      apply size_gt_of_le; [lia |].
      unfold t; rewrite Pos2Z.inj_mul; lia.
    - apply size_le_of_lt; [lia |].
      replace (d + 2) with (Z.succ (Z.succ d)) by lia.
      rewrite !Z.pow_succ_r by lia.
      unfold t; rewrite Pos2Z.inj_mul; lia. }
  set (n := Z.to_pos (D + 51 - d)).
  assert (Hn : Zpos n = D + 51 - d) by (unfold n; rewrite Z2Pos.id; lia).
  set (q := Z.to_pos (Zpos t * 2 ^ (53 - D))).
  assert (Hr : 0 < 2 ^ (53 - D)) by (apply Z.pow_pos_nonneg; lia).
  assert (Hq : Zpos q = Zpos t * 2 ^ (53 - D))
    by (unfold q; rewrite Z2Pos.id; lia).
  rewrite (binary_round_aux_shift false _ q n).
  - replace (Zneg kp + -52 + Zpos n) with (Zneg (Z.to_pos (54 - D))).
    2:{ rewrite Hn; change (Zneg kp) with (- Zpos kp); rewrite Hkp.
        rewrite <- Pos2Z.opp_pos, Z2Pos.id; lia. }
    cbn [py_int]; f_equal.
    rewrite Z.shiftr_div_pow2 by lia.
    rewrite Z2Pos.id by lia.
    rewrite Hq.
    replace (54 - D) with (Z.succ (53 - D)) by lia.
    rewrite Z.pow_succ_r by lia.
    rewrite Z.div_mul_cancel_r by lia.
    unfold t; rewrite Pos2Z.inj_mul; reflexivity.
  - rewrite Pos2Z.inj_mul, iter_xO_mul, Hq, Hn, Hkp.
    unfold t; rewrite Pos2Z.inj_mul.
    change (Zpos 6755399441055744) with (3 * 2 ^ 51).
    assert (E : 2 ^ (53 - D) * 2 ^ (D + 51 - d) = 2 ^ (53 - d) * 2 ^ 51)
      by (rewrite <- !Z.pow_add_r by lia; f_equal; lia).
    transitivity (3 * Zpos p * (2 ^ (53 - D) * 2 ^ (D + 51 - d)));
      [rewrite E; ring | ring].
  - destruct (Z.eq_dec D 53) as [E | E].
    + assert (Hqt : q = t) by (apply Pos2Z.inj; rewrite Hq, E; simpl; lia).
      rewrite Hqt; exact E.
    + assert (Hq' : q = Pos.iter xO t (Z.to_pos (53 - D))).
      { apply Pos2Z.inj; rewrite Hq, iter_xO_mul, Z2Pos.id; lia. }
      rewrite Hq', size_iter_xO, Z2Pos.id; fold D; lia.
  - rewrite Hn; change (Zneg kp) with (- Zpos kp); rewrite Hkp; lia.
Qed.

(** X1. The gas limit of tx.py's [set_fee].  For an estimate
    [0 <= gas < 2^51] the binary64 product [gas * 1.5] is exact, so that
    [int(gas_limit * 1.5)] is 3*gas/2 cut off to a whole number: the
    rounding of the floats does not touch the gas limit, which is never
    below the estimate and is not rounded up when the estimate is odd.
    The call returns unless [int] fails on the product for the amount;
    the transaction then carries that gas limit and one coin in uallo,
    the cut-off binary64 product of estimate, 1.5 and price, and its body
    and signer are as before. *)
Theorem set_fee_gas_limit (tx : Transaction) (gas : Z) (price : Q) :
  0 <= gas < 2 ^ 51 ->
  exists g,
    py_float_of_int gas = Ret g /\
    py_int (f64_mul g f64_1_5) = Ret (3 * gas / 2) /\
    gas <= 3 * gas / 2 /\
    set_fee tx gas price
    = obind (py_int (f64_mul (f64_mul g f64_1_5) (f64_of_Q price)))
        (fun a =>
           Ret {| fee := {| gas_limit := 3 * gas / 2;
                            fee_amount :=
                              [ {| denom := "uallo"; amount := a |} ] |};
                  signer_info := signer_info tx;
                  tx_body := tx_body tx |}).
Proof.
  intros [Hlo Hhi].
  assert (Hexact : exists g,
            py_float_of_int gas = Ret g /\
            py_int (f64_mul g f64_1_5) = Ret (3 * gas / 2)).
  { destruct gas as [| p | p]; [| apply adjusted_gas_exact; exact Hhi | lia].
    exists (SpecFloat.S754_zero false); split; reflexivity. }
  destruct Hexact as (g & Hg & Hint).
  exists g; split; [exact Hg |]; split; [exact Hint |]; split.
  - apply Z.div_le_lower_bound; lia.
  - unfold set_fee; rewrite Hg; cbn [obind]; rewrite Hint; reflexivity.
Qed.

(** ** tx.py and wallet.py taken together *)

(** What wallet.py gets from tx.py when it makes its two calls: the
    keyword [gas_adjustment] is not a parameter of [set_fee], and there is
    no [get_fee]. *)
Remark set_fee_call_src tx gas price adjustment :
  call_set_fee Transaction_src tx gas price adjustment
  = Raise unexpected_gas_adjustment.
Proof. reflexivity. Qed.

Remark get_fee_call_src tx :
  call_get_fee Transaction_src tx
  = Raise (AttributeError "'Transaction' object has no attribute 'get_fee'").
Proof. reflexivity. Qed.

Lemma estimate_gas_loop_no_raise W L fuel :
  forall retries gas tx body s e s',
  tx_body tx = Some body ->
  estimate_gas_loop W L fuel retries gas tx s <> (Raise e, s').
Proof.
  induction fuel as [| fuel IH]; intros retries gas tx body s e s' Hbody;
    cbn [estimate_gas_loop];
    destruct ((retries >? 0) && (gas =? -1)); try discriminate.
  destruct (get_tx_bytes_body L tx body (wallet s) (node s) Hbody) as [b Hb].
  unfold bind at 1, tx_bytes at 1; rewrite Hb.
  unfold bind at 1, simulate_tx at 1, http, bind, gets, emit, ret.
  destruct (_ =? -1).
  - unfold sleep, emit; eapply IH; eauto.
  - eapply IH; eauto.
Qed.

(** The text the two methods share, run with the [Transaction] of tx.py,
    whatever the budget of loop passes: all it does is simulate and sleep.
    It returns [r] when the gas loop gave up, it raises the [TypeError] of
    the [set_fee] call when the gas loop gave an estimate, and otherwise it
    has not come out of the gas loop. *)
Lemma pipeline_tail_src W L np r fuel tx body s o s' :
  tx_body tx = Some body ->
  pipeline_tail W L Transaction_src np r fuel tx s = (o, s') ->
  step W sim_or_sleep s s' /\
  (o = Ret r \/ o = Raise unexpected_gas_adjustment \/ o = OutOfFuel).
Proof.
  unfold pipeline_tail; intros Hbody H.
  apply bind_inv in H;
    destruct H as [(gas & s1 & H1 & H) | [(e & H1 & ->) | (H1 & ->)]].
  - pose proof (emits_estimate_gas_loop W L _ _ _ _ _ _ _ H1) as Hs1.
    destruct (gas =? -1).
    + inversion H; subst; auto.
    + unfold get_gas_price in H; rewrite !bind_gets in H.
      unfold bind, lift in H; rewrite set_fee_call_src in H.
      inversion H; subst; auto.
  - exfalso; eapply estimate_gas_loop_no_raise; eauto.
  - split; [eapply emits_estimate_gas_loop; eauto | auto].
Qed.

(** With three loop passes or more the gas loop ends, and the first
    usable estimate among the next three simulate replies decides. *)
Lemma pipeline_tail_src_run W L np r fuel tx body s :
  tx_body tx = Some body -> (3 <= fuel)%nat ->
  exists s',
    pipeline_tail W L Transaction_src np r fuel tx s
    = (if first_gas W 3 (count (is_request EpSimulate) (trace s)) =? -1
       then Ret r else Raise unexpected_gas_adjustment, s') /\
    step W sim_or_sleep s s'.
Proof.
  intros Hbody Hfuel.
  destruct (estimate_gas_loop_run W L 3 fuel tx body s Hbody Hfuel)
    as (s' & Hrun & Hstep & _).
  change (Z.of_nat 3) with 3 in Hrun.
  exists s'; split; [| exact Hstep].
  unfold pipeline_tail; rewrite (bind_Ret _ _ _ _ _ Hrun).
  destruct (_ =? -1); [reflexivity |].
  unfold get_gas_price; rewrite !bind_gets.
  unfold bind, lift; rewrite set_fee_call_src; reflexivity.
Qed.

(** What a call of either method does with tx.py's class, stated for the
    common tail entered in a state [s0] that has the wallet and the trace
    counts of the state [s] the method was called in. *)
Lemma submission_src W L np r fuel tx body s s0 o s' :
  tx_body tx = Some body ->
  wallet s0 = wallet s -> latest_used_nonce s0 = latest_used_nonce s ->
  (forall ep, ep <> EpLatestHeight ->
     count (is_request ep) (trace s0) = count (is_request ep) (trace s)) ->
  pipeline_tail W L Transaction_src np r fuel tx s0 = (o, s') ->
  wallet s' = wallet s /\
  latest_used_nonce s' = latest_used_nonce s /\
  broadcasts s' = broadcasts s /\
  count (is_request EpTx) (trace s') = count (is_request EpTx) (trace s) /\
  (o = Ret r \/ o = Raise unexpected_gas_adjustment \/ o = OutOfFuel) /\
  ((3 <= fuel)%nat ->
   o = if first_gas W 3 (count (is_request EpSimulate) (trace s)) =? -1
       then Ret r else Raise unexpected_gas_adjustment).
Proof.
  intros Hbody Hw Hl Hcount H.
  destruct (pipeline_tail_src W L np r fuel tx body s0 o s' Hbody H)
    as (Hstep & Ho).
  pose proof (step_count W _ _ _ _ no_broadcast_in_estimate Hstep) as Hb.
  pose proof (step_count W _ _ _ _ no_tx_query_in_estimate Hstep) as Hq.
  destruct Hstep as (Hw' & _ & Hl' & _).
  split; [congruence |].
  split; [congruence |].
  split; [unfold broadcasts; rewrite Hb; apply Hcount; discriminate |].
  split; [rewrite Hq; apply Hcount; discriminate |].
  split; [exact Ho |].
  intros Hfuel.
  {
    destruct (pipeline_tail_src_run W L np r fuel tx body s0 Hbody Hfuel)
      as (s'' & Hrun & _).
    rewrite Hrun in H; inversion H.
    rewrite (Hcount EpSimulate); [reflexivity | discriminate]. }
Qed.

Lemma register_for_topic_src W L np fuel topic s o s' :
  register_for_topic W L Transaction_src np fuel topic s = (o, s') ->
  wallet s' = wallet s /\
  latest_used_nonce s' = latest_used_nonce s /\
  broadcasts s' = broadcasts s /\
  count (is_request EpTx) (trace s') = count (is_request EpTx) (trace s) /\
  (o = Ret false \/ o = Raise unexpected_gas_adjustment \/ o = OutOfFuel) /\
  ((3 <= fuel)%nat ->
   o = if first_gas W 3 (count (is_request EpSimulate) (trace s)) =? -1
       then Ret false else Raise unexpected_gas_adjustment).
Proof.
  rewrite register_for_topic_tail.
  apply (submission_src W L np false fuel _ _ s _ o s'
           (set_tx_body_body _ _ _ _)); try reflexivity.
  intros [] Hep; try reflexivity; congruence.
Qed.

Lemma submit_inference_src W L np fuel value topic nonce s o s' :
  submit_inference W L Transaction_src np fuel value topic nonce s = (o, s') ->
  wallet s' = wallet s /\
  latest_used_nonce s' = latest_used_nonce s /\
  broadcasts s' = broadcasts s /\
  count (is_request EpTx) (trace s') = count (is_request EpTx) (trace s) /\
  (o = Ret true \/ o = Raise unexpected_gas_adjustment \/ o = OutOfFuel) /\
  ((3 <= fuel)%nat ->
   o = if first_gas W 3 (count (is_request EpSimulate) (trace s)) =? -1
       then Ret true else Raise unexpected_gas_adjustment).
Proof.
  rewrite submit_inference_tail.
  apply (submission_src W L np true fuel _ _ s _ o s'
           (set_tx_body_body _ _ _ _)); try reflexivity.
  intros [] Hep; try reflexivity; congruence.
Qed.

(** Both methods on a state whose next three simulate replies include a
    usable estimate. *)
Lemma estimated_submission_raises W L np fuel topic value nonce s :
  (3 <= fuel)%nat ->
  first_gas W 3 (count (is_request EpSimulate) (trace s)) <> -1 ->
  (exists s',
     register_for_topic W L Transaction_src np fuel topic s
     = (Raise unexpected_gas_adjustment, s') /\
     wallet s' = wallet s /\ broadcasts s' = broadcasts s /\
     count (is_request EpTx) (trace s') = count (is_request EpTx) (trace s)) /\
  (exists s',
     submit_inference W L Transaction_src np fuel value topic nonce s
     = (Raise unexpected_gas_adjustment, s') /\
     wallet s' = wallet s /\ broadcasts s' = broadcasts s /\
     count (is_request EpTx) (trace s') = count (is_request EpTx) (trace s)).
Proof.
  intros Hfuel Hgas; apply Z.eqb_neq in Hgas.
  split.
  - destruct (register_for_topic W L Transaction_src np fuel topic s)
      as [o s'] eqn:H.
    destruct (register_for_topic_src _ _ _ _ _ _ _ _ H)
      as (Hw & _ & Hb & Hq & _ & Ho).
    rewrite (Ho Hfuel), Hgas; exists s'; auto.
  - destruct (submit_inference W L Transaction_src np fuel value topic nonce s)
      as [o s'] eqn:H.
    destruct (submit_inference_src _ _ _ _ _ _ _ _ _ _ H)
      as (Hw & _ & Hb & Hq & _ & Ho).
    rewrite (Ho Hfuel), Hgas; exists s'; auto.
Qed.

(** ** The submission pipeline, on the code as committed *)

(** C1 (as committed).  The fee of the claim is never applied.  wallet.py
    passes the configured adjustment to [set_fee] by the keyword
    [gas_adjustment], which the [set_fee] of tx.py does not have: the call
    raises [TypeError], whatever the transaction, the estimate, the price
    and the adjustment.  So every registration and every inference
    submission whose gas estimation succeeded ends in that exception, with
    the wallet as before and nothing broadcast. *)
Theorem set_fee_call_raises W L np fuel topic value nonce s :
  (3 <= fuel)%nat ->
  first_gas W 3 (count (is_request EpSimulate) (trace s)) <> -1 ->
  (forall tx gas price adjustment,
     call_set_fee Transaction_src tx gas price adjustment
     = Raise unexpected_gas_adjustment) /\
  (exists s',
     register_for_topic W L Transaction_src np fuel topic s
     = (Raise unexpected_gas_adjustment, s') /\
     wallet s' = wallet s /\ broadcasts s' = broadcasts s) /\
  (exists s',
     submit_inference W L Transaction_src np fuel value topic nonce s
     = (Raise unexpected_gas_adjustment, s') /\
     wallet s' = wallet s /\ broadcasts s' = broadcasts s).
Proof.
  intros Hfuel Hgas.
  split; [intros; reflexivity |].
  destruct (estimated_submission_raises W L np fuel topic value nonce s
              Hfuel Hgas)
    as ((s1 & H1 & Hw1 & Hb1 & _) & (s2 & H2 & Hw2 & Hb2 & _)).
  split; [exists s1 | exists s2]; auto.
Qed.



(** C4 (as committed).  The outcome for a fee above the balance is never
    reached.  [submit_inference] does not return [False] at all, and
    [register_for_topic] returns [False] only when the gas could not be
    estimated.  When the gas was estimated, both methods raise the
    [TypeError] of the [set_fee] call before the balance is looked at,
    whatever the balance is; the wallet is as before, and nothing was
    broadcast or queried. *)
Theorem unaffordable_fee_raises W L np fuel topic value nonce s :
  (3 <= fuel)%nat ->
  (forall o s',
     submit_inference W L Transaction_src np fuel value topic nonce s
     = (o, s') ->
     o <> Ret false)
  /\
  (forall s',
     register_for_topic W L Transaction_src np fuel topic s = (Ret false, s') ->
     first_gas W 3 (count (is_request EpSimulate) (trace s)) = -1)
  /\
  (first_gas W 3 (count (is_request EpSimulate) (trace s)) <> -1 ->
   (exists s',
      register_for_topic W L Transaction_src np fuel topic s
      = (Raise unexpected_gas_adjustment, s') /\
      wallet s' = wallet s /\ broadcasts s' = broadcasts s /\
      count (is_request EpTx) (trace s') = count (is_request EpTx) (trace s))
   /\
   (exists s',
      submit_inference W L Transaction_src np fuel value topic nonce s
      = (Raise unexpected_gas_adjustment, s') /\
      wallet s' = wallet s /\ broadcasts s' = broadcasts s /\
      count (is_request EpTx) (trace s') = count (is_request EpTx) (trace s))).
Proof.
  intros Hfuel; split; [| split].
  - intros o s' H.
    destruct (submit_inference_src _ _ _ _ _ _ _ _ _ _ H)
      as (_ & _ & _ & _ & [-> | [-> | ->]] & _); discriminate.
  - intros s' H.
    destruct (register_for_topic_src _ _ _ _ _ _ _ _ H)
      as (_ & _ & _ & _ & _ & Hrun).
    specialize (Hrun Hfuel).
    destruct (_ =? -1) eqn:Hgas; [apply Z.eqb_eq; exact Hgas | discriminate].
  - apply estimated_submission_raises; exact Hfuel.
Qed.

(** C6 (as committed).  One pass of the polling loop on an active topic,
    with [n] the nonce fetched from the chain.  If [n] is not positive or
    not above the last-used nonce, the pass makes no submission and leaves
    the last-used nonce alone.  If [n] is positive and above it and the
    fetch loop returns a value, the pass calls [submit_inference] exactly
    once, and then it depends on how that call ends.  When the gas cannot
    be estimated the call returns, and the last-used nonce becomes [n].
    When the gas is estimated the call raises the [TypeError] of the
    [set_fee] call: the exception ends the pass before the assignment, and
    the last-used nonce is what it was. *)
Theorem nonce_gating W L np fuel params s s1 s2 n :
  is_topic_active W (topic_id params) s = (Ret true, s1) ->
  get_topic_nonce W (topic_id params) s1 = (Ret n, s2) ->
  ((n <= 0 \/ n <= latest_used_nonce s) ->
   exists s',
     loop_body W L Transaction_src np fuel params s = (Ret tt, s') /\
     submissions s' = submissions s /\
     latest_used_nonce s' = latest_used_nonce s)
  /\
  (n > 0 -> n > latest_used_nonce s -> (3 <= fuel)%nat ->
   forall v s3,
     fetch_loop W fuel (inference_fetch_retries params) None params s2
     = (Ret (Some v), s3) ->
     (first_gas W 3 (count (is_request EpSimulate) (trace s3)) = -1 ->
      exists s',
        loop_body W L Transaction_src np fuel params s = (Ret tt, s') /\
        submissions s' = S (submissions s) /\
        latest_used_nonce s' = n /\
        wallet s' = wallet s)
     /\
     (first_gas W 3 (count (is_request EpSimulate) (trace s3)) <> -1 ->
      exists s',
        loop_body W L Transaction_src np fuel params s
        = (Raise unexpected_gas_adjustment, s') /\
        submissions s' = S (submissions s) /\
        latest_used_nonce s' = latest_used_nonce s /\
        wallet s' = wallet s)).
Proof.
  intros Hactive Hnonce; split.
  - intros Hold.
    destruct (loop_body_old_nonce W L Transaction_src np fuel params s s1 s2 n
                Hactive Hnonce Hold) as (Hrun & Hsub & Hlatest).
    eexists; split; [exact Hrun |]; split; [exact Hsub | exact Hlatest].
  - intros Hpos Hnew Hfuel v s3 Hfetch.
    destruct (submit_inference W L Transaction_src np fuel v (topic_id params)
                n s3) as [o s4] eqn:Hsubmit.
    destruct (loop_body_new_nonce W L Transaction_src np fuel params s s1 s2 n
                v s3 o s4 Hactive Hnonce Hpos Hnew Hfetch Hsubmit)
      as (Hsub & Hlatest & Hrun).
    destruct (submit_inference_src _ _ _ _ _ _ _ _ _ _ Hsubmit)
      as (Hw4 & _ & _ & _ & _ & Ho).
    specialize (Ho Hfuel).
    assert (Hw3 : wallet s3 = wallet s).
    { pose proof (emits_fetch_loop W _ _ _ _ _ _ _ Hfetch) as (Hw & _).
      rewrite Hw.
      rewrite is_topic_active_run in Hactive; inversion Hactive; subst s1.
      rewrite get_topic_nonce_run in Hnonce; inversion Hnonce; reflexivity. }
    split; intros Hgas.
    + rewrite Hgas in Ho; cbn in Ho; subst o.
      eexists; split; [exact Hrun |].
      repeat split; auto; cbn; congruence.
    + apply Z.eqb_neq in Hgas; rewrite Hgas in Ho; subst o.
      exists s4; split; [exact Hrun |].
      repeat split; auto; congruence.
Qed.

(** ** The worker and the registration, on the code as committed *)

(** X10. As committed, [register_for_topic] never returns [True]: it
    returns [False] when the gas cannot be estimated and raises otherwise.
    So a worker whose wallet the chain does not report as registered for
    its topic never gets to its polling loop: it does not check the stop
    flag once, submits nothing and does not close its inference client. *)
Theorem unregistered_worker_never_polls W L np rounds fuel connected params
    s o s' :
  run W L Transaction_src np rounds fuel connected params s = (o, s') ->
  bool_result
    (registered_reply W (count (is_request EpRegistered) (trace s))) = false ->
  (forall topic s4 s5,
     register_for_topic W L Transaction_src np fuel topic s4 <> (Ret true, s5))
  /\
  stop_checks s' = stop_checks s /\
  submissions s' = submissions s /\
  closes s' = closes s.
Proof.
  intros H Hreg.
  assert (Hnever : forall topic s4 s5,
            register_for_topic W L Transaction_src np fuel topic s4
            <> (Ret true, s5)).
  { intros topic s4 s5 H5.
    destruct (register_for_topic_src _ _ _ _ _ _ _ _ H5)
      as (_ & _ & _ & _ & [E | [E | E]] & _); discriminate. }
  split; [exact Hnever |].
  assert (Hle : ~ (stop_checks s < stop_checks s')%nat).
  { intros Hlt.
    destruct (run_polls_only_if_registered W L Transaction_src np rounds fuel
                connected params s o s' H Hreg Hlt) as (s4 & s5 & H5).
    exact (Hnever _ _ _ H5). }
  pose proof (run_cases W L Transaction_src np rounds fuel connected params s
                o s' H) as Hcases.
  destruct Hcases as [(Hc & Hcl & Hsub & Hraise)
                     | (s6 & _ & _ & _ & _ & _ & _ & _ & Hc6 & _ & _ & H6)].
  - repeat split; auto.
  - exfalso; apply Hle.
    apply run_loop_end in H6; destruct H6 as (o7 & s7 & H7 & Hend).
    apply polling_loop_checks in H7.
    assert (Hs : stop_checks s' = stop_checks s7)
      by (destruct Hend as [(_ & _ & ->) | (_ & -> & _)]; reflexivity).
    lia.
Qed.

(** ** Worked examples

    Each general statement above is run here on sample data, and the
    places where the program departs from its description are shown on a
    concrete input. *)

(** A registration on a node that answers every request well, by a
    wallet with 5000000 uallo: the gas is estimated at 100000, and the
    call ends in the [TypeError]. *)
Lemma set_fee_call_raises_witness :
  exists s',
    register_for_topic world_ok sample_lib Transaction_src np 5 1 rich
    = (Raise unexpected_gas_adjustment, s') /\
    wallet s' = wallet rich /\ broadcasts s' = broadcasts rich.
Proof.
  apply (proj1 (proj2 (set_fee_call_raises world_ok sample_lib np 5 1 (3 # 2)
                         101 rich ltac:(lia)
                         ltac:(vm_compute; discriminate)))).
Defined.

(** The [set_fee] of tx.py, called with the two parameters it has.  The
    factor is the 1.5 written in the method and the results are cut off,
    not rounded up: an estimate of 1 gives the gas limit 1.  The amount is
    the binary64 product of estimate, 1.5 and price, cut off:
    [int(100000 * 1.5 * 0.043)] is 6449 and [int(30 * 1.5 * 1.4)] is 62,
    where the products of the decimal numbers are 6450 and 63; and
    [int(100000 * 1.5 * 0.7)] is 105000, where the float that [0.7] stands
    for is below 0.7. *)
Example set_fee_binary64 :
  let fee_set gas price :=
    match set_fee (Transaction_init (sample_wallet 0)) gas price with
    | Ret tx => Some (gas_limit (fee tx), map amount (fee_amount (fee tx)))
    | _ => None
    end in
  fee_set 100000 (10 # 1) = Some (150000, [1500000]) /\
  fee_set 1 (10 # 1) = Some (1, [15]) /\
  fee_set 100000 (43 # 1000) = Some (150000, [6449]) /\
  fee_set 30 (14 # 10) = Some (45, [62]) /\
  fee_set 100000 (7 # 10) = Some (150000, [105000]) /\
  f64_of_Q (7 # 10)
  = SpecFloat.S754_finite false 6305039478318694 (-53).
Proof. vm_compute; repeat split; reflexivity. Qed.

(** An odd estimate, 100001: the gas limit is 150001, the half cut off. *)
Lemma set_fee_gas_limit_witness :
  exists g,
    py_float_of_int 100001 = Ret g /\
    py_int (f64_mul g f64_1_5) = Ret 150001.
Proof.
  destruct (set_fee_gas_limit (Transaction_init (sample_wallet 0)) 100001
              (10 # 1)) as (g & Hg & Hint & _).
  - split; [lia | reflexivity].
  - exists g; split; [exact Hg | exact Hint].
Defined.



(** A wallet with 10 uallo and an estimate of 100000 at the price 10 (the
    fee would be 1500000): [submit_inference] does not return [False], it
    raises. *)
Lemma unaffordable_fee_raises_witness :
  exists s',
    submit_inference world_ok sample_lib Transaction_src np 3 (3 # 2) 1 101
      poor = (Raise unexpected_gas_adjustment, s') /\
    wallet s' = wallet poor /\
    broadcasts s' = 0%nat /\
    count (is_request EpTx) (trace s') = 0%nat.
Proof.
  apply (proj2 (proj2 (proj2 (unaffordable_fee_raises world_ok sample_lib np
                                3 1 (3 # 2) 101 poor ltac:(lia)))
                 ltac:(vm_compute; discriminate))).
Defined.

(** The simulate endpoint is down, with the [Transaction] of tx.py. *)
Lemma unestimable_gas_aborts_witness :
  (exists s',
     register_for_topic world_no_simulate sample_lib Transaction_src np 3 1
       rich = (Ret false, s') /\
     wallet s' = wallet rich /\
     count (is_request EpBroadcast) (trace s') = 0%nat /\
     count (is_request EpSimulate) (trace s') = 3%nat) /\
  (exists s',
     submit_inference world_no_simulate sample_lib Transaction_src np 3
       (3 # 2) 1 101 rich = (Ret true, s') /\
     wallet s' = wallet rich /\
     count (is_request EpBroadcast) (trace s') = 0%nat /\
     count (is_request EpSimulate) (trace s') = 3%nat).
Proof.
  apply (unestimable_gas_aborts world_no_simulate sample_lib Transaction_src
           np 3 1 (3 # 2) 101 rich); [lia | intros i _; reflexivity].
Defined.

(** Last-used nonce 100.  The chain reports 100: no submission, and the
    nonce stays.  The chain reports 101 and the value is fetched: one
    submission, which raises, and the last-used nonce is still 100.  The
    same against a node whose simulate endpoint is down: the submission
    returns, and the last-used nonce becomes 101. *)
Lemma nonce_gating_witness :
  (exists s',
     loop_body world_old_nonce sample_lib Transaction_src np 5 sample_params
       rich = (Ret tt, s') /\
     submissions s' = 0%nat /\
     latest_used_nonce s' = 100) /\
  (exists s',
     loop_body world_ok sample_lib Transaction_src np 5 sample_params rich
     = (Raise unexpected_gas_adjustment, s') /\
     submissions s' = 1%nat /\
     latest_used_nonce s' = 100 /\
     wallet s' = wallet rich) /\
  (exists s',
     loop_body world_no_simulate sample_lib Transaction_src np 5 sample_params
       rich = (Ret tt, s') /\
     submissions s' = 1%nat /\
     latest_used_nonce s' = 101 /\
     wallet s' = wallet rich).
Proof.
  split; [| split].
  - apply (proj1 (nonce_gating world_old_nonce sample_lib np 5 sample_params
                    rich
                    (snd (is_topic_active world_old_nonce 1 rich))
                    (snd (get_topic_nonce world_old_nonce 1
                            (snd (is_topic_active world_old_nonce 1 rich))))
                    100 eq_refl eq_refl)
             (or_intror (Z.le_refl 100))).
  - apply (proj2 (proj2 (nonce_gating world_ok sample_lib np 5 sample_params
                           rich
                           (snd (is_topic_active world_ok 1 rich))
                           (snd (get_topic_nonce world_ok 1
                                   (snd (is_topic_active world_ok 1 rich))))
                           101 eq_refl eq_refl)
                    ltac:(lia) ltac:(simpl; lia) ltac:(lia) (3 # 2)
                    (snd (fetch_loop world_ok 5 2 None sample_params
                            (snd (get_topic_nonce world_ok 1
                                    (snd (is_topic_active world_ok 1
                                            rich))))))
                    eq_refl)
             ltac:(vm_compute; discriminate)).
  - apply (proj1 (proj2 (nonce_gating world_no_simulate sample_lib np 5
                           sample_params rich
                           (snd (is_topic_active world_no_simulate 1 rich))
                           (snd (get_topic_nonce world_no_simulate 1
                                   (snd (is_topic_active world_no_simulate 1
                                           rich))))
                           101 eq_refl eq_refl)
                    ltac:(lia) ltac:(simpl; lia) ltac:(lia) (3 # 2)
                    (snd (fetch_loop world_no_simulate 5 2 None sample_params
                            (snd (get_topic_nonce world_no_simulate 1
                                    (snd (is_topic_active world_no_simulate 1
                                            rich))))))
                    eq_refl)
             eq_refl).
Defined.

(** C7 as stated fails: in the trace of a worker whose stop flag is set
    during the nonce request of its first pass, the polling sleep of 5 s
    follows that request directly, with no check of the flag before it; the
    worker sleeps the whole interval although the flag is already set. *)
Lemma sleep_not_preceded_by_check :
  rev (trace (snd (polling_loop world_stop_in_work sample_lib Transaction_src
                     np 3 3 sample_params poor)))
  = [IsSet false; Request EpTopicActive "1"; Request EpNonce "1"; Sleep 5;
     IsSet true]
  /\ stop_event
       (snd (get_topic_nonce world_stop_in_work 1
               (snd (is_topic_active world_stop_in_work 1
                       (snd (is_set world_stop_in_work poor))))))
     = true
  /\ checks_around_sleeps 5 None
       (rev (trace (snd (polling_loop world_stop_in_work sample_lib
                           Transaction_src np 3 3 sample_params poor))))
     = false.
Proof. repeat split; reflexivity. Qed.

(** The stop lands during the sleep of the first pass: the loop ends with
    the next check, and [run]'s [finally] closes the client. *)
Lemma stop_flag_checked_at_loop_head_witness :
  try_except_finally
    (polling_loop world_stop_in_sleep sample_lib Transaction_src np 3 3
       sample_params)
    (emit world_stop_in_sleep ClientClose) poor
  = (Ret tt,
     record world_stop_in_sleep ClientClose
       (record world_stop_in_sleep (IsSet true)
          (snd (loop_body world_stop_in_sleep sample_lib Transaction_src np 3
                  sample_params
                  (record world_stop_in_sleep (IsSet false) poor))))).
Proof.
  destruct (proj2 (proj2 (stop_flag_checked_at_loop_head world_stop_in_sleep
                            sample_lib Transaction_src np 2 3 sample_params
                            poor))
              eq_refl eq_refl
              (snd (loop_body world_stop_in_sleep sample_lib Transaction_src
                      np 3 sample_params
                      (record world_stop_in_sleep (IsSet false) poor)))
              eq_refl)
    as (s0 & Hs0 & Hrun).
  apply Hrun.
  apply (f_equal trace) in Hs0; cbn [trace record] in Hs0.
  assert (E : trace (snd (loop_body world_stop_in_sleep sample_lib
                            Transaction_src np 3 sample_params
                            (record world_stop_in_sleep (IsSet false) poor)))
              = [Sleep 5; Request EpNonce "1"; Request EpTopicActive "1";
                 IsSet false]) by reflexivity.
  rewrite E in Hs0; injection Hs0 as Ht.
  rewrite <- Ht; reflexivity.
Defined.

(** C8 as stated fails on two counts.  A body that is not a number, sent
    with status 200, is not "value unavailable": [fetch_inference] raises,
    the fetch is not retried, and [run] ends (the client is closed) though
    nobody has set the stop flag.  And a status that is not a success, 404,
    with a number in the body, is taken as a value. *)
Lemma parse_failure_stops_worker :
  inference_result (InferenceResponse 200 (NotNumeric "<html>"))
  = Raise (ValueError "could not convert string to float: <html>")
  /\ fst (run world_bad_body sample_lib Transaction_src np 5 5 true
            sample_params poor) = Ret tt
  /\ rev (trace (snd (run world_bad_body sample_lib Transaction_src np 5 5
                        true sample_params poor)))
     = [Request EpTopicActive "1"; Request EpWhitelistEnabled "1";
        Request EpRegistered "1/allo1q"; Request EpTopicActive "1";
        IsSet false; Request EpTopicActive "1"; Request EpNonce "1";
        Request EpInference "http://localhost:8000/inference"; ClientClose]
  /\ stop_event (snd (run world_bad_body sample_lib Transaction_src np 5 5
                        true sample_params poor)) = false
  /\ inference_result (InferenceResponse 404 (Numeric (3 # 2)))
     = Ret (Some (3 # 2)).
Proof. repeat split; reflexivity. Qed.

(** The endpoint answers 503 to both attempts: two requests, three sleeps,
    no submission, and the pass returns. *)
Lemma unavailable_value_skips_round_witness :
  exists s',
    loop_body world_no_inference sample_lib Transaction_src np 5 sample_params
      poor = (Ret tt, s') /\
    count (is_request EpInference) (trace s') = 2%nat /\
    count is_sleep (trace s') = 3%nat /\
    submissions s' = 0%nat /\
    latest_used_nonce s' = 100 /\
    stop_event s' = false.
Proof.
  destruct (proj2 (proj2 (unavailable_value_skips_round world_no_inference
                            sample_lib Transaction_src np 5 sample_params poor
                            (snd (is_topic_active world_no_inference 1 poor))
                            (snd (get_topic_nonce world_no_inference 1
                                    (snd (is_topic_active world_no_inference
                                            1 poor))))
                            101))
              eq_refl eq_refl ltac:(lia) ltac:(simpl; lia)
              ltac:(simpl; lia) ltac:(intros i _; reflexivity))
    as (s' & Hrun & Hreq & Hsleep & Hsub & Hlatest & _ & Hstop).
  exists s'; repeat split; try assumption.
  apply Hstop; intros k; reflexivity.
Defined.

(** An account with number 7, sequence 3 and balance 0: the wallet is left
    uninitialized with 7 and 3 set, and [main] exits with -1 before any
    worker thread is started. *)
Lemma initialized_only_if_funded_witness :
  (exists s',
     Wallet_init world_zero_balance (3 # 2) poor = (Ret tt, s') /\
     is_initialized s' = (Ret false, s') /\
     account_number (wallet s') = 7 /\ sequence (wallet s') = 3) /\
  main world_zero_balance sample_config poor
  = (Raise (SystemExit (-1)),
     snd (Wallet_init world_zero_balance (3 # 2) poor)) /\
  threads_started (snd (Wallet_init world_zero_balance (3 # 2) poor)) = 0%nat.
Proof.
  split.
  - apply (proj1 (proj2 (initialized_only_if_funded world_zero_balance
                           sample_config poor))
             (3 # 2) {| info_account_number := 7; info_sequence := 3 |}
             eq_refl (or_intror eq_refl)).
  - apply (proj2 (proj2 (initialized_only_if_funded world_zero_balance
                           sample_config poor))
             "abandon ability able" "https://node.example" (3 # 2)
             (snd (Wallet_init world_zero_balance (3 # 2) poor))
             eq_refl ltac:(discriminate) eq_refl ltac:(discriminate) eq_refl
             eq_refl eq_refl eq_refl).
Defined.

(** A registration as the node saw it: the height is asked for, the
    zero-fee draft is signed and simulated, and nothing else is sent. *)
Example registration_trace :
  rev (trace (snd (register_for_topic world_ok sample_lib Transaction_src np
                     5 1 rich)))
  = [CallRegister 1; Request EpLatestHeight "";
     Request EpSimulate
       "timeout 1050; sequence 3, gas 0, fee 0; [timeout 1050; sequence 3, gas 0, fee 0; allora-testnet-1 account 7]"].
Proof. reflexivity. Qed.

(** A worker on a node that answers every request well: its first
    submission raises, [run] logs the exception and closes the inference
    client, and the worker is over with the stop flag not set. *)
Example worker_ends_at_first_submission :
  fst (run world_ok sample_lib Transaction_src np 5 5 true sample_params rich)
  = Ret tt
  /\ rev (trace (snd (run world_ok sample_lib Transaction_src np 5 5 true
                        sample_params rich)))
     = [Request EpTopicActive "1"; Request EpWhitelistEnabled "1";
        Request EpRegistered "1/allo1q"; Request EpTopicActive "1";
        IsSet false; Request EpTopicActive "1"; Request EpNonce "1";
        Request EpInference "http://localhost:8000/inference";
        CallSubmit (3 # 2) 1 101; Request EpLatestHeight "";
        Request EpSimulate
          "timeout 1050; sequence 3, gas 0, fee 0; [timeout 1050; sequence 3, gas 0, fee 0; allora-testnet-1 account 7]";
        ClientClose]
  /\ stop_event (snd (run world_ok sample_lib Transaction_src np 5 5 true
                        sample_params rich)) = false.
Proof. repeat split; reflexivity. Qed.

(** A configuration without [gas_adjustment]: [main] ends in the
    [KeyError], with no request made for the account. *)
Example main_without_gas_adjustment :
  main world_ok sample_config_no_adjustment rich
  = (Raise (KeyError "gas_adjustment"), rich).
Proof. reflexivity. Qed.


(** ** The parameter classes and the node's constructor *)

Lemma or_default_cases (v : option Z) (d : Z) :
  0 < d ->
  0 < or_default v d /\
  (forall x, v = Some x -> 0 < x -> or_default v d = x) /\
  ((v = None \/ exists x, v = Some x /\ x <= 0) -> or_default v d = d).
Proof.
  intros Hd; unfold or_default.
  destruct v as [x |].
  - destruct (x <=? 0) eqn:Hx;
      [apply Z.leb_le in Hx | apply Z.leb_gt in Hx]; repeat split;
      try lia.
    + intros y Hy; injection Hy as <-; lia.
    + intros y Hy; injection Hy as <-; reflexivity.
    + intros [H | (y & Hy & Hle)]; [discriminate |].
      injection Hy as <-; lia.
  - repeat split; auto; intros; discriminate.
Qed.

(** X20. The parameter classes never hold a retry count or a waiting time
    that is not positive, whatever the configuration says; and a configured
    value that is positive is the one kept. *)
Theorem params_positive (cfg : Config) (topic : Z) (url : string)
    (p : TopicConfig) :
  let np := APINodeParams_init cfg in
  let wp := WorkerParams_init topic url p in
  (0 < tx_check_retries np /\ 0 < tx_check_freq np /\
   0 < nonce_fetch_freq wp /\ 0 < inference_fetch_retries wp /\
   0 < inference_fetch_retry_freq wp) /\
  (forall x, cfg_tx_check_retries cfg = Some x -> 0 < x ->
             tx_check_retries np = x) /\
  (forall x, cfg_tx_check_freq cfg = Some x -> 0 < x ->
             tx_check_freq np = x) /\
  (forall x, cfg_nonce_fetch_freq p = Some x -> 0 < x ->
             nonce_fetch_freq wp = x) /\
  (forall x, cfg_inference_fetch_retries p = Some x -> 0 < x ->
             inference_fetch_retries wp = x) /\
  (forall x, cfg_inference_fetch_retry_freq p = Some x -> 0 < x ->
             inference_fetch_retry_freq wp = x) /\
  topic_id wp = topic /\ inference_url wp = url.
Proof.
  cbv zeta; cbn [APINodeParams_init WorkerParams_init tx_check_retries
                   tx_check_freq nonce_fetch_freq inference_fetch_retries
                   inference_fetch_retry_freq topic_id inference_url].
  repeat split;
    try (apply or_default_cases; lia);
    intros x Hx Hpos; apply or_default_cases; auto; lia.
Qed.

Lemma fetch_chain_id_node R st :
  chain_id (setup_node (fetch_chain_id R st))
  = match fetched_value (node_info_reply R) with
    | None => chain_id (setup_node st)
    | Some network => network
    end.
Proof.
  unfold fetch_chain_id; cbn [setup_node].
  destruct (fetched_value (node_info_reply R)); reflexivity.
Qed.

Lemma update_gas_price_node R st :
  gas_price (setup_node (update_gas_price R st))
  = match fetched_value (gas_price_reply R) with
    | None => gas_price (setup_node st)
    | Some price => price
    end /\
  chain_id (setup_node (update_gas_price R st)) = chain_id (setup_node st).
Proof.
  unfold update_gas_price; cbn [setup_node].
  destruct (fetched_value (gas_price_reply R)); split; reflexivity.
Qed.

(** X2. The constructor of [APINode].  A wallet's node comes out
    connected exactly when a chain id other than the empty string and a gas
    price other than 0 were fetched and the node says it is not syncing; it
    then holds that chain id and that price, and made its three requests in
    this order.  The checks fail fast: with no chain id only the node-info
    request was made.  A worker's node asks for the syncing status only and
    keeps the class defaults, chain id [""] and gas price 0. *)
Theorem APINode_init_connected (R : NodeReplies) :
  (connected (setup_node (APINode_init R true)) = true <->
   exists network price,
     fetched_value (node_info_reply R) = Some network /\ network <> "" /\
     fetched_value (gas_price_reply R) = Some price /\ ~ (price == 0)%Q /\
     fetched_value (syncing_reply R) = Some false /\
     chain_id (setup_node (APINode_init R true)) = network /\
     gas_price (setup_node (APINode_init R true)) = price /\
     rev (setup_requests (APINode_init R true))
     = [ReqNodeInfo; ReqGasPrice; ReqSyncing]) /\
  ((fetched_value (node_info_reply R) = None \/
    fetched_value (node_info_reply R) = Some "") ->
   setup_requests (APINode_init R true) = [ReqNodeInfo] /\
   connected (setup_node (APINode_init R true)) = false) /\
  (setup_requests (APINode_init R false) = [ReqSyncing] /\
   chain_id (setup_node (APINode_init R false)) = "" /\
   gas_price (setup_node (APINode_init R false)) = 0%Q /\
   (connected (setup_node (APINode_init R false)) = true <->
    fetched_value (syncing_reply R) = Some false)).
Proof.
  split; [| split].
  - unfold APINode_init, create_client.
    pose proof (fetch_chain_id_node R
                  {| setup_node := {| chain_id := ""; gas_price := 0;
                                      connected := false |};
                     setup_requests := [] |}) as Hid.
    cbn [setup_node chain_id] in Hid.
    set (st1 := fetch_chain_id R _) in *.
    destruct (update_gas_price_node R st1) as (Hprice & Hid2).
    set (st2 := update_gas_price R st1) in *.
    assert (Hreq : setup_requests st2 = [ReqGasPrice; ReqNodeInfo])
      by reflexivity.
    assert (Hgp1 : gas_price (setup_node st1) = 0%Q).
    { unfold st1, fetch_chain_id; cbn [setup_node].
      destruct (fetched_value (node_info_reply R)); reflexivity. }
    destruct (String.eqb (chain_id (setup_node st1)) "") eqn:Hc.
    + cbn [setup_node connected]; split; [discriminate |].
      intros (network & price & Hn & Hne & _).
      rewrite Hn in Hid; apply String.eqb_eq in Hc; congruence.
    + apply String.eqb_neq in Hc.
      destruct (Qeq_bool (gas_price (setup_node st2)) 0) eqn:Hq.
      * cbn [setup_node connected]; split; [discriminate |].
        intros (network & price & _ & _ & Hp & Hnz & _).
        rewrite Hp in Hprice; apply Qeq_bool_iff in Hq.
        rewrite Hprice in Hq; contradiction.
      * unfold check_syncing; cbn [setup_node connected chain_id gas_price
                                     setup_requests rev app].
        rewrite Hreq; cbn [rev app].
        destruct (fetched_value (node_info_reply R)) as [network |];
          [| congruence].
        destruct (fetched_value (gas_price_reply R)) as [price |];
          [| rewrite Hprice, Hgp1 in Hq; discriminate].
        assert (Hnz : ~ (price == 0)%Q).
        { intros Heq; apply Qeq_bool_iff in Heq; congruence. }
        destruct (fetched_value (syncing_reply R)) as [[|] |];
          cbn [negb]; split; try discriminate;
          try (intros (? & ? & _ & _ & _ & _ & Hs & _); discriminate);
          try (intros _; reflexivity).
        intros _; exists network, price.
        repeat split; auto; congruence.
  - intros Hfail.
    assert (Hid : chain_id (setup_node
                    (fetch_chain_id R
                       {| setup_node := {| chain_id := ""; gas_price := 0;
                                           connected := false |};
                          setup_requests := [] |})) = "").
    { rewrite fetch_chain_id_node; destruct Hfail as [-> | ->]; reflexivity. }
    unfold APINode_init, create_client.
    rewrite Hid; cbn; split; reflexivity.
  - unfold APINode_init, create_client, check_syncing.
    cbn [setup_node setup_requests chain_id gas_price connected].
    repeat split.
    + destruct (fetched_value (syncing_reply R)) as [[|] |];
        cbn; congruence.
    + intros ->; reflexivity.
Qed.


(** ** Worked examples for the properties above *)

(** Ten queries answered "not found", ten sleeps, and the wait is over. *)
Lemma wait_for_tx_times_out_witness :
  exists s',
    wait_for_tx world_timeout np 10 "9F2C" rich
    = (Ret "transaction not included in a block", s') /\
    count (is_request EpTx) (trace s') = 10%nat /\
    count is_sleep (trace s') = 10%nat.
Proof.
  destruct (wait_for_tx_times_out world_timeout np 10 "9F2C" rich)
    as (s' & Hrun & Ht & Hs & _).
  - simpl; lia.
  - intros j _; reflexivity.
  - exists s'; repeat split; assumption.
Defined.

(** The transaction is found at the third query: three queries, two
    sleeps, success. *)
Lemma wait_for_tx_verdict_witness :
  exists s',
    wait_for_tx world_tx_late np 5 "9F2C" rich = (Ret "", s') /\
    count (is_request EpTx) (trace s') = 3%nat /\
    count is_sleep (trace s') = 2%nat.
Proof.
  destruct (wait_for_tx_verdict world_tx_late np 2 5 "9F2C" rich "")
    as (s' & Hrun & Ht & Hs & _).
  - lia.
  - simpl; lia.
  - intros [| [| j]] Hj; [reflexivity | reflexivity | lia].
  - reflexivity.
  - exists s'; repeat split; assumption.
Defined.

(** Error objects with code 2: seven passes of the loop, seven queries, no
    sleep, no result. *)
Lemma wait_for_tx_never_counts_witness :
  exists s',
    wait_for_tx world_tx_error np 7 "9F2C" rich = (OutOfFuel, s') /\
    count (is_request EpTx) (trace s') = 7%nat /\
    count is_sleep (trace s') = 0%nat.
Proof.
  destruct (wait_for_tx_never_counts world_tx_error np 7 "9F2C" rich)
    as (s' & Hrun & Ht & Hs).
  - simpl; lia.
  - intros j; reflexivity.
  - exists s'; repeat split; assumption.
Defined.

Lemma wait_for_tx_empty_means_receipt_witness :
  (count (is_request EpTx) (trace rich)
   < count (is_request EpTx)
       (trace (snd (wait_for_tx world_tx_late np 5 "9F2C" rich))))%nat.
Proof.
  apply (wait_for_tx_empty_means_receipt world_tx_late np 5 "9F2C" rich
           (snd (wait_for_tx world_tx_late np 5 "9F2C" rich))).
  vm_compute; reflexivity.
Defined.

(** Two failed simulations, then an estimate: three requests. *)
Lemma gas_estimation_attempts_witness :
  exists a gas s',
    estimate_gas_loop world_flaky sample_lib 3 3 (-1)
      (register_draft world_flaky 1 rich) rich = (Ret gas, s') /\
    wallet s' = wallet rich /\
    count (is_request EpSimulate) (trace s') = a.
Proof.
  destruct (gas_estimation_attempts world_flaky sample_lib 3
              (register_draft world_flaky 1 rich)
              {| messages :=
                   [ {| type_url := "/emissions.v9.RegisterRequest";
                        packed :=
                          RegisterRequest "allo1q" 1 "allo1q" false |} ];
                 memo := ""; timeout_height := 1050 |} rich)
    as (a & gas & s' & Hrun & Hw & Hc & _).
  - reflexivity.
  - lia.
  - exists a, gas, s'; repeat split; assumption.
Defined.

(** A worker whose wallet is not registered, on a node that answers every
    request well: the registration raises, and [run] ends with it, the
    stop flag never checked. *)
Lemma unregistered_worker_never_polls_witness :
  stop_checks
    (snd (run world_unregistered sample_lib Transaction_src np 5 5 true
            sample_params rich)) = 0%nat /\
  submissions
    (snd (run world_unregistered sample_lib Transaction_src np 5 5 true
            sample_params rich)) = 0%nat /\
  closes
    (snd (run world_unregistered sample_lib Transaction_src np 5 5 true
            sample_params rich)) = 0%nat.
Proof.
  apply (proj2 (unregistered_worker_never_polls world_unregistered sample_lib
                  np 5 5 true sample_params rich
                  (fst (run world_unregistered sample_lib Transaction_src np 5
                          5 true sample_params rich))
                  (snd (run world_unregistered sample_lib Transaction_src np 5
                          5 true sample_params rich))
                  (surjective_pairing _) eq_refl)).
Defined.

(** Four passes with the nonces 101 to 104, each submission ending at the
    gas loop: four calls of [submit_inference], with rising nonces. *)
Lemma polling_loop_nonces_increase_witness :
  exists ns,
    new_nonces rich
      (snd (polling_loop world_rising sample_lib Transaction_src np 5 5
              sample_params rich)) ns /\
    Sorted.StronglySorted Z.gt ns /\
    Forall (fun n => latest_used_nonce rich < n /\ 0 < n) ns.
Proof.
  apply (polling_loop_nonces_increase world_rising sample_lib Transaction_src
           np 5 5 sample_params rich
           (fst (polling_loop world_rising sample_lib Transaction_src np 5 5
                   sample_params rich))).
  apply surjective_pairing.
Defined.

Lemma polling_loop_sequence_bound_witness :
  sequence (wallet rich)
  <= sequence
       (wallet (snd (polling_loop world_rising sample_lib Transaction_src np
                       5 5 sample_params rich)))
  <= sequence (wallet rich)
     + Z.of_nat
         (submissions
            (snd (polling_loop world_rising sample_lib Transaction_src np 5 5
                    sample_params rich))
          - submissions rich).
Proof.
  apply (polling_loop_sequence_bound world_rising sample_lib Transaction_src
           np 5 5 sample_params rich
           (fst (polling_loop world_rising sample_lib Transaction_src np 5 5
                   sample_params rich))).
  apply surjective_pairing.
Defined.

(** The endpoint is down once: two requests, one sleep, the value. *)
Lemma fetch_loop_ends_witness :
  fst (fetch_loop world_slow_inference 5 2 None sample_params rich)
  <> OutOfFuel /\
  wallet (snd (fetch_loop world_slow_inference 5 2 None sample_params rich))
  = wallet rich.
Proof.
  destruct (fetch_loop_ends world_slow_inference 2 5 2 sample_params rich
              (fst (fetch_loop world_slow_inference 5 2 None sample_params
                      rich))
              (snd (fetch_loop world_slow_inference 5 2 None sample_params
                      rich)))
    as (Hend & Hw & _).
  - reflexivity.
  - lia.
  - apply surjective_pairing.
  - split; assumption.
Defined.

(** A worker whose topic is switched off after its checks: the loop is
    entered, the wallet was registered, no registration is made. *)
Lemma run_reaches_loop_only_if_witness :
  registrations
    (snd (run world_deactivated sample_lib Transaction_src np 5 5 true
            sample_params rich))
  = registrations rich.
Proof.
  apply (run_reaches_loop_only_if world_deactivated sample_lib
           Transaction_src np 5 5 true sample_params rich
           (fst (run world_deactivated sample_lib Transaction_src np 5 5 true
                   sample_params rich))
           (snd (run world_deactivated sample_lib Transaction_src np 5 5 true
                   sample_params rich))).
  - apply surjective_pairing.
  - vm_compute; lia.
Defined.

(** The same worker: the loop was entered, and the client was closed once,
    at the very end. *)
Lemma run_closes_client_iff_loop_witness :
  closes
    (snd (run world_deactivated sample_lib Transaction_src np 5 5 true
            sample_params rich))
  = 1%nat /\
  exists s7,
    snd (run world_deactivated sample_lib Transaction_src np 5 5 true
           sample_params rich)
    = record world_deactivated ClientClose s7.
Proof.
  destruct (run_closes_client_iff_loop world_deactivated sample_lib
              Transaction_src np 5 5 true sample_params rich
              (fst (run world_deactivated sample_lib Transaction_src np 5 5
                      true sample_params rich))
              (snd (run world_deactivated sample_lib Transaction_src np 5 5
                      true sample_params rich)))
    as [(Hc & _) | (_ & Hcl & Hlast & _)].
  - apply surjective_pairing.
  - vm_compute; discriminate.
  - vm_compute in Hc; discriminate.
  - split; [exact Hcl | exact Hlast].
Defined.

Lemma polling_loop_deactivated_witness :
  exists s',
    polling_loop world_inactive sample_lib Transaction_src np 1 5
      sample_params rich = (Ret tt, s') /\
    trace s' = [IsSet true; Request EpTopicActive "1"; IsSet false] /\
    stop_event s' = true.
Proof.
  destruct (polling_loop_deactivated world_inactive sample_lib
              Transaction_src np 0 5 sample_params rich)
    as (s' & Hrun & Ht & Hs & _).
  - reflexivity.
  - reflexivity.
  - exists s'; repeat split; assumption.
Defined.

Lemma failed_height_still_submits_witness :
  exists body,
    tx_body (register_draft world_no_height 1 rich) = Some body /\
    timeout_height body = 49.
Proof.
  apply (failed_height_still_submits world_no_height sample_lib
           Transaction_src np 5 (3 # 2) 1 101 rich).
  - lia.
  - reflexivity.
Defined.

(** Three topic entries, one of them complete: one worker thread. *)
Lemma main_outcomes_witness :
  fst (main world_ok sample_config_three rich) = Ret tt /\
  threads_started (snd (main world_ok sample_config_three rich)) = 1%nat.
Proof.
  destruct (proj1 (main_outcomes world_ok sample_config_three rich
                     (fst (main world_ok sample_config_three rich))
                     (snd (main world_ok sample_config_three rich))
                     (surjective_pairing _))
              (or_introl eq_refl))
    as (seed & url & adjustment & topics & _ & _ & _ & _ & _ & _ & _ & _
        & Htopics & _ & Hthreads).
  split; [reflexivity |].
  injection Htopics as <-; exact (Hthreads eq_refl).
Defined.

Lemma account_reply_without_info_raises_witness :
  exists s',
    main world_bare_account sample_config rich
    = (Raise (KeyError "code"), s') /\
    trace s' = [Request EpAccountInfo "allo1q"].
Proof.
  destruct (account_reply_without_info_raises world_bare_account sample_config
              "abandon ability able" "https://node.example" (3 # 2) 200
              {| j_code := None; j_message := ""; payload := None |} rich)
    as (s' & _ & Hmain & Ht & _);
    try reflexivity; try discriminate.
  exists s'; split; assumption.
Defined.

(** Seven failed broadcasts, two more than the count of retries, and the
    eighth is accepted: eight requests, no sleep. *)
Lemma broadcast_loop_first_hash_witness :
  exists s',
    broadcast_loop world_flaky sample_lib 9 5 (PyStr "")
      (register_draft world_flaky 1 rich) rich = (Ret (PyStr "9F2C"), s') /\
    count (is_request EpBroadcast) (trace s') = 8%nat /\
    count is_sleep (trace s') = 0%nat.
Proof.
  destruct (broadcast_loop_first_hash world_flaky sample_lib 7 9 5
              (register_draft world_flaky 1 rich)
              {| messages :=
                   [ {| type_url := "/emissions.v9.RegisterRequest";
                        packed :=
                          RegisterRequest "allo1q" 1 "allo1q" false |} ];
                 memo := ""; timeout_height := 1050 |} rich "9F2C")
    as (s' & Hrun & Hc & Hs & _).
  - reflexivity.
  - lia.
  - lia.
  - intros j Hj; do 7 (destruct j as [| j]; [reflexivity |]); lia.
  - reflexivity.
  - discriminate.
  - exists s'; repeat split; assumption.
Defined.


(** A node in order is connected as a wallet's node; a node that is still
    syncing is not connected as a worker's node. *)
Lemma APINode_init_connected_witness :
  connected (setup_node (APINode_init good_node_replies true)) = true /\
  connected (setup_node (APINode_init syncing_node_replies false)) <> true.
Proof.
  split.
  - apply (proj1 (APINode_init_connected good_node_replies)).
    exists "allora-testnet-1", (10 # 1).
    repeat split; try reflexivity; discriminate.
  - intros H.
    apply (proj2 (proj2 (APINode_init_connected syncing_node_replies))) in H.
    discriminate H.
Defined.

(** The configured 4 retries are kept, the configured frequency 0 and the
    configured -1 retries are replaced by the defaults 3 and 5. *)
Lemma params_positive_witness :
  tx_check_retries (APINodeParams_init sample_config_three) = 4 /\
  0 < tx_check_freq (APINodeParams_init sample_config_three) /\
  0 < inference_fetch_retries
        (WorkerParams_init 1 "http://localhost:8000/inference"
           {| cfg_topic_id := Some 1;
              cfg_inference_url := Some "http://localhost:8000/inference";
              cfg_nonce_fetch_freq := Some 7;
              cfg_inference_fetch_retries := Some (-1);
              cfg_inference_fetch_retry_freq := None |}).
Proof.
  destruct (params_positive sample_config_three 1
              "http://localhost:8000/inference"
              {| cfg_topic_id := Some 1;
                 cfg_inference_url := Some "http://localhost:8000/inference";
                 cfg_nonce_fetch_freq := Some 7;
                 cfg_inference_fetch_retries := Some (-1);
                 cfg_inference_fetch_retry_freq := None |})
    as ((_ & Hfreq & _ & Hretries & _) & Hkept & _).
  split; [apply Hkept; [reflexivity | lia] |].
  split; [exact Hfreq | exact Hretries].
Defined.
